(** * Sony IMX294 V4L2 sensor driver: timing arithmetic and control handler

    A shallow embedding of the parts of [imx294.c] that decide the
    exposure / frame-timing behaviour of the driver:

    - the fixed-width integer arithmetic of the timing calculator
      ([calculate_v4l2_cid_exposure], [calculate_min_max_v4l2_cid_exposure],
      [calculate_shr]);
    - the mode catalog [supported_modes_12bit] and the format table [codes];
    - the control handler [imx294_set_ctrl] with its register writes, the
      framing limits [imx294_set_framing_limits], the format-code lookup
      [imx294_get_format_code] and the chip identification of [imx294_probe].

    The rest of the driver is covered as well: the bus helpers and the
    register lists ([imx294_read_reg], [imx294_write_regs]), streaming and
    power ([imx294_start_streaming], [imx294_set_stream], [imx294_suspend],
    [imx294_resume]), and the pad operations ([imx294_enum_mbus_code],
    [imx294_enum_frame_size], [imx294_get_pad_format],
    [imx294_set_pad_format]).

    C integers are modelled as [Z] with the wrap-around of their width written
    out ([u16], [u32], [u64]).  Code that can trap (a division by zero in
    [do_div], an array read past its end) returns [option]. *)

From Stdlib Require Import ZArith List Bool Lia.
Import ListNotations.
Local Open Scope Z_scope.

(** ** Fixed-width integers *)

Definition u8  (x : Z) : Z := x mod 2 ^ 8.
Definition u16 (x : Z) : Z := x mod 2 ^ 16.
Definition u32 (x : Z) : Z := x mod 2 ^ 32.
Definition u64 (x : Z) : Z := x mod 2 ^ 64.

(** Conversion of a 32-bit pattern to [int] / [s32] (two's complement). *)
Definition s32 (x : Z) : Z :=
  let r := u32 x in if r <? 2 ^ 31 then r else r - 2 ^ 32.

(** Conversion of a 64-bit pattern to [s64]. *)
Definition s64 (x : Z) : Z :=
  let r := u64 x in if r <? 2 ^ 63 then r else r - 2 ^ 64.

(** [is_uN x]: [x] is a value of the N-bit unsigned type. *)
Definition is_u16 (x : Z) : Prop := 0 <= x < 2 ^ 16.
Definition is_u32 (x : Z) : Prop := 0 <= x < 2 ^ 32.
Definition is_u64 (x : Z) : Prop := 0 <= x < 2 ^ 64.

(** ** A small error monad for code that can trap *)

Definition obind {A B : Type} (c : option A) (k : A -> option B) : option B :=
  match c with
  | Some a => k a
  | None => None
  end.

Notation "x <- c ;; k" := (obind c (fun x => k))
  (at level 61, c at next level, right associativity).
Notation "' ( x , y ) <- c ;; k" := (obind c (fun p => let '(x, y) := p in k))
  (at level 61, x name, y name, c at next level, right associativity).

(** ** Kernel helper macros used by the driver

    These macros come from the Linux headers ([asm-generic/div64.h],
    [linux/minmax.h]); the driver only uses them. *)
Module Kernel.

(** [do_div(n, base)]: [n] is a 64-bit lvalue, the divisor is converted to
    [uint32_t] ([uint32_t __base = (base);]); [n] is replaced by the
    quotient.  A zero divisor traps. *)
Definition do_div (n base : Z) : option Z :=
  let b := u32 base in
  if b =? 0 then None else Some (u64 n / b).

(** [__clamp(val, lo, hi)] :
    [(val) >= (hi) ? (hi) : ((val) <= (lo) ? (lo) : (val))]. *)
Definition clamp (val lo hi : Z) : Z :=
  if val >=? hi then hi else if val <=? lo then lo else val.

(** [clamp_t(type, val, lo, hi)] converts the three operands to [type]
    before it compares them; [cast] is that conversion. *)
Definition clamp_t (cast : Z -> Z) (val lo hi : Z) : Z :=
  clamp (cast val) (cast lo) (cast hi).

(** [min_t(type, x, y)] converts both operands to [type]. *)
Definition min_t (cast : Z -> Z) (x y : Z) : Z :=
  if cast x <? cast y then cast x else cast y.

End Kernel.

(** ** Timing calculator *)
Module Timing.
Import Kernel.

(** [static u64 calculate_v4l2_cid_exposure(u64 hmax, u64 vmax, u64 shr,
    u64 svr, u64 offset)]. *)
Definition calculate_v4l2_cid_exposure (hmax vmax shr svr offset : Z)
  : option Z :=
  let numerator := u64 (u64 (u64 (vmax * u64 (svr + 1)) - shr) * hmax + offset) in
  numerator <- do_div numerator hmax ;;
  let numerator := clamp_t u32 numerator 0 0xFFFFFFFF in
  Some numerator.

(** [static void calculate_min_max_v4l2_cid_exposure(u64 hmax, u64 vmax,
    u64 min_shr, u64 svr, u64 offset, u64 *min_exposure, u64 *max_exposure)];
    the two out-parameters are returned as a pair. *)
Definition calculate_min_max_v4l2_cid_exposure
    (hmax vmax min_shr svr offset : Z) : option (Z * Z) :=
  let max_shr := u64 (u64 (svr + 1) * vmax - 4) in
  let max_shr := min_t u64 max_shr 0xFFFF in
  min_exposure <- calculate_v4l2_cid_exposure hmax vmax max_shr svr offset ;;
  max_exposure <- calculate_v4l2_cid_exposure hmax vmax min_shr svr offset ;;
  Some (min_exposure, max_exposure).

(** [static uint32_t calculate_shr(uint32_t exposure, uint32_t hmax,
    uint64_t vmax, uint32_t svr, uint32_t offset)].  The arguments are
    converted to the parameter types on entry; [svr + 1] is computed in
    32 bits. *)
Definition calculate_shr (exposure hmax vmax svr offset : Z) : option Z :=
  let exposure := u32 exposure in
  let hmax := u32 hmax in
  let vmax := u64 vmax in
  let svr := u32 svr in
  let offset := u32 offset in
  let temp := u64 (exposure * hmax - offset) in
  temp <- do_div temp hmax ;;
  let shr := u32 (u64 (vmax * u32 (svr + 1)) - temp) in
  Some shr.

(** The exposure formula of the data sheet over the mathematical integers,
    with a saturating clamp into the 32-bit unsigned range; this is the
    reading of the specification that the code is compared with. *)
Definition exposure_formula (hPeriod vPeriod shutterOffsetReg svr integrationOffset : Z) : Z :=
  ((vPeriod * (svr + 1) - shutterOffsetReg) * hPeriod + integrationOffset) / hPeriod.

Definition saturate_u32 (x : Z) : Z := Z.max 0 (Z.min x (2 ^ 32 - 1)).

Definition exposureFromShutter_spec (hPeriod vPeriod shutterOffsetReg svr integrationOffset : Z) : Z :=
  saturate_u32 (exposure_formula hPeriod vPeriod shutterOffsetReg svr integrationOffset).

(** The same formula with every operation taken in 64-bit unsigned
    arithmetic (the other possible reading of "unsigned inputs"). *)
Definition exposureFromShutter_spec_u64 (hPeriod vPeriod shutterOffsetReg svr integrationOffset : Z) : Z :=
  saturate_u32
    (u64 (u64 (u64 (vPeriod * u64 (svr + 1)) - shutterOffsetReg) * hPeriod + integrationOffset)
     / hPeriod).

(** The exposure bounds as the specification words them, over the
    mathematical integers: the largest shutter offset is
    [min(65535, vPeriod*(svr+1) - 4)]; the smallest exposure is the
    exposure at that offset, the largest the exposure at the smallest
    shutter offset. *)
Definition exposureBounds_spec (hPeriod vPeriod minShutterOffset svr integrationOffset : Z) : Z * Z :=
  let maxShutterOffset := Z.min 65535 (vPeriod * (svr + 1) - 4) in
  (exposureFromShutter_spec hPeriod vPeriod maxShutterOffset svr integrationOffset,
   exposureFromShutter_spec hPeriod vPeriod minShutterOffset svr integrationOffset).

End Timing.

(** ** Mode catalog *)
Module Catalog.

(** [struct v4l2_rect]. *)
Record v4l2_rect := mk_rect {
  left : Z; top : Z; rect_width : Z; rect_height : Z }.

(** [struct imx294_mode]; [width], [height] and [integration_offset] are
    [unsigned int], the timing fields are [uint64_t].  The per-mode
    register list is initialisation data and is not part of the model. *)
Record imx294_mode := mk_mode {
  width : Z;
  height : Z;
  min_HMAX : Z;
  min_VMAX : Z;
  default_HMAX : Z;
  default_VMAX : Z;
  VMAX_scale : Z;
  min_SHR : Z;
  integration_offset : Z;
  crop : v4l2_rect }.

(** 4096 x 2160 readout mode 1. *)
Definition mode_01 : imx294_mode :=
  mk_mode 4144 2184 1122 1111 1200 2500 2 5 256 (mk_rect 36 20 4096 2160).
(** 4096 x 2160 low noise readout mode 1A. *)
Definition mode_01A : imx294_mode :=
  mk_mode 4176 2184 1192 1111 1200 2500 2 5 361 (mk_rect 36 20 4096 2160).
(** 3840 x 2160 low noise readout mode 1B. *)
Definition mode_01B : imx294_mode :=
  mk_mode 3872 2180 1055 1111 1200 2500 2 5 256 (mk_rect 20 20 3840 2160).
(** 3740 x 2778 readout mode 0. *)
Definition mode_00 : imx294_mode :=
  mk_mode 3792 2840 1024 1444 1875 1600 2 5 551 (mk_rect 40 24 3704 2778).

Definition supported_modes_12bit : list imx294_mode :=
  [mode_01; mode_01A; mode_01B; mode_00].

(** Media bus codes of [uapi/linux/media-bus-format.h]. *)
Definition MEDIA_BUS_FMT_SBGGR12_1X12 : Z := 0x3008.
Definition MEDIA_BUS_FMT_SGBRG12_1X12 : Z := 0x3010.
Definition MEDIA_BUS_FMT_SGRBG12_1X12 : Z := 0x3011.
Definition MEDIA_BUS_FMT_SRGGB12_1X12 : Z := 0x3012.
Definition MEDIA_BUS_FMT_SENSOR_DATA : Z := 0x7002.

(** [static const u32 codes[]]. *)
Definition codes : list Z :=
  [ MEDIA_BUS_FMT_SRGGB12_1X12;
    MEDIA_BUS_FMT_SGRBG12_1X12;
    MEDIA_BUS_FMT_SGBRG12_1X12;
    MEDIA_BUS_FMT_SBGGR12_1X12 ].

(** The loop of [imx294_get_format_code]:
    [for (i = 0; i < ARRAY_SIZE(codes); i++) if (codes[i] == code) break;]
    started at index [i] on the remaining entries [rest]; the result is the
    value of [i] when the loop is left. *)
Fixpoint format_code_loop (rest : list Z) (i : nat) (code : Z) : nat :=
  match rest with
  | [] => i
  | c :: rest' => if c =? code then i else format_code_loop rest' (S i) code
  end.

Definition imx294_get_format_code_index (code : Z) : nat :=
  format_code_loop codes 0 code.

(** [return codes[i];] : [None] is a read past the end of the array. *)
Definition imx294_get_format_code (code : Z) : option Z :=
  nth_error codes (imx294_get_format_code_index code).

End Catalog.

(** ** The V4L2 control framework, as far as the driver relies on it

    The functions below belong to the kernel's control framework
    ([v4l2-ctrls-api.c], [v4l2-ctrls-core.c]), not to the driver.  They are
    modelled by their contract for integer controls: a range change validates
    the range, stores it, rounds the current value into it and, when that
    changes the value, applies it through the handler's [s_ctrl] operation
    (the driver's [imx294_set_ctrl]); the new value becomes the current one
    only if the operation succeeds. *)
Module V4L2.

(** The identifiers of the controls that are registered with
    [imx294_ctrl_ops]. *)
Inductive ctrl_id :=
| V4L2_CID_PIXEL_RATE
| V4L2_CID_VBLANK
| V4L2_CID_HBLANK
| V4L2_CID_EXPOSURE
| V4L2_CID_ANALOGUE_GAIN
| V4L2_CID_CAMERA_ORIENTATION
| V4L2_CID_CAMERA_SENSOR_ROTATION.

(** [struct v4l2_ctrl]: the range, [val] (the new value, the one a
    [s_ctrl] operation reads) and [cur.val] (the current value). *)
Record v4l2_ctrl := mk_ctrl {
  minimum : Z;
  maximum : Z;
  step : Z;
  default_value : Z;
  val : Z;
  cur_val : Z }.

Definition ERANGE : Z := 34.

(** [v4l2_ctrl_new_std(hdl, ops, id, min, max, step, def)]. *)
Definition v4l2_ctrl_new_std (min max step def : Z) : v4l2_ctrl :=
  mk_ctrl min max step def def def.

(** [check_range]: [step == 0 || min > max || def < min || def > max]
    is rejected. *)
Definition check_range (min max step def : Z) : bool :=
  negb ((step =? 0) || (max <? min) || (def <? min) || (max <? def)).

(** [ROUND_TO_RANGE(val, offset_type, ctrl)].  The kernel works on the
    [s32] value of the control; the model works on [Z], which agrees as long
    as the value and the limits fit 32 bits signed, as they do for the
    ranges the driver gives its controls in a catalog mode. *)
Definition round_to_range (c : v4l2_ctrl) (v : Z) : Z :=
  let half := step c / 2 in
  let v := if (0 <=? maximum c) && (maximum c - half <=? v)
           then maximum c else v + half in
  let v := Kernel.clamp v (minimum c) (maximum c) in
  minimum c + step c * ((v - minimum c) / step c).

Definition with_range (min max step def : Z) (c : v4l2_ctrl) : v4l2_ctrl :=
  mk_ctrl min max step def (val c) (cur_val c).
Definition with_val (v : Z) (c : v4l2_ctrl) : v4l2_ctrl :=
  mk_ctrl (minimum c) (maximum c) (step c) (default_value c) v (cur_val c).
Definition new_to_cur (c : v4l2_ctrl) : v4l2_ctrl :=
  mk_ctrl (minimum c) (maximum c) (step c) (default_value c) (val c) (val c).
Definition cur_to_new (c : v4l2_ctrl) : v4l2_ctrl :=
  with_val (cur_val c) c.

Section Framework.
(** [S] is the state the handler's operation works on; [get] and [set]
    select the control inside it; [s_ctrl v] is the operation applied to
    the control with [ctrl->val = v]. *)
Context {S : Type}.
Variable get : S -> v4l2_ctrl.
Variable set : v4l2_ctrl -> S -> S.
Variable s_ctrl : Z -> S -> option (Z * S).

(** [try_or_set_cluster] for a single control [c] whose new value [v]
    has been validated: the store of [v] is all that happens when [v] is
    the current value; otherwise the operation runs and the new value
    becomes the current one when it reports success. *)
Definition apply_new (c : v4l2_ctrl) (v : Z) (w : S) : option (Z * S) :=
  if v =? cur_val c then Some (0, set (with_val v c) w)
  else
    '(ret, w) <- s_ctrl v (set (with_val v c) w) ;;
    if ret =? 0 then Some (0, set (new_to_cur (get w)) w)
    else Some (ret, w).

(** The framework's internal [set_ctrl]: validate the new value, then
    apply it. *)
Definition set_ctrl (w : S) : option (Z * S) :=
  let c := get w in
  apply_new c (round_to_range c (val c)) w.

(** [__v4l2_ctrl_s_ctrl(ctrl, val)]. *)
Definition __v4l2_ctrl_s_ctrl (v : Z) (w : S) : option (Z * S) :=
  set_ctrl (set (with_val v (get w)) w).

(** [__v4l2_ctrl_modify_range(ctrl, min, max, step, def)]. *)
Definition __v4l2_ctrl_modify_range (min max step def : Z) (w : S)
  : option (Z * S) :=
  if check_range min max step def then
    let c := cur_to_new (with_range min max step def (get w)) in
    let c := with_val (round_to_range c (val c)) c in
    let w := set c w in
    if val c =? cur_val c then Some (0, w) else set_ctrl w
  else Some (- ERANGE, w).

End Framework.

End V4L2.

(** ** The driver *)
Module Driver.
Import Kernel Timing Catalog V4L2.

Definition EIO : Z := 5.
Definition ENOMEM : Z := 12.
Definition ENODEV : Z := 19.
Definition EINVAL : Z := 22.

Definition IMX294_REG_CHIP_ID : Z := 0x3000.
Definition IMX294_CHIP_ID : Z := 0x0000.
Definition IMX294_XCLK_FREQ : Z := 24000000.
Definition IMX294_REG_VMAX : Z := 0x30A9.
Definition IMX294_VMAX_MAX : Z := 0xfffff.
Definition IMX294_REG_HMAX : Z := 0x30AC.
Definition IMX294_HMAX_MAX : Z := 0xffff.
Definition IMX294_REG_HCOUNT1 : Z := 0x3084.
Definition IMX294_REG_HCOUNT2 : Z := 0x3086.
Definition IMX294_REG_PSSLVS1 : Z := 0x332C.
Definition IMX294_REG_PSSLVS2 : Z := 0x334A.
Definition IMX294_REG_PSSLVS3 : Z := 0x35B6.
Definition IMX294_REG_PSSLVS4 : Z := 0x35B8.
Definition IMX294_REG_PSSLVS0 : Z := 0x36BC.
Definition IMX294_REG_SHR : Z := 0x302C.
Definition IMX294_EXPOSURE_MIN : Z := 52.
Definition IMX294_EXPOSURE_STEP : Z := 1.
Definition IMX294_EXPOSURE_DEFAULT : Z := 1000.
Definition IMX294_EXPOSURE_MAX : Z := 49865.
Definition IMX294_REG_ANALOG_GAIN : Z := 0x300A.

(** [struct imx294]: the fields the control path reads or writes.  The
    four control pointers are modelled by the controls they point to;
    [mode] points into the constant catalog and is modelled by the entry. *)
Record imx294 := mk_imx294 {
  fmt_code : Z;
  pixel_rate : v4l2_ctrl;
  exposure : v4l2_ctrl;
  vblank : v4l2_ctrl;
  hblank : v4l2_ctrl;
  mode : imx294_mode;
  HMAX : Z;
  VMAX : Z;
  streaming : bool;
  common_regs_written : bool }.

(** The driver state together with the I2C write transactions issued so
    far (each one the byte buffer handed to [i2c_master_send], oldest
    first). *)
Record world := mk_world {
  dev : imx294;
  i2c_log : list (list Z) }.

(** What the driver's surroundings answer during one call:
    the result of [pm_runtime_get_if_in_use] (0: the device is not in use),
    whether the n-th I2C write transaction succeeds, the answer to an I2C
    register read, and the indeterminate content of the uninitialised
    local [current_exposure] of [imx294_set_ctrl]. *)
Record env := mk_env {
  pm_runtime_get_if_in_use : Z;
  i2c_xfer_ok : nat -> bool;
  i2c_transfer_read : Z -> Z -> option (list Z);
  uninit_current_exposure : Z }.

Definition set_dev (f : imx294 -> imx294) (w : world) : world :=
  mk_world (f (dev w)) (i2c_log w).

Definition set_HMAX (v : Z) (w : world) : world :=
  set_dev (fun d => mk_imx294 (fmt_code d) (pixel_rate d) (exposure d)
    (vblank d) (hblank d) (mode d) v (VMAX d) (streaming d)
    (common_regs_written d)) w.
Definition set_VMAX (v : Z) (w : world) : world :=
  set_dev (fun d => mk_imx294 (fmt_code d) (pixel_rate d) (exposure d)
    (vblank d) (hblank d) (mode d) (HMAX d) v (streaming d)
    (common_regs_written d)) w.
Definition set_pixel_rate (c : v4l2_ctrl) (w : world) : world :=
  set_dev (fun d => mk_imx294 (fmt_code d) c (exposure d)
    (vblank d) (hblank d) (mode d) (HMAX d) (VMAX d) (streaming d)
    (common_regs_written d)) w.
Definition set_exposure (c : v4l2_ctrl) (w : world) : world :=
  set_dev (fun d => mk_imx294 (fmt_code d) (pixel_rate d) c
    (vblank d) (hblank d) (mode d) (HMAX d) (VMAX d) (streaming d)
    (common_regs_written d)) w.
Definition set_vblank (c : v4l2_ctrl) (w : world) : world :=
  set_dev (fun d => mk_imx294 (fmt_code d) (pixel_rate d) (exposure d)
    c (hblank d) (mode d) (HMAX d) (VMAX d) (streaming d)
    (common_regs_written d)) w.
Definition set_hblank (c : v4l2_ctrl) (w : world) : world :=
  set_dev (fun d => mk_imx294 (fmt_code d) (pixel_rate d) (exposure d)
    (vblank d) c (mode d) (HMAX d) (VMAX d) (streaming d)
    (common_regs_written d)) w.

(** [i2c_master_send(client, buf, count)]: the transaction is put on the
    bus; the result is [count] when it succeeds, a negative value
    otherwise. *)
Definition i2c_master_send (e : env) (buf : list Z) (w : world) : Z * world :=
  let n := length (i2c_log w) in
  (if i2c_xfer_ok e n then Z.of_nat (length buf) else - EIO,
   mk_world (dev w) (i2c_log w ++ [buf])).

(** [put_unaligned_be16(reg, buf)]. *)
Definition put_unaligned_be16 (reg : Z) : list Z :=
  [u8 (Z.shiftr (u16 reg) 8); u8 (u16 reg)].

(** The byte buffers the three write helpers build: the register address
    big-endian, then the value, low byte first
    ([buf[2] = val; buf[3] = val>>8; buf[4] = val>>16]). *)
Definition buf_1byte (reg val : Z) : list Z :=
  put_unaligned_be16 reg ++ [u8 val].
Definition buf_2byte (reg val : Z) : list Z :=
  let val := u16 val in
  put_unaligned_be16 reg ++ [u8 val; u8 (Z.shiftr val 8)].
Definition buf_3byte (reg val : Z) : list Z :=
  let val := u32 val in
  put_unaligned_be16 reg
  ++ [u8 val; u8 (Z.shiftr val 8); u8 (Z.shiftr val 16)].

(** [imx294_write_reg_1byte(imx294, u16 reg, u8 val)]. *)
Definition imx294_write_reg_1byte (e : env) (reg val : Z) (w : world)
  : Z * world :=
  let '(n, w) := i2c_master_send e (buf_1byte reg val) w in
  (if n =? 3 then 0 else - EIO, w).

(** [imx294_write_reg_2byte(imx294, u16 reg, u16 val)]. *)
Definition imx294_write_reg_2byte (e : env) (reg val : Z) (w : world)
  : Z * world :=
  let '(n, w) := i2c_master_send e (buf_2byte reg val) w in
  (if n =? 4 then 0 else - EIO, w).

(** [imx294_write_reg_3byte(imx294, u16 reg, u32 val)]. *)
Definition imx294_write_reg_3byte (e : env) (reg val : Z) (w : world)
  : Z * world :=
  let '(n, w) := i2c_master_send e (buf_3byte reg val) w in
  (if n =? 5 then 0 else - EIO, w).

(** [get_unaligned_be32]. *)
Definition get_unaligned_be32 (b : list Z) : Z :=
  fold_left (fun acc x => acc * 256 + u8 x) b 0.

(** [imx294_read_reg(imx294, u16 reg, u32 len, u32 *val)]: the result and,
    when the transfer succeeded, the value stored through [val]. *)
Definition imx294_read_reg (e : env) (reg len : Z) : Z * option Z :=
  if 4 <? len then (- EINVAL, None)
  else
    match i2c_transfer_read e (u16 reg) len with
    | None => (- EIO, None)
    | Some data =>
        let data_buf :=
          repeat 0 (Z.to_nat (4 - len)) ++ firstn (Z.to_nat len) data in
        (0, Some (get_unaligned_be32 data_buf))
    end.

(** The part of [imx294_set_ctrl] from the power check on (the check
    [pm_runtime_get_if_in_use(&client->dev) == 0] and the [switch]).
    [val] is [ctrl->val], a signed 32-bit value. *)
Definition imx294_set_ctrl_apply (e : env) (id : ctrl_id) (val : Z)
    (w : world) : option (Z * world) :=
  if pm_runtime_get_if_in_use e =? 0 then Some (0, w)
  else
    let md := mode (dev w) in
    match id with
    | V4L2_CID_EXPOSURE =>
        shr <- calculate_shr val (HMAX (dev w)) (VMAX (dev w)) 0
                 (integration_offset md) ;;
        Some (imx294_write_reg_2byte e IMX294_REG_SHR shr w)
    | V4L2_CID_ANALOGUE_GAIN =>
        Some (imx294_write_reg_2byte e IMX294_REG_ANALOG_GAIN val w)
    | V4L2_CID_VBLANK =>
        tmp <- do_div (u64 (height md + val)) (VMAX_scale md) ;;
        let w := set_VMAX (u32 tmp) w in
        let '(ret, w) :=
          imx294_write_reg_3byte e IMX294_REG_VMAX (VMAX (dev w)) w in
        let vblk := u64 (VMAX (dev w) - min_VMAX md) in
        let '(ret, w) := imx294_write_reg_2byte e IMX294_REG_PSSLVS1 vblk w in
        let '(ret, w) := imx294_write_reg_2byte e IMX294_REG_PSSLVS2 vblk w in
        let '(ret, w) := imx294_write_reg_2byte e IMX294_REG_PSSLVS3 vblk w in
        let '(ret, w) :=
          if vblk <=? 5
          then imx294_write_reg_2byte e IMX294_REG_PSSLVS4 0 w
          else imx294_write_reg_2byte e IMX294_REG_PSSLVS4 (vblk - 5) w in
        let '(ret, w) := imx294_write_reg_2byte e IMX294_REG_PSSLVS0 vblk w in
        Some (ret, w)
    | V4L2_CID_HBLANK =>
        pixel_rate <- do_div (u64 (width md * 72000000)) (min_HMAX md) ;;
        hmax <- do_div (u64 (u32 (width md + val) * 72000000)) pixel_rate ;;
        let w := set_HMAX (u16 hmax) w in
        let '(ret, w) := imx294_write_reg_2byte e IMX294_REG_HMAX hmax w in
        let '(ret, w) := imx294_write_reg_2byte e IMX294_REG_HCOUNT1 hmax w in
        let '(ret, w) := imx294_write_reg_2byte e IMX294_REG_HCOUNT2 hmax w in
        Some (ret, w)
    | _ => Some (- EINVAL, w)
    end.

(** The part of [imx294_set_ctrl] before the power check:
    [if (ctrl->id == V4L2_CID_VBLANK) { ... }].  The local
    [current_exposure] is read without having been written; its content is
    [uninit_current_exposure e].  The exposure control's operation is
    [imx294_set_ctrl] itself, which for that control is
    [imx294_set_ctrl_apply]. *)
Definition imx294_set_ctrl_vblank_limits (e : env) (val : Z) (w : world)
  : option world :=
  let md := mode (dev w) in
  vmax <- do_div (u64 (height md + val)) (VMAX_scale md) ;;
  let w := set_VMAX (u32 vmax) w in
  '(min_exposure, max_exposure) <-
    calculate_min_max_v4l2_cid_exposure (HMAX (dev w)) (VMAX (dev w))
      (u64 (min_SHR md)) 0 (integration_offset md) ;;
  let current_exposure :=
    clamp_t u32 (uninit_current_exposure e) min_exposure max_exposure in
  '(_, w) <-
    __v4l2_ctrl_modify_range (fun w => exposure (dev w)) set_exposure
      (imx294_set_ctrl_apply e V4L2_CID_EXPOSURE)
      (s64 min_exposure) (s64 max_exposure) 1 (s64 current_exposure) w ;;
  Some w.

(** [static int imx294_set_ctrl(struct v4l2_ctrl *ctrl)] with
    [id = ctrl->id] and [val = ctrl->val]. *)
Definition imx294_set_ctrl (e : env) (id : ctrl_id) (val : Z) (w : world)
  : option (Z * world) :=
  w <- match id with
       | V4L2_CID_VBLANK => imx294_set_ctrl_vblank_limits e val w
       | _ => Some w
       end ;;
  imx294_set_ctrl_apply e id val w.

(** [static void imx294_set_framing_limits(struct imx294 *imx294)]. *)
Definition imx294_set_framing_limits (e : env) (w : world) : option world :=
  let md := mode (dev w) in
  let w := set_VMAX (u32 (default_VMAX md)) w in
  let w := set_HMAX (u16 (default_HMAX md)) w in
  pixel_rate' <- do_div (u64 (u64 (width md * 72000000) * 2)) (min_HMAX md) ;;
  def_hblank <- do_div (u64 (default_HMAX md * pixel_rate')) 72000000 ;;
  let def_hblank := u64 (def_hblank - width md) in
  '(_, w) <-
    __v4l2_ctrl_modify_range (fun w => hblank (dev w)) set_hblank
      (imx294_set_ctrl e V4L2_CID_HBLANK)
      0 IMX294_HMAX_MAX 1 (s64 def_hblank) w ;;
  '(_, w) <-
    __v4l2_ctrl_s_ctrl (fun w => hblank (dev w)) set_hblank
      (imx294_set_ctrl e V4L2_CID_HBLANK) (s32 def_hblank) w ;;
  '(_, w) <-
    __v4l2_ctrl_modify_range (fun w => vblank (dev w)) set_vblank
      (imx294_set_ctrl e V4L2_CID_VBLANK)
      (s64 (u64 (min_VMAX md * VMAX_scale md) - height md))
      (s64 (u64 (IMX294_VMAX_MAX * VMAX_scale md) - height md))
      1
      (s64 (u64 (default_VMAX md * VMAX_scale md) - height md)) w ;;
  '(_, w) <-
    __v4l2_ctrl_s_ctrl (fun w => vblank (dev w)) set_vblank
      (imx294_set_ctrl e V4L2_CID_VBLANK)
      (s32 (u64 (default_VMAX md * VMAX_scale md) - height md)) w ;;
  '(_, w) <-
    __v4l2_ctrl_modify_range (fun w => pixel_rate (dev w)) set_pixel_rate
      (imx294_set_ctrl e V4L2_CID_PIXEL_RATE)
      (s64 pixel_rate') (s64 pixel_rate') 1 (s64 pixel_rate') w ;;
  Some w.

(** The legal range the driver gives the vertical-blanking control of a
    mode ([imx294_set_framing_limits]). *)
Definition vblank_min (md : imx294_mode) : Z :=
  s64 (u64 (min_VMAX md * VMAX_scale md) - height md).
Definition vblank_max (md : imx294_mode) : Z :=
  s64 (u64 (IMX294_VMAX_MAX * VMAX_scale md) - height md).

(** [static int imx294_identify_module(struct imx294 *imx294,
    u32 expected_id)]. *)
Definition imx294_identify_module (e : env) (expected_id : Z) : Z :=
  let '(ret, val) := imx294_read_reg e IMX294_REG_CHIP_ID 1 in
  if negb (ret =? 0) then ret else 0.

(** [imx294_set_default_format]. *)
Definition imx294_set_default_format (d : imx294) : imx294 :=
  mk_imx294 MEDIA_BUS_FMT_SGBRG12_1X12 (pixel_rate d) (exposure d)
    (vblank d) (hblank d) mode_01 (HMAX d) (VMAX d) (streaming d)
    (common_regs_written d).

(** The answers of the collaborators that [imx294_probe] consults, in the
    order it consults them (0 is success for the integer results). *)
Record probe_env := mk_probe_env {
  devm_kzalloc_ok : bool;
  of_match_device_ok : bool;
  devm_clk_get : Z;
  clk_get_rate : Z;
  imx294_get_regulators : Z;
  regulator_bulk_enable : Z;
  clk_prepare_enable : Z;
  v4l2_ctrl_handler_init : Z;
  ctrl_hdlr_error : Z;
  v4l2_fwnode_device_parse : Z;
  v4l2_ctrl_new_fwnode_properties : Z;
  media_entity_pads_init : Z;
  v4l2_async_register_subdev_sensor : Z }.

(** [imx294_power_on]. *)
Definition imx294_power_on (p : probe_env) : Z :=
  if negb (regulator_bulk_enable p =? 0) then regulator_bulk_enable p
  else if negb (clk_prepare_enable p =? 0) then clk_prepare_enable p
  else 0.

(** The controls as [imx294_init_controls] creates them
    ([v4l2_ctrl_new_std] for pixel rate, vertical blank, horizontal blank
    and exposure). *)
Definition new_controls (d : imx294) : imx294 :=
  mk_imx294 (fmt_code d)
    (v4l2_ctrl_new_std 0xffff 0xffff 1 0xffff)
    (v4l2_ctrl_new_std IMX294_EXPOSURE_MIN IMX294_EXPOSURE_MAX
       IMX294_EXPOSURE_STEP IMX294_EXPOSURE_DEFAULT)
    (v4l2_ctrl_new_std 0 0xfffff 1 0)
    (v4l2_ctrl_new_std 0 0xffff 1 0)
    (mode d) (HMAX d) (VMAX d) (streaming d) (common_regs_written d).

(** The zeroed device structure of [devm_kzalloc]. *)
Definition kzalloc_imx294 : imx294 :=
  let z := mk_ctrl 0 0 0 0 0 0 in
  mk_imx294 0 z z z z (mk_mode 0 0 0 0 0 0 0 0 0 (mk_rect 0 0 0 0)) 0 0
    false false.

(** [imx294_init_controls]. *)
Definition imx294_init_controls (p : probe_env) (e : env) (w : world)
  : option (Z * world) :=
  if negb (v4l2_ctrl_handler_init p =? 0)
  then Some (v4l2_ctrl_handler_init p, w)
  else
    let w := set_dev new_controls w in
    if negb (ctrl_hdlr_error p =? 0) then Some (ctrl_hdlr_error p, w)
    else if negb (v4l2_fwnode_device_parse p =? 0)
    then Some (v4l2_fwnode_device_parse p, w)
    else if negb (v4l2_ctrl_new_fwnode_properties p =? 0)
    then Some (v4l2_ctrl_new_fwnode_properties p, w)
    else
      w <- imx294_set_framing_limits e w ;;
      Some (0, w).

(** [static int imx294_probe(struct i2c_client *client)]: the value it
    returns; the sub-device is registered exactly when that value is 0. *)
Definition imx294_probe (p : probe_env) (e : env) : option Z :=
  if negb (devm_kzalloc_ok p) then Some (- ENOMEM)
  else if negb (of_match_device_ok p) then Some (- ENODEV)
  else if devm_clk_get p <? 0 then Some (devm_clk_get p)
  else if negb (u32 (clk_get_rate p) =? IMX294_XCLK_FREQ) then Some (- EINVAL)
  else if negb (imx294_get_regulators p =? 0)
  then Some (imx294_get_regulators p)
  else
    let ret := imx294_power_on p in
    if negb (ret =? 0) then Some ret
    else
      let ret := imx294_identify_module e IMX294_CHIP_ID in
      if negb (ret =? 0) then Some ret
      else
        let w := mk_world (imx294_set_default_format kzalloc_imx294) [] in
        '(ret, w) <- imx294_init_controls p e w ;;
        if negb (ret =? 0) then Some ret
        else if negb (media_entity_pads_init p =? 0)
        then Some (media_entity_pads_init p)
        else if v4l2_async_register_subdev_sensor p <? 0
        then Some (v4l2_async_register_subdev_sensor p)
        else Some 0.

(** *** Notions used to state the properties *)

(** The register address a write transaction is sent to. *)
Definition reg_address (buf : list Z) : Z :=
  match buf with
  | hi :: lo :: _ => hi * 256 + lo
  | _ => -1
  end.

(** The blanking-compensation registers the vertical-blank case writes. *)
Definition blanking_compensation_regs : list Z :=
  [ IMX294_REG_PSSLVS1; IMX294_REG_PSSLVS2; IMX294_REG_PSSLVS3;
    IMX294_REG_PSSLVS4; IMX294_REG_PSSLVS0 ].

Definition is_blanking_compensation_write (buf : list Z) : bool :=
  existsb (Z.eqb (reg_address buf)) blanking_compensation_regs.

(** The write transactions of the [V4L2_CID_VBLANK] case for a vertical
    period [vmax] in a mode whose floor is [min_vmax]. *)
Definition vblank_writes (vmax min_vmax : Z) : list (list Z) :=
  let vblk := u64 (vmax - min_vmax) in
  [ buf_3byte IMX294_REG_VMAX vmax;
    buf_2byte IMX294_REG_PSSLVS1 vblk;
    buf_2byte IMX294_REG_PSSLVS2 vblk;
    buf_2byte IMX294_REG_PSSLVS3 vblk;
    buf_2byte IMX294_REG_PSSLVS4 (if vblk <=? 5 then 0 else vblk - 5);
    buf_2byte IMX294_REG_PSSLVS0 vblk ].


(** The pixel rate [imx294_set_framing_limits] computes for a mode, and
    the one the horizontal-blank case of [imx294_set_ctrl] divides by. *)
Definition framing_pixel_rate (md : imx294_mode) : Z :=
  width md * 72000000 * 2 / min_HMAX md.
Definition hblank_pixel_rate (md : imx294_mode) : Z :=
  width md * 72000000 / min_HMAX md.

(** The state invariant the control operations rely on: the active mode
    is [md] and the stored horizontal period is a non-zero 16-bit value
    ([imx294_set_framing_limits] stores the mode's default before any
    control is applied). *)
Definition handler_invariant (md : imx294_mode) (w : world) : Prop :=
  mode (dev w) = md /\ 0 < HMAX (dev w) < 2 ^ 16.

(** *** Concrete situations *)

(** The device right after [imx294_set_default_format] and the creation
    of the controls, with nothing written on the bus yet. *)
Definition fresh_world : world :=
  mk_world (new_controls (imx294_set_default_format kzalloc_imx294)) [].

(** The device is not in use (runtime PM count 0). *)
Definition env_unpowered : env :=
  mk_env 0 (fun _ => true) (fun _ _ => Some [0]) 0.
(** The same, with another content of the uninitialised local. *)
Definition env_unpowered_stale : env :=
  mk_env 0 (fun _ => true) (fun _ _ => Some [0]) 5000.
(** The device is in use and every bus transaction succeeds. *)
Definition env_powered : env :=
  mk_env 1 (fun _ => true) (fun _ _ => Some [0]) 0.

(** The state after the framing limits of the default mode have been set
    while the device was not in use (as [imx294_probe] does). *)
Definition default_world : world :=
  match imx294_set_framing_limits env_unpowered fresh_world with
  | Some w => w
  | None => fresh_world
  end.

(** The same state after the user has set the exposure to 2000 lines. *)
Definition exposure_2000_world : world :=
  set_exposure (mk_ctrl 4 2495 1 4 2000 2000) default_world.

(** A device that answers every identity read with 0x12, and
    collaborators of [imx294_probe] that all succeed. *)
Definition wrong_id_env : env :=
  mk_env 0 (fun _ => true) (fun _ _ => Some [0x12]) 0.
Definition all_ok_probe_env : probe_env :=
  mk_probe_env true true 0 IMX294_XCLK_FREQ 0 0 0 0 0 0 0 0 0.

End Driver.

(** ** Register lists *)
Module Registers.
Import Catalog Driver.

(** [struct imx294_reg]: a 16-bit address and an 8-bit value. *)
Record imx294_reg := mk_reg { address : Z; val : Z }.

(** [static const struct imx294_reg mode_common_regs[]]: the mode-independent
    initialisation block (an address of 0xFFFE is a delay in milliseconds). *)
Definition mode_common_regs : list imx294_reg :=
  [ mk_reg 0x3033 0x30; mk_reg 0x303C 0x01; mk_reg 0x31E8 0x20;
    mk_reg 0x31E9 0x01; mk_reg 0x3122 0x02; mk_reg 0x3129 0x90;
    mk_reg 0x312A 0x02; mk_reg 0x311F 0x00; mk_reg 0x3123 0x00;
    mk_reg 0x3124 0x00; mk_reg 0x3125 0x01; mk_reg 0x3127 0x02;
    mk_reg 0x312D 0x02; mk_reg 0x3000 0x12; mk_reg 0x310B 0x00;
    mk_reg 0x3047 0x01; mk_reg 0x304E 0x0B; mk_reg 0x304F 0x24;
    mk_reg 0x3062 0x25; mk_reg 0x3064 0x78; mk_reg 0x3065 0x33;
    mk_reg 0x3067 0x71; mk_reg 0x3088 0x75; mk_reg 0x308A 0x09;
    mk_reg 0x308B 0x01; mk_reg 0x308C 0x61; mk_reg 0x3146 0x00;
    mk_reg 0x3234 0x32; mk_reg 0x3235 0x00; mk_reg 0x3248 0xBC;
    mk_reg 0x3249 0x00; mk_reg 0x3250 0xBC; mk_reg 0x3251 0x00;
    mk_reg 0x3258 0xBC; mk_reg 0x3259 0x00; mk_reg 0x3260 0xBC;
    mk_reg 0x3261 0x00; mk_reg 0x3274 0x13; mk_reg 0x3275 0x00;
    mk_reg 0x3276 0x1F; mk_reg 0x3277 0x00; mk_reg 0x3278 0x30;
    mk_reg 0x3279 0x00; mk_reg 0x327C 0x13; mk_reg 0x327D 0x00;
    mk_reg 0x327E 0x1F; mk_reg 0x327F 0x00; mk_reg 0x3280 0x30;
    mk_reg 0x3281 0x00; mk_reg 0x3284 0x13; mk_reg 0x3285 0x00;
    mk_reg 0x3286 0x1F; mk_reg 0x3287 0x00; mk_reg 0x3288 0x30;
    mk_reg 0x3289 0x00; mk_reg 0x328C 0x13; mk_reg 0x328D 0x00;
    mk_reg 0x328E 0x1F; mk_reg 0x328F 0x00; mk_reg 0x3290 0x30;
    mk_reg 0x3291 0x00; mk_reg 0x32AE 0x00; mk_reg 0x32AF 0x00;
    mk_reg 0x32CA 0x5A; mk_reg 0x32CB 0x00; mk_reg 0x332F 0x00;
    mk_reg 0x334C 0x01; mk_reg 0x335A 0x79; mk_reg 0x335B 0x00;
    mk_reg 0x335E 0x56; mk_reg 0x335F 0x00; mk_reg 0x3360 0x6A;
    mk_reg 0x3361 0x00; mk_reg 0x336A 0x56; mk_reg 0x336B 0x00;
    mk_reg 0x33D6 0x79; mk_reg 0x33D7 0x00; mk_reg 0x340C 0x6E;
    mk_reg 0x340D 0x00; mk_reg 0x3448 0x7E; mk_reg 0x3449 0x00;
    mk_reg 0x348E 0x6F; mk_reg 0x348F 0x00; mk_reg 0x3492 0x11;
    mk_reg 0x34C4 0x5A; mk_reg 0x34C5 0x00; mk_reg 0x3506 0x56;
    mk_reg 0x3507 0x00; mk_reg 0x350C 0x56; mk_reg 0x350D 0x00;
    mk_reg 0x350E 0x58; mk_reg 0x350F 0x00; mk_reg 0x3549 0x04;
    mk_reg 0x355D 0x03; mk_reg 0x355E 0x03; mk_reg 0x3574 0x56;
    mk_reg 0x3575 0x00; mk_reg 0x3587 0x01; mk_reg 0x35D0 0x5E;
    mk_reg 0x35D1 0x00; mk_reg 0x35D4 0x63; mk_reg 0x35D5 0x00;
    mk_reg 0x366A 0x1A; mk_reg 0x366B 0x16; mk_reg 0x366C 0x10;
    mk_reg 0x366D 0x09; mk_reg 0x366E 0x00; mk_reg 0x366F 0x00;
    mk_reg 0x3670 0x00; mk_reg 0x3671 0x00; mk_reg 0x3676 0x83;
    mk_reg 0x3677 0x03; mk_reg 0x3678 0x00; mk_reg 0x3679 0x04;
    mk_reg 0x367A 0x2C; mk_reg 0x367B 0x05; mk_reg 0x367C 0x00;
    mk_reg 0x367D 0x06; mk_reg 0x367E 0x00; mk_reg 0x367F 0x07;
    mk_reg 0x3680 0x4B; mk_reg 0x3681 0x07; mk_reg 0x3690 0x27;
    mk_reg 0x3691 0x00; mk_reg 0x3692 0x65; mk_reg 0x3693 0x00;
    mk_reg 0x3694 0x4F; mk_reg 0x3695 0x00; mk_reg 0x3696 0xA1;
    mk_reg 0x3697 0x00; mk_reg 0x382B 0x68; mk_reg 0x3C00 0x01;
    mk_reg 0x3C01 0x01; mk_reg 0x3686 0x00; mk_reg 0x3687 0x00;
    mk_reg 0x36BE 0x01; mk_reg 0x36BF 0x00; mk_reg 0x36C0 0x01;
    mk_reg 0x36C1 0x00; mk_reg 0x36C2 0x01; mk_reg 0x36C3 0x00;
    mk_reg 0x36C4 0x01; mk_reg 0x36C5 0x01; mk_reg 0x36C6 0x01;
    mk_reg 0x3134 0xAF; mk_reg 0x3135 0x00; mk_reg 0x3136 0xC7;
    mk_reg 0x3137 0x00; mk_reg 0x3138 0x7F; mk_reg 0x3139 0x00;
    mk_reg 0x313A 0x6F; mk_reg 0x313B 0x00; mk_reg 0x313C 0x6F;
    mk_reg 0x313D 0x00; mk_reg 0x313E 0xCF; mk_reg 0x313F 0x01;
    mk_reg 0x3140 0x77; mk_reg 0x3141 0x00; mk_reg 0x3142 0x5F;
    mk_reg 0x3143 0x00; mk_reg 0x3004 0x1A; mk_reg 0x3005 0x06;
    mk_reg 0x3006 0x00; mk_reg 0x3007 0xA0; mk_reg 0x3019 0x00;
    mk_reg 0x3030 0x77; mk_reg 0x3034 0x00; mk_reg 0x3035 0x01;
    mk_reg 0x3036 0x30; mk_reg 0x3037 0x00; mk_reg 0x3038 0x60;
    mk_reg 0x3039 0x10; mk_reg 0x3068 0x1A; mk_reg 0x3069 0x00;
    mk_reg 0x3080 0x00; mk_reg 0x3081 0x01; mk_reg 0x30A8 0x02;
    mk_reg 0x30E2 0x00; mk_reg 0x312F 0x08; mk_reg 0x3130 0x88;
    mk_reg 0x3131 0x08; mk_reg 0x3132 0x80; mk_reg 0x3133 0x08;
    mk_reg 0x357F 0x0C; mk_reg 0x3580 0x0A; mk_reg 0x3581 0x08;
    mk_reg 0x3583 0x72; mk_reg 0x3600 0x90; mk_reg 0x3601 0x00;
    mk_reg 0x3846 0x00; mk_reg 0x3847 0x00; mk_reg 0x384A 0x00;
    mk_reg 0x384B 0x00; mk_reg 0x300E 0x00; mk_reg 0x300F 0x00;
    mk_reg 0x302C 0x10; mk_reg 0x302D 0x00; mk_reg 0x30A9 0x88;
    mk_reg 0x30AA 0x13; mk_reg 0x30AB 0x00; mk_reg 0x30AC 0xB0;
    mk_reg 0x30AD 0x04; mk_reg 0x3084 0xB0; mk_reg 0x3085 0x04;
    mk_reg 0x3086 0xB0; mk_reg 0x3087 0x04; mk_reg 0x332C 0x00;
    mk_reg 0x332D 0x00; mk_reg 0x334A 0x00; mk_reg 0x334B 0x00;
    mk_reg 0x35B6 0x00; mk_reg 0x35B7 0x00; mk_reg 0x35B8 0x00;
    mk_reg 0x35B9 0x00; mk_reg 0x36BC 0x00; mk_reg 0x36BD 0x00;
    mk_reg 0xFFFE 0x0A; mk_reg 0x3000 0x02; mk_reg 0x35E5 0x92;
    mk_reg 0x35E5 0x9A; mk_reg 0x3000 0x00; mk_reg 0xFFFE 0x0A;
    mk_reg 0x3033 0x20; mk_reg 0x3017 0xA8 ].

(** 3704 x 2778 readout mode 0 - 12bit. *)
Definition mode_00_regs : list imx294_reg :=
  [ mk_reg 0x3004 0x00; mk_reg 0x3005 0x06; mk_reg 0x3006 0x02;
    mk_reg 0x3007 0xA0; mk_reg 0x3019 0x00; mk_reg 0x3030 0x77;
    mk_reg 0x3034 0x00; mk_reg 0x3035 0x01; mk_reg 0x3036 0x30;
    mk_reg 0x3037 0x00; mk_reg 0x3038 0x00; mk_reg 0x3039 0x0F;
    mk_reg 0x3068 0x1A; mk_reg 0x3069 0x00; mk_reg 0x3080 0x00;
    mk_reg 0x3081 0x01; mk_reg 0x30A8 0x02; mk_reg 0x30E2 0x00;
    mk_reg 0x312F 0x10; mk_reg 0x3130 0x18; mk_reg 0x3131 0x0B;
    mk_reg 0x3132 0x08; mk_reg 0x3133 0x0B; mk_reg 0x357F 0x0C;
    mk_reg 0x3580 0x0A; mk_reg 0x3581 0x08; mk_reg 0x3583 0x72;
    mk_reg 0x3600 0x90; mk_reg 0x3601 0x00; mk_reg 0x3846 0x00;
    mk_reg 0x3847 0x00; mk_reg 0x384A 0x00; mk_reg 0x384B 0x00 ].

(** 4096 x 2160 readout mode 1. *)
Definition mode_01_regs : list imx294_reg :=
  [ mk_reg 0x3004 0x1A; mk_reg 0x3005 0x06; mk_reg 0x3006 0x00;
    mk_reg 0x3007 0xA0; mk_reg 0x3019 0x00; mk_reg 0x3030 0x77;
    mk_reg 0x3034 0x00; mk_reg 0x3035 0x01; mk_reg 0x3036 0x30;
    mk_reg 0x3037 0x00; mk_reg 0x3038 0x60; mk_reg 0x3039 0x10;
    mk_reg 0x3068 0x1A; mk_reg 0x3069 0x00; mk_reg 0x3080 0x00;
    mk_reg 0x3081 0x01; mk_reg 0x30A8 0x02; mk_reg 0x30E2 0x00;
    mk_reg 0x312F 0x08; mk_reg 0x3130 0x88; mk_reg 0x3131 0x08;
    mk_reg 0x3132 0x80; mk_reg 0x3133 0x08; mk_reg 0x357F 0x0C;
    mk_reg 0x3580 0x0A; mk_reg 0x3581 0x08; mk_reg 0x3583 0x72;
    mk_reg 0x3600 0x90; mk_reg 0x3601 0x00; mk_reg 0x3846 0x00;
    mk_reg 0x3847 0x00; mk_reg 0x384A 0x00; mk_reg 0x384B 0x00 ].

(** 4096 x 2160 low noise readout mode 1A. *)
Definition mode_01A_regs : list imx294_reg :=
  [ mk_reg 0x3004 0x01; mk_reg 0x3005 0x06; mk_reg 0x3006 0x00;
    mk_reg 0x3007 0xA0; mk_reg 0x3019 0x00; mk_reg 0x3030 0x77;
    mk_reg 0x3034 0x00; mk_reg 0x3035 0x01; mk_reg 0x3036 0x30;
    mk_reg 0x3037 0x00; mk_reg 0x3038 0x80; mk_reg 0x3039 0x10;
    mk_reg 0x3068 0x1A; mk_reg 0x3069 0x00; mk_reg 0x3080 0x01;
    mk_reg 0x3081 0x01; mk_reg 0x30A8 0x02; mk_reg 0x30E2 0x00;
    mk_reg 0x312F 0x08; mk_reg 0x3130 0x88; mk_reg 0x3131 0x08;
    mk_reg 0x3132 0x80; mk_reg 0x3133 0x08; mk_reg 0x357F 0x0C;
    mk_reg 0x3580 0x0A; mk_reg 0x3581 0x08; mk_reg 0x3583 0x72;
    mk_reg 0x3600 0x7D; mk_reg 0x3601 0x00; mk_reg 0x3846 0x00;
    mk_reg 0x3847 0x00; mk_reg 0x384A 0x00; mk_reg 0x384B 0x00 ].

(** 3840 x 2160 readout mode 1B. *)
Definition mode_01B_regs : list imx294_reg :=
  [ mk_reg 0x3004 0x02; mk_reg 0x3005 0x06; mk_reg 0x3006 0x01;
    mk_reg 0x3007 0xA0; mk_reg 0x3019 0x00; mk_reg 0x3030 0x77;
    mk_reg 0x3034 0x00; mk_reg 0x3035 0x01; mk_reg 0x3036 0x30;
    mk_reg 0x3037 0x00; mk_reg 0x3038 0x50; mk_reg 0x3039 0x0F;
    mk_reg 0x3068 0x1A; mk_reg 0x3069 0x00; mk_reg 0x3080 0x00;
    mk_reg 0x3081 0x01; mk_reg 0x30A8 0x02; mk_reg 0x30E2 0x00;
    mk_reg 0x312F 0x08; mk_reg 0x3130 0x88; mk_reg 0x3131 0x08;
    mk_reg 0x3132 0x80; mk_reg 0x3133 0x08; mk_reg 0x357F 0x0C;
    mk_reg 0x3580 0x0A; mk_reg 0x3581 0x08; mk_reg 0x3583 0x72;
    mk_reg 0x3600 0x90; mk_reg 0x3601 0x00; mk_reg 0x3846 0x00;
    mk_reg 0x3847 0x00; mk_reg 0x384A 0x00; mk_reg 0x384B 0x00 ].

(** The [reg_list] member of the entries of [supported_modes_12bit], in
    the order of the table. *)
Definition supported_mode_regs : list (imx294_mode * list imx294_reg) :=
  [ (mode_01, mode_01_regs); (mode_01A, mode_01A_regs);
    (mode_01B, mode_01B_regs); (mode_00, mode_00_regs) ].

Definition rect_eqb (a b : v4l2_rect) : bool :=
  (left a =? left b) && (top a =? top b)
  && (rect_width a =? rect_width b) && (rect_height a =? rect_height b).

(** Equality of mode entries, field by field. *)
Definition mode_eqb (a b : imx294_mode) : bool :=
  (width a =? width b) && (height a =? height b)
  && (min_HMAX a =? min_HMAX b) && (min_VMAX a =? min_VMAX b)
  && (default_HMAX a =? default_HMAX b) && (default_VMAX a =? default_VMAX b)
  && (VMAX_scale a =? VMAX_scale b) && (min_SHR a =? min_SHR b)
  && (integration_offset a =? integration_offset b)
  && rect_eqb (crop a) (crop b).

(** [imx294->mode->reg_list]: the register list of the catalog entry the
    mode pointer designates. *)
Definition reg_list (md : imx294_mode) : list imx294_reg :=
  match find (fun p => mode_eqb (fst p) md) supported_mode_regs with
  | Some p => snd p
  | None => []
  end.

(** [static int imx294_write_regs(struct imx294 *imx294,
    const struct imx294_reg *regs, u32 len)] on a whole list: an entry with
    address 0xFFFE only sleeps ([usleep_range]); the first failing write
    ends the loop with its error. *)
Fixpoint imx294_write_regs (e : env) (regs : list imx294_reg) (w : world)
  : Z * world :=
  match regs with
  | [] => (0, w)
  | r :: rest =>
      if address r =? 0xFFFE then imx294_write_regs e rest w
      else
        let '(ret, w) := imx294_write_reg_1byte e (address r) (val r) w in
        if negb (ret =? 0) then (ret, w) else imx294_write_regs e rest w
  end.

(** The bus transactions a register list asks for: one per entry that is
    not a delay, in the order of the list. *)
Definition reg_writes (regs : list imx294_reg) : list (list Z) :=
  map (fun r => buf_1byte (address r) (val r))
    (filter (fun r => negb (address r =? 0xFFFE)) regs).

End Registers.

(** ** Streaming and power *)
Module Streaming.
Import Catalog V4L2 Driver Registers.

Definition IMX294_REG_MODE_SELECT : Z := 0x3000.
Definition IMX294_MODE_STANDBY : Z := 0x01.
Definition IMX294_MODE_STREAMING : Z := 0x00.

Definition set_streaming (b : bool) (w : world) : world :=
  set_dev (fun d => mk_imx294 (fmt_code d) (pixel_rate d) (exposure d)
    (vblank d) (hblank d) (mode d) (HMAX d) (VMAX d) b
    (common_regs_written d)) w.
Definition set_common_regs_written (b : bool) (w : world) : world :=
  set_dev (fun d => mk_imx294 (fmt_code d) (pixel_rate d) (exposure d)
    (vblank d) (hblank d) (mode d) (HMAX d) (VMAX d) (streaming d) b) w.

(** The runtime-PM calls [imx294_set_stream] makes on the device. *)
Inductive pm_call :=
| PM_RUNTIME_GET_SYNC
| PM_RUNTIME_PUT_NOIDLE
| PM_RUNTIME_PUT.

(** The driver state, the bus log and the runtime-PM calls made so far
    (oldest first). *)
Record system := mk_system {
  sys_world : world;
  pm_calls : list pm_call }.

(** The usage count the runtime-PM calls of a log add up to: a get counts
    +1, both kinds of put count -1. *)
Definition pm_balance (l : list pm_call) : Z :=
  fold_right (fun c acc =>
                match c with
                | PM_RUNTIME_GET_SYNC => acc + 1
                | _ => acc - 1
                end) 0 l.

Section WithHandlerSetup.
(** [__v4l2_ctrl_handler_setup(imx294->sd.ctrl_handler)], the framework's
    replay of the control values through [imx294_set_ctrl], is a parameter
    of the streaming functions. *)
Variable handler_setup : world -> option (Z * world).

(** The part of [imx294_start_streaming] after the common block: "Apply
    default values of current mode", then "Apply customized values from
    user". *)
Definition imx294_start_streaming_mode (e : env) (w : world)
  : option (Z * world) :=
  let '(ret, w) := imx294_write_regs e (reg_list (mode (dev w))) w in
  if negb (ret =? 0) then Some (ret, w) else handler_setup w.

(** [static int imx294_start_streaming(struct imx294 *imx294)]. *)
Definition imx294_start_streaming (e : env) (w : world)
  : option (Z * world) :=
  if negb (common_regs_written (dev w)) then
    let '(ret, w) := imx294_write_regs e mode_common_regs w in
    if negb (ret =? 0) then Some (ret, w)
    else imx294_start_streaming_mode e (set_common_regs_written true w)
  else imx294_start_streaming_mode e w.

(** [static void imx294_stop_streaming(struct imx294 *imx294)]: the result
    of the write is only logged. *)
Definition imx294_stop_streaming (e : env) (w : world) : world :=
  snd (imx294_write_reg_1byte e IMX294_REG_MODE_SELECT IMX294_MODE_STANDBY w).

(** [static int imx294_set_stream(struct v4l2_subdev *sd, int enable)];
    [get_sync] is what [pm_runtime_get_sync] returns if it is called.  The
    comparison [imx294->streaming == enable] is made on integers, the
    assignment [imx294->streaming = enable] converts to [bool]. *)
Definition imx294_set_stream (e : env) (get_sync : Z) (enable : Z)
    (s : system) : option (Z * system) :=
  let w := sys_world s in
  if (if streaming (dev w) then 1 else 0) =? enable then Some (0, s)
  else if negb (enable =? 0) then
    let calls := pm_calls s ++ [PM_RUNTIME_GET_SYNC] in
    if get_sync <? 0
    then Some (get_sync, mk_system w (calls ++ [PM_RUNTIME_PUT_NOIDLE]))
    else
      '(ret, w) <- imx294_start_streaming e w ;;
      if negb (ret =? 0)
      then Some (ret, mk_system w (calls ++ [PM_RUNTIME_PUT]))
      else Some (ret, mk_system (set_streaming true w) calls)
  else
    let w := imx294_stop_streaming e w in
    Some (0, mk_system (set_streaming false w)
               (pm_calls s ++ [PM_RUNTIME_PUT])).

(** [imx294_suspend]. *)
Definition imx294_suspend (e : env) (w : world) : Z * world :=
  if streaming (dev w) then (0, imx294_stop_streaming e w) else (0, w).

(** [imx294_resume]. *)
Definition imx294_resume (e : env) (w : world) : option (Z * world) :=
  if streaming (dev w) then
    '(ret, w) <- imx294_start_streaming e w ;;
    if negb (ret =? 0)
    then Some (ret, set_streaming false (imx294_stop_streaming e w))
    else Some (0, w)
  else Some (0, w).

End WithHandlerSetup.

(** The transactions [imx294_start_streaming] asks for before it replays
    the controls: the common block unless it is marked as written, then the
    table of the active mode. *)
Definition common_block (w : world) : list (list Z) :=
  if common_regs_written (dev w) then [] else reg_writes mode_common_regs.
Definition mode_block (w : world) : list (list Z) :=
  reg_writes (reg_list (mode (dev w))).

(** [imx294_power_off], as far as the driver state goes: "Force
    reprogramming of the common registers when powered up again". *)
Definition imx294_power_off (w : world) : Z * world :=
  (0, set_common_regs_written false w).

(** The framework's [__v4l2_ctrl_handler_setup] for this handler, by its
    contract: every control that is not read-only is applied through
    [imx294_set_ctrl] with its current value, in the order the controls were
    created (vertical blank, horizontal blank, exposure, analogue gain); the
    first error ends the replay.  The analogue-gain control is kept by the
    handler only; [analogue_gain] is its current value. *)
Definition __v4l2_ctrl_handler_setup (e : env) (analogue_gain : Z)
    (w : world) : option (Z * world) :=
  let w := set_vblank (cur_to_new (vblank (dev w))) w in
  '(ret, w) <-
    imx294_set_ctrl e V4L2_CID_VBLANK (cur_val (vblank (dev w))) w ;;
  if negb (ret =? 0) then Some (ret, w)
  else
    let w := set_hblank (cur_to_new (hblank (dev w))) w in
    '(ret, w) <-
      imx294_set_ctrl e V4L2_CID_HBLANK (cur_val (hblank (dev w))) w ;;
    if negb (ret =? 0) then Some (ret, w)
    else
      let w := set_exposure (cur_to_new (exposure (dev w))) w in
      '(ret, w) <-
        imx294_set_ctrl e V4L2_CID_EXPOSURE (cur_val (exposure (dev w))) w ;;
      if negb (ret =? 0) then Some (ret, w)
      else imx294_set_ctrl e V4L2_CID_ANALOGUE_GAIN analogue_gain w.

(** A handler replay that touches neither the state nor the bus. *)
Definition idle_handler_setup (w : world) : option (Z * world) :=
  Some (0, w).

End Streaming.

(** ** Pads: enumeration and formats *)
Module Pads.
Import Catalog V4L2 Driver Registers.

Definition IMAGE_PAD : Z := 0.
Definition METADATA_PAD : Z := 1.
Definition NUM_PADS : Z := 2.
Definition IMX294_EMBEDDED_LINE_WIDTH : Z := 16384.
Definition IMX294_NUM_EMBEDDED_LINES : Z := 1.

(** [get_mode_table(code, &mode_list, &num_modes)]: the table; [NULL] with
    [num_modes = 0] is the empty list. *)
Definition get_mode_table (code : Z) : list imx294_mode :=
  if (code =? MEDIA_BUS_FMT_SRGGB12_1X12)
     || (code =? MEDIA_BUS_FMT_SGRBG12_1X12)
     || (code =? MEDIA_BUS_FMT_SGBRG12_1X12)
     || (code =? MEDIA_BUS_FMT_SBGGR12_1X12)
  then supported_modes_12bit
  else [].

(** [imx294_enum_mbus_code] on [code->pad] and [code->index] (both [u32]):
    the result and, on success, the value stored in [code->code]. *)
Definition imx294_enum_mbus_code (pad index : Z) : option (Z * option Z) :=
  if NUM_PADS <=? pad then Some (- EINVAL, None)
  else if pad =? IMAGE_PAD then
    if Z.of_nat (length codes) / 4 <=? index then Some (- EINVAL, None)
    else
      c <- nth_error codes (Z.to_nat (u32 (index * 4))) ;;
      c <- imx294_get_format_code c ;;
      Some (0, Some c)
  else if 0 <? index then Some (- EINVAL, None)
  else Some (0, Some MEDIA_BUS_FMT_SENSOR_DATA).

(** [imx294_enum_frame_size] on [fse->pad], [fse->index] and [fse->code]:
    the result and, on success, the width and height stored as both minimum
    and maximum. *)
Definition imx294_enum_frame_size (pad index code : Z)
  : option (Z * option (Z * Z)) :=
  if NUM_PADS <=? pad then Some (- EINVAL, None)
  else if pad =? IMAGE_PAD then
    let mode_list := get_mode_table code in
    let num_modes := Z.of_nat (length mode_list) in
    if num_modes <=? index then Some (- EINVAL, None)
    else
      c <- imx294_get_format_code code ;;
      if negb (code =? c) then Some (- EINVAL, None)
      else
        md <- nth_error mode_list (Z.to_nat index) ;;
        Some (0, Some (width md, height md))
  else if negb (code =? MEDIA_BUS_FMT_SENSOR_DATA) || (0 <? index)
  then Some (- EINVAL, None)
  else Some (0, Some (IMX294_EMBEDDED_LINE_WIDTH, IMX294_NUM_EMBEDDED_LINES)).

(** [struct v4l2_mbus_framefmt]: the size and the code (the field order and
    the colorimetry members only ever receive constants). *)
Record v4l2_mbus_framefmt := mk_fmt {
  fmt_width : Z;
  fmt_height : Z;
  code : Z }.

(** [enum v4l2_subdev_format_whence]. *)
Inductive whence := V4L2_SUBDEV_FORMAT_TRY | V4L2_SUBDEV_FORMAT_ACTIVE.

(** [imx294_update_image_pad_format]: the code is left as it is. *)
Definition imx294_update_image_pad_format (md : imx294_mode)
    (f : v4l2_mbus_framefmt) : v4l2_mbus_framefmt :=
  mk_fmt (width md) (height md) (code f).

(** [imx294_update_metadata_pad_format]. *)
Definition imx294_update_metadata_pad_format : v4l2_mbus_framefmt :=
  mk_fmt IMX294_EMBEDDED_LINE_WIDTH IMX294_NUM_EMBEDDED_LINES
    MEDIA_BUS_FMT_SENSOR_DATA.

(** [imx294_get_pad_format]: the result and the format handed back;
    [try_fmt] is the try format the framework keeps for the pad, [f] the
    format the caller passed in. *)
Definition imx294_get_pad_format (pad : Z) (which : whence)
    (try_fmt f : v4l2_mbus_framefmt) (w : world)
  : option (Z * v4l2_mbus_framefmt) :=
  if NUM_PADS <=? pad then Some (- EINVAL, f)
  else
    match which with
    | V4L2_SUBDEV_FORMAT_TRY =>
        c <- (if pad =? IMAGE_PAD then imx294_get_format_code (code try_fmt)
              else Some MEDIA_BUS_FMT_SENSOR_DATA) ;;
        Some (0, mk_fmt (fmt_width try_fmt) (fmt_height try_fmt) c)
    | V4L2_SUBDEV_FORMAT_ACTIVE =>
        if pad =? IMAGE_PAD then
          let f := imx294_update_image_pad_format (mode (dev w)) f in
          c <- imx294_get_format_code (fmt_code (dev w)) ;;
          Some (0, mk_fmt (fmt_width f) (fmt_height f) c)
        else Some (0, imx294_update_metadata_pad_format)
    end.

Definition set_mode_and_code (md : imx294_mode) (c : Z) (w : world) : world :=
  set_dev (fun d => mk_imx294 c (pixel_rate d) (exposure d) (vblank d)
    (hblank d) md (HMAX d) (VMAX d) (streaming d) (common_regs_written d)) w.

(** What [imx294_set_pad_format] leaves behind: its result, the format
    handed back, the try format it stored (if any) and the driver state. *)
Record set_fmt_result := mk_set_fmt_result {
  sf_ret : Z;
  sf_format : v4l2_mbus_framefmt;
  sf_try : option v4l2_mbus_framefmt;
  sf_world : world }.

Section WithNearestSize.
(** [v4l2_find_nearest_size(mode_list, num_modes, width, height, w, h)], a
    helper of the framework, is a parameter; [None] is [NULL]. *)
Variable find_nearest_size : list imx294_mode -> Z -> Z -> option imx294_mode.

(** [imx294_set_pad_format].  [imx294->mode != mode] compares pointers into
    the catalog, whose entries are pairwise different. *)
Definition imx294_set_pad_format (e : env) (pad : Z) (which : whence)
    (f : v4l2_mbus_framefmt) (w : world) : option set_fmt_result :=
  if NUM_PADS <=? pad then Some (mk_set_fmt_result (- EINVAL) f None w)
  else if pad =? IMAGE_PAD then
    c <- imx294_get_format_code (code f) ;;
    let f := mk_fmt (fmt_width f) (fmt_height f) c in
    let mode_list := get_mode_table (code f) in
    md <- find_nearest_size mode_list (fmt_width f) (fmt_height f) ;;
    let f := imx294_update_image_pad_format md f in
    match which with
    | V4L2_SUBDEV_FORMAT_TRY => Some (mk_set_fmt_result 0 f (Some f) w)
    | V4L2_SUBDEV_FORMAT_ACTIVE =>
        if negb (mode_eqb (mode (dev w)) md) then
          let w := set_mode_and_code md (code f) w in
          w <- imx294_set_framing_limits e w ;;
          Some (mk_set_fmt_result 0 f None w)
        else Some (mk_set_fmt_result 0 f None w)
    end
  else
    match which with
    | V4L2_SUBDEV_FORMAT_TRY => Some (mk_set_fmt_result 0 f (Some f) w)
    | V4L2_SUBDEV_FORMAT_ACTIVE =>
        Some (mk_set_fmt_result 0 imx294_update_metadata_pad_format None w)
    end.

End WithNearestSize.

(** The framework's [v4l2_find_nearest_size], by its contract: the entry
    with the smallest [|width - w| + |height - h|], the last one among equal
    candidates unless the distance is 0, where the search stops; [NULL] for
    an empty table.  The helper takes the requested size as [s32], computes
    each difference in 32 bits ([abs] of an unsigned difference converts it
    to [s32] first) and keeps the error in a [u32]. *)
Fixpoint nearest_from (best : option (Z * imx294_mode))
    (l : list imx294_mode) (w h : Z) : option imx294_mode :=
  match l with
  | [] => option_map snd best
  | md :: rest =>
      let error :=
        u32 (Z.abs (s32 (width md - w)) + Z.abs (s32 (height md - h))) in
      match best with
      | Some (min_error, _) =>
          if min_error <? error then nearest_from best rest w h
          else if error =? 0 then Some md
          else nearest_from (Some (error, md)) rest w h
      | None =>
          if error =? 0 then Some md
          else nearest_from (Some (error, md)) rest w h
      end
  end.
Definition v4l2_find_nearest_size (l : list imx294_mode) (w h : Z)
  : option imx294_mode :=
  nearest_from None l (s32 w) (s32 h).

End Pads.

(** ** State invariants *)
Module Invariants.
Import Catalog V4L2 Driver.

(** The consistency the data model asks of the timing state: the active
    mode is a catalog entry and both stored periods lie between the mode's
    floor and the register maximum. *)
Definition timing_invariant (w : world) : Prop :=
  In (mode (dev w)) supported_modes_12bit
  /\ min_HMAX (mode (dev w)) <= HMAX (dev w) < 2 ^ 16
  /\ min_VMAX (mode (dev w)) <= VMAX (dev w) <= IMX294_VMAX_MAX.

(** The part of the state a control operation has no business with. *)
Definition same_config (w w' : world) : Prop :=
  mode (dev w') = mode (dev w)
  /\ fmt_code (dev w') = fmt_code (dev w)
  /\ streaming (dev w') = streaming (dev w)
  /\ common_regs_written (dev w') = common_regs_written (dev w).

(** The values a control may be set to in mode [md]. *)
Definition legal_value (md : imx294_mode) (id : ctrl_id) (v : Z) : Prop :=
  match id with
  | V4L2_CID_VBLANK => vblank_min md <= v <= vblank_max md
  | V4L2_CID_HBLANK => 0 <= v <= IMX294_HMAX_MAX
  | _ => True
  end.

(** The number a sequence of bytes stands for when read big-endian: the
    first byte is the most significant one. *)
Fixpoint big_endian (bytes : list Z) : Z :=
  match bytes with
  | [] => 0
  | b :: rest => u8 b * 256 ^ Z.of_nat (length rest) + big_endian rest
  end.

(** The registers the control handler writes: the vertical period and the
    blanking compensation, the horizontal period and its two copies, the
    shutter and the analogue gain. *)
Definition control_registers : list Z :=
  [ IMX294_REG_VMAX; IMX294_REG_PSSLVS1; IMX294_REG_PSSLVS2;
    IMX294_REG_PSSLVS3; IMX294_REG_PSSLVS4; IMX294_REG_PSSLVS0;
    IMX294_REG_HMAX; IMX294_REG_HCOUNT1; IMX294_REG_HCOUNT2;
    IMX294_REG_SHR; IMX294_REG_ANALOG_GAIN ].

Definition to_control_register (buf : list Z) : Prop :=
  In (reg_address buf) control_registers.

(** [w'] has the bus log of [w] followed by transactions that all satisfy
    [P]. *)
Definition appends_only (P : list Z -> Prop) (w w' : world) : Prop :=
  exists l, i2c_log w' = i2c_log w ++ l /\ Forall P l.

(** The current values of the two blanking controls are values of their
    range in the active mode. *)
Definition controls_in_range (w : world) : Prop :=
  legal_value (mode (dev w)) V4L2_CID_VBLANK (cur_val (vblank (dev w)))
  /\ legal_value (mode (dev w)) V4L2_CID_HBLANK (cur_val (hblank (dev w))).

End Invariants.

(** ** Scenarios used to instantiate the theorems *)
Module Scenarios.
Import Catalog V4L2 Driver Registers Streaming Pads.

(** The device is in use; the transaction number [k] on the bus (counted
    from 0) fails, every other one succeeds. *)
Definition env_bus_fails_at (k : nat) : env :=
  mk_env 1 (fun n => negb (Nat.eqb n k)) (fun _ _ => Some [0]) 0.

(** The device is in use and every transaction on the bus fails. *)
Definition env_bus_dead : env :=
  mk_env 1 (fun _ => false) (fun _ _ => None) 0.

(** A device that answers a read with the bytes 0x12, 0x34. *)
Definition env_reads_1234 : env :=
  mk_env 1 (fun _ => true) (fun _ _ => Some [0x12; 0x34]) 0.

(** The default state after the vertical blanking has been set to 137816
    lines, which makes the vertical period 70000. *)
Definition vmax_70000_world : world :=
  match imx294_set_ctrl env_unpowered V4L2_CID_VBLANK 137816 default_world with
  | Some (_, w) => w
  | None => default_world
  end.

(** The probed device held by a system that has made no runtime-PM call
    yet, and the same while streaming after one successful start. *)
Definition idle_system : system := mk_system default_world [].
Definition streaming_system : system :=
  mk_system (set_common_regs_written true (set_streaming true default_world))
    [PM_RUNTIME_GET_SYNC].

End Scenarios.

(** Simplification of the record operations on controls. *)
Ltac ctrl_simpl :=
  cbn [V4L2.cur_to_new V4L2.new_to_cur V4L2.with_range V4L2.with_val
       V4L2.val V4L2.cur_val V4L2.minimum V4L2.maximum V4L2.step
       V4L2.default_value].

(** * Properties *)

(** ** Fixed-width arithmetic *)
Section FixedWidth.

Lemma u64_small (x : Z) : 0 <= x < 2 ^ 64 -> u64 x = x.
Proof. intros H. unfold u64. now apply Z.mod_small. Qed.

Lemma u32_small (x : Z) : 0 <= x < 2 ^ 32 -> u32 x = x.
Proof. intros H. unfold u32. now apply Z.mod_small. Qed.

Lemma u16_small (x : Z) : 0 <= x < 2 ^ 16 -> u16 x = x.
Proof. intros H. unfold u16. now apply Z.mod_small. Qed.

Lemma u64_range (x : Z) : 0 <= u64 x < 2 ^ 64.
Proof. unfold u64. apply Z.mod_pos_bound. lia. Qed.

Lemma u32_range (x : Z) : 0 <= u32 x < 2 ^ 32.
Proof. unfold u32. apply Z.mod_pos_bound. lia. Qed.

Lemma u16_range (x : Z) : 0 <= u16 x < 2 ^ 16.
Proof. unfold u16. apply Z.mod_pos_bound. lia. Qed.

Lemma s64_small (x : Z) : 0 <= x < 2 ^ 63 -> s64 x = x.
Proof.
  intros H. unfold s64. rewrite u64_small by lia.
  destruct (Z.ltb_spec x (2 ^ 63)); lia.
Qed.

Lemma s32_small (x : Z) : 0 <= x < 2 ^ 31 -> s32 x = x.
Proof.
  intros H. unfold s32. rewrite u32_small by lia.
  destruct (Z.ltb_spec x (2 ^ 31)); lia.
Qed.

(** The 64-bit numerator of the exposure formula is the exact numerator
    modulo 2^64: the intermediate reductions can be dropped. *)
Lemma numerator_u64 (hmax vmax shr svr offset : Z) :
  u64 (u64 (u64 (vmax * u64 (svr + 1)) - shr) * hmax + offset)
  = u64 ((vmax * (svr + 1) - shr) * hmax + offset).
Proof.
  unfold u64.
  set (n := 2 ^ 64).
  rewrite <- (Zplus_mod_idemp_l (_ * hmax)), Zmult_mod_idemp_l.
  rewrite Zplus_mod_idemp_l.
  rewrite <- (Zplus_mod_idemp_l ((_ - shr) * hmax)).
  rewrite <- (Zmult_mod_idemp_l (_ - shr)).
  rewrite Zminus_mod_idemp_l.
  rewrite <- (Zminus_mod_idemp_l (vmax * _)).
  rewrite Zmult_mod_idemp_r, Zminus_mod_idemp_l.
  rewrite Zmult_mod_idemp_l, Zplus_mod_idemp_l.
  reflexivity.
Qed.

(** A 32-bit truncation absorbs an inner 64-bit one. *)
Lemma u32_u64_sub (a b : Z) : u32 (u64 a - b) = u32 (a - b).
Proof.
  unfold u32, u64.
  rewrite <- (Zminus_mod_idemp_l (a mod 2 ^ 64)).
  rewrite Z.mod_mod_divide by (exists (2 ^ 32); reflexivity).
  now rewrite Zminus_mod_idemp_l.
Qed.

End FixedWidth.

(** ** Kernel macros *)
Section KernelFacts.
Import Kernel.

Lemma do_div_some (n base : Z) :
  0 < base < 2 ^ 32 -> 0 <= n < 2 ^ 64 -> do_div n base = Some (n / base).
Proof.
  intros Hb Hn. unfold do_div.
  rewrite u32_small, u64_small by lia.
  destruct (Z.eqb_spec base 0); [lia | reflexivity].
Qed.

(** [clamp_t(uint32_t, x, 0, 0xFFFFFFFF)] only truncates [x] to 32 bits:
    after the conversion every value already lies between the bounds. *)
Lemma clamp_t_u32_full (x : Z) : clamp_t u32 x 0 0xFFFFFFFF = u32 x.
Proof.
  unfold clamp_t, clamp.
  change (u32 0) with 0. change (u32 0xFFFFFFFF) with 0xFFFFFFFF.
  pose proof (u32_range x) as H.
  destruct (Z.geb_spec (u32 x) 0xFFFFFFFF); [lia |].
  destruct (Z.leb_spec (u32 x) 0); lia.
Qed.

(** Between ordered bounds [clamp] is the usual clamp. *)
Lemma clamp_max_min (v lo hi : Z) :
  lo <= hi -> clamp v lo hi = Z.max lo (Z.min v hi).
Proof.
  intros H. unfold clamp.
  destruct (Z.geb_spec v hi); [lia |].
  destruct (Z.leb_spec v lo); lia.
Qed.

Lemma clamp_bounds (v lo hi : Z) :
  lo <= hi -> lo <= clamp v lo hi <= hi.
Proof. intros H. rewrite clamp_max_min by assumption. lia. Qed.

Lemma min_t_u64 (x y : Z) :
  0 <= y < 2 ^ 64 -> min_t u64 x y = Z.min y (u64 x).
Proof.
  intros H. unfold min_t. rewrite (u64_small y) by assumption.
  destruct (Z.ltb_spec (u64 x) y); lia.
Qed.

End KernelFacts.

(** ** Timing calculator *)
Section TimingFacts.
Import Kernel Timing.

(** With a divisor that fits 32 bits the function returns, and its result
    is the 64-bit numerator divided by [hmax], truncated to 32 bits. *)
Lemma calculate_v4l2_cid_exposure_eq (hmax vmax shr svr offset : Z) :
  0 < hmax < 2 ^ 32 ->
  calculate_v4l2_cid_exposure hmax vmax shr svr offset
  = Some (u32 (u64 ((vmax * (svr + 1) - shr) * hmax + offset) / hmax)).
Proof.
  intros Hh. unfold calculate_v4l2_cid_exposure.
  rewrite numerator_u64.
  rewrite do_div_some by (auto using u64_range).
  cbn [obind]. now rewrite clamp_t_u32_full.
Qed.

(** C1 (as amended): where the exact numerator
    [(vPeriod*(svr+1) - shutterOffsetReg) * hPeriod + integrationOffset]
    is a 64-bit unsigned value, [hPeriod] is a positive 32-bit value and
    the quotient fits 32 bits, [calculate_v4l2_cid_exposure] returns
    exactly [floor(numerator / hPeriod)]. *)
Theorem exposure_from_shutter_in_range (hmax vmax shr svr offset : Z) :
  0 < hmax < 2 ^ 32 ->
  0 <= (vmax * (svr + 1) - shr) * hmax + offset < 2 ^ 64 ->
  exposure_formula hmax vmax shr svr offset < 2 ^ 32 ->
  calculate_v4l2_cid_exposure hmax vmax shr svr offset
  = Some (exposure_formula hmax vmax shr svr offset).
Proof.
  intros Hh Hn Hq. rewrite calculate_v4l2_cid_exposure_eq by assumption.
  unfold exposure_formula in *.
  rewrite u64_small by assumption.
  rewrite u32_small; [reflexivity |].
  split; [apply Z.div_pos; lia | assumption].
Qed.

Lemma exposure_from_shutter_in_range_witness :
  calculate_v4l2_cid_exposure 1200 2500 5 0 256
  = Some (exposure_formula 1200 2500 5 0 256).
Proof.
  apply (exposure_from_shutter_in_range 1200 2500 5 0 256).
  - lia.
  - lia.
  - vm_compute. reflexivity.
Defined.

(** C1 (counterexample): with [shr] above [vmax * (svr + 1)] the 64-bit
    subtraction wraps and the final [clamp_t] only truncates, so the result
    is neither the clamped integer formula (0) nor the clamped 64-bit
    formula (4294967295). *)
Lemma exposure_from_shutter_wraps :
  calculate_v4l2_cid_exposure 3 0 1 0 0 = Some 1431655764
  /\ exposureFromShutter_spec 3 0 1 0 0 = 0
  /\ exposureFromShutter_spec_u64 3 0 1 0 0 = 4294967295.
Proof. repeat split; vm_compute; reflexivity. Qed.

(** The final [clamp_t(uint32_t, numerator, 0, 0xFFFFFFFF)] does not
    saturate: a quotient of 2^32 + 7 comes back as 7. *)
Lemma exposure_from_shutter_truncates :
  calculate_v4l2_cid_exposure 1 (2 ^ 32 + 7) 0 0 0 = Some 7
  /\ exposureFromShutter_spec 1 (2 ^ 32 + 7) 0 0 0 = 4294967295.
Proof. split; vm_compute; reflexivity. Qed.

(** [do_div] divides by the low 32 bits of [hmax]: a divisor of 2^32 traps,
    a divisor of 2^32 + 2 divides by 2. *)
Lemma exposure_from_shutter_divisor_32bit :
  calculate_v4l2_cid_exposure (2 ^ 32) 1 0 0 0 = None
  /\ calculate_v4l2_cid_exposure (2 ^ 32 + 2) 1 0 0 0 = Some 2147483649.
Proof. split; vm_compute; reflexivity. Qed.

(** With a 32-bit divisor the bounds are always produced. *)
Lemma calculate_min_max_total (hmax vmax min_shr svr offset : Z) :
  0 < hmax < 2 ^ 32 ->
  exists mn mx,
    calculate_min_max_v4l2_cid_exposure hmax vmax min_shr svr offset
    = Some (mn, mx).
Proof.
  intros Hh. unfold calculate_min_max_v4l2_cid_exposure.
  rewrite !calculate_v4l2_cid_exposure_eq by assumption.
  cbn [obind]. eauto.
Qed.

(** Where [vmax * (svr + 1)] is at least 4 and fits 64 bits, the maximal
    shutter offset is the plain integer [min(65535, vmax*(svr+1) - 4)]. *)
Lemma max_shr_no_wrap (vmax svr : Z) :
  4 <= vmax * (svr + 1) < 2 ^ 64 ->
  Z.min 65535 (u64 (vmax * (svr + 1) - 4))
  = Z.min 65535 (vmax * (svr + 1) - 4).
Proof. intros H. now rewrite u64_small by lia. Qed.

(** In range the clamp of the specification does nothing. *)
Lemma saturate_u32_id (x : Z) : 0 <= x < 2 ^ 32 -> saturate_u32 x = x.
Proof. intros H. unfold saturate_u32. lia. Qed.

(** C2 (as amended): for unsigned inputs where [hPeriod] is a positive
    32-bit value, [vPeriod*(svr+1)] is at least 4, the smallest shutter
    offset does not exceed it, and [vPeriod*(svr+1)*hPeriod +
    integrationOffset] fits 64 bits with a quotient by [hPeriod] that fits
    32 bits, [calculate_min_max_v4l2_cid_exposure] returns the bounds of the
    specification: the integer exposure formula at [maxShutterOffset =
    min(65535, vPeriod*(svr+1) - 4)] and at [minShutterOffset]; for
    hPeriod=1200, vPeriod=2500, svr=0, integrationOffset=256,
    minShutterOffset=5 that is (4, 2495). *)
Theorem exposure_bounds_in_range :
  (forall hmax vmax min_shr svr offset : Z,
      0 < hmax < 2 ^ 32 ->
      0 <= svr ->
      0 <= offset ->
      4 <= vmax * (svr + 1) ->
      0 <= min_shr <= vmax * (svr + 1) ->
      vmax * (svr + 1) * hmax + offset < 2 ^ 64 ->
      (vmax * (svr + 1) * hmax + offset) / hmax < 2 ^ 32 ->
      calculate_min_max_v4l2_cid_exposure hmax vmax min_shr svr offset
      = Some (exposureBounds_spec hmax vmax min_shr svr offset))
  /\ calculate_min_max_v4l2_cid_exposure 1200 2500 5 0 256 = Some (4, 2495).
Proof.
  split; [| vm_compute; reflexivity].
  intros hmax vmax min_shr svr offset Hh Hsvr Hoff Hp Hshr Hn Hq.
  set (P := vmax * (svr + 1)) in *.
  assert (H64 : 2 ^ 64 = 18446744073709551616) by reflexivity.
  assert (Hvm : 1 <= vmax) by (subst P; nia).
  assert (Hp64 : P < 2 ^ 64) by nia.
  assert (Hs1 : 0 <= svr + 1 < 2 ^ 64) by (subst P; nia).
  assert (Hexp : forall shr, 0 <= shr <= P ->
            calculate_v4l2_cid_exposure hmax vmax shr svr offset
            = Some (exposureFromShutter_spec hmax vmax shr svr offset)).
  { intros shr Hs.
    rewrite calculate_v4l2_cid_exposure_eq by assumption.
    unfold exposureFromShutter_spec, exposure_formula. fold P.
    assert (Hnum : 0 <= (P - shr) * hmax + offset <= P * hmax + offset)
      by nia.
    rewrite u64_small by lia.
    assert (Hquot : 0 <= ((P - shr) * hmax + offset) / hmax < 2 ^ 32).
    { split; [apply Z.div_pos; lia |].
      eapply Z.le_lt_trans; [| exact Hq].
      apply Z.div_le_mono; lia. }
    now rewrite u32_small, saturate_u32_id by assumption. }
  unfold calculate_min_max_v4l2_cid_exposure, exposureBounds_spec.
  cbv zeta. fold P.
  rewrite (u64_small (svr + 1)) by assumption.
  replace ((svr + 1) * vmax) with P by (subst P; ring).
  rewrite (u64_small (P - 4)) by lia.
  rewrite min_t_u64 by lia.
  rewrite (u64_small (P - 4)) by lia.
  rewrite !Hexp by lia.
  reflexivity.
Qed.

Lemma exposure_bounds_in_range_witness :
  calculate_min_max_v4l2_cid_exposure 1200 2500 5 0 256
  = Some (exposureBounds_spec 1200 2500 5 0 256).
Proof.
  apply (proj1 exposure_bounds_in_range 1200 2500 5 0 256).
  - lia.
  - lia.
  - lia.
  - lia.
  - lia.
  - lia.
  - vm_compute. reflexivity.
Defined.

(** C2 (counterexample): with [vPeriod = 0] the subtraction
    [vPeriod*(svr+1) - 4] wraps in 64 bits, so the largest shutter offset is
    65535 and not -4, and both exposures are computed from wrapped
    numerators; with [hPeriod = 2^32] the division traps.  The bounds of the
    specification are (4, 0) and (4, 2495) there. *)
Lemma exposure_bounds_wrap :
  calculate_min_max_v4l2_cid_exposure 1200 0 5 0 256
  = Some (1775187614, 1775253144)
  /\ exposureBounds_spec 1200 0 5 0 256 = (4, 0)
  /\ calculate_min_max_v4l2_cid_exposure (2 ^ 32) 2500 5 0 256 = None
  /\ exposureBounds_spec (2 ^ 32) 2500 5 0 256 = (4, 2495).
Proof. repeat split; vm_compute; reflexivity. Qed.

(** The round trip, exactly: the shutter value comes back unchanged when
    the integration offset is 0 and one higher otherwise. *)
Lemma shutter_round_trip_exact (hmax vmax shr svr offset : Z) :
  0 < hmax < 2 ^ 32 ->
  is_u64 vmax ->
  0 <= svr < 2 ^ 32 - 1 ->
  0 <= offset < hmax ->
  0 <= shr <= Z.min 65535 (vmax * (svr + 1) - 4) ->
  vmax * (svr + 1) - shr < 2 ^ 32 ->
  calculate_v4l2_cid_exposure hmax vmax shr svr offset
  = Some (vmax * (svr + 1) - shr)
  /\ calculate_shr (vmax * (svr + 1) - shr) hmax vmax svr offset
     = Some (if offset =? 0 then shr else shr + 1).
Proof.
  intros Hh Hv Hs Ho Hshr He. unfold is_u64 in Hv.
  set (E := vmax * (svr + 1) - shr) in *.
  assert (HE : 4 <= E < 2 ^ 32) by lia.
  split.
  - rewrite calculate_v4l2_cid_exposure_eq by assumption.
    fold E.
    rewrite u64_small by nia.
    rewrite Z.div_add_l, (Z.div_small offset hmax) by lia.
    rewrite Z.add_0_r. now rewrite u32_small by lia.
  - unfold calculate_shr.
    rewrite (u32_small E), (u32_small hmax), (u64_small vmax),
      (u32_small svr), (u32_small offset), (u32_small (svr + 1)) by lia.
    rewrite (u64_small (E * hmax - offset)) by nia.
    rewrite do_div_some by nia.
    cbn [obind]. f_equal.
    rewrite u32_u64_sub.
    destruct (Z.eqb_spec offset 0) as [-> | Hne].
    + rewrite Z.sub_0_r, Z.div_mul by lia.
      replace (vmax * (svr + 1) - E) with shr by (unfold E; ring).
      apply u32_small. lia.
    + replace (E * hmax - offset) with ((E - 1) * hmax + (hmax - offset))
        by ring.
      rewrite Z.div_add_l, (Z.div_small (hmax - offset) hmax) by lia.
      replace (vmax * (svr + 1) - (E - 1 + 0)) with (shr + 1)
        by (unfold E; ring).
      apply u32_small. lia.
Qed.

(** C3: for a positive 32-bit [hPeriod], an integration offset below it and
    a shutter offset in the legal range [0 .. min(65535, vPeriod*(svr+1)-4)]
    whose exposure fits 32 bits, [calculate_v4l2_cid_exposure] followed by
    [calculate_shr] returns a shutter value that differs from the original
    by at most one (the truncation of the divisions), not always zero. *)
Theorem shutter_round_trip_bounded (hmax vmax shr svr offset : Z) :
  0 < hmax < 2 ^ 32 ->
  is_u64 vmax ->
  0 <= svr < 2 ^ 32 - 1 ->
  0 <= offset < hmax ->
  0 <= shr <= Z.min 65535 (vmax * (svr + 1) - 4) ->
  vmax * (svr + 1) - shr < 2 ^ 32 ->
  exists exposure shr',
    calculate_v4l2_cid_exposure hmax vmax shr svr offset = Some exposure
    /\ calculate_shr exposure hmax vmax svr offset = Some shr'
    /\ shr <= shr' <= shr + 1.
Proof.
  intros Hh Hv Hs Ho Hshr He.
  destruct (shutter_round_trip_exact hmax vmax shr svr offset)
    as [H1 H2]; try assumption.
  eexists _, _. split; [exact H1 |]. split; [exact H2 |].
  destruct (offset =? 0); lia.
Qed.

Lemma shutter_round_trip_bounded_witness :
  exists exposure shr',
    calculate_v4l2_cid_exposure 1200 2500 5 0 256 = Some exposure
    /\ calculate_shr exposure 1200 2500 0 256 = Some shr'
    /\ 5 <= shr' <= 5 + 1.
Proof.
  apply (shutter_round_trip_bounded 1200 2500 5 0 256);
    unfold is_u64; lia.
Defined.

(** The difference really is not always zero. *)
Lemma shutter_round_trip_off_by_one :
  calculate_v4l2_cid_exposure 1200 2500 5 0 256 = Some 2495
  /\ calculate_shr 2495 1200 2500 0 256 = Some 6.
Proof. split; vm_compute; reflexivity. Qed.

End TimingFacts.

(** ** Format-code lookup *)
Section FormatCodeFacts.
Import Catalog.

(** The loop leaves [i] at the position of the first match, or one past the
    last entry it looked at. *)
Lemma format_code_loop_found (rest : list Z) (i : nat) (code : Z) :
  In code rest ->
  nth_error rest (format_code_loop rest i code - i) = Some code.
Proof.
  revert i. induction rest as [| c rest IH]; intros i Hin; [easy |].
  cbn [format_code_loop].
  destruct (Z.eqb_spec c code) as [-> | Hne].
  - now rewrite Nat.sub_diag.
  - destruct Hin as [-> | Hin]; [easy |].
    specialize (IH (S i) Hin).
    assert (Hle : (S i <= format_code_loop rest (S i) code)%nat).
    { clear. revert i. induction rest as [| c' r IHr]; intros i; cbn.
      - lia.
      - destruct (c' =? code); [lia |].
        specialize (IHr (S i)). lia. }
    replace (format_code_loop rest (S i) code - i)%nat
      with (S (format_code_loop rest (S i) code - S i)) by lia.
    exact IH.
Qed.

Lemma format_code_loop_missing (rest : list Z) (i : nat) (code : Z) :
  ~ In code rest ->
  format_code_loop rest i code = (i + length rest)%nat.
Proof.
  revert i. induction rest as [| c rest IH]; intros i Hnin; cbn.
  - lia.
  - destruct (Z.eqb_spec c code) as [-> | Hne].
    + exfalso. apply Hnin. now left.
    + rewrite IH by (intros H; apply Hnin; now right). lia.
Qed.

(** A supported code is returned as it is; for any other code the loop
    ends with [i = ARRAY_SIZE(codes)] and [codes[i]] is read past the end
    of the table. *)
Lemma imx294_get_format_code_cases (code : Z) :
  (In code codes -> imx294_get_format_code code = Some code)
  /\ (~ In code codes ->
      imx294_get_format_code_index code = length codes
      /\ imx294_get_format_code code = None).
Proof.
  unfold imx294_get_format_code, imx294_get_format_code_index. split.
  - intros Hin. pose proof (format_code_loop_found codes 0 code Hin) as H.
    now rewrite Nat.sub_0_r in H.
  - intros Hnin. rewrite format_code_loop_missing by assumption.
    split; [reflexivity |]. now apply nth_error_None.
Qed.

(** C10 (failing input): for the metadata code, which is not in [codes],
    the lookup leaves the loop with index 4 = ARRAY_SIZE(codes) and reads
    [codes[4]], one element past the end of the array; no supported code is
    returned. *)
Theorem imx294_get_format_code_reads_past_end :
  ~ In MEDIA_BUS_FMT_SENSOR_DATA codes
  /\ imx294_get_format_code_index MEDIA_BUS_FMT_SENSOR_DATA = length codes
  /\ imx294_get_format_code MEDIA_BUS_FMT_SENSOR_DATA = None.
Proof.
  split; [| split; reflexivity].
  cbn. intros [H | [H | [H | [H | []]]]]; discriminate H.
Qed.

End FormatCodeFacts.

(** ** Chip identification *)
Section ProbeFacts.
Import Driver.

(** Whatever the identity register answers, a successful read makes
    [imx294_identify_module] succeed: [expected_id] is never compared. *)
Lemma imx294_identify_module_ignores_id (e : env) (expected_id : Z)
    (data : list Z) :
  i2c_transfer_read e IMX294_REG_CHIP_ID 1 = Some data ->
  imx294_identify_module e expected_id = 0.
Proof.
  intros H. unfold imx294_identify_module, imx294_read_reg.
  change (u16 IMX294_REG_CHIP_ID) with IMX294_REG_CHIP_ID.
  cbn [Z.ltb Z.compare Pos.compare Pos.compare_cont].
  now rewrite H.
Qed.

(** C9 (failing input): the identity register reads 0x12 while the
    expected chip id is 0x0000; [imx294_identify_module] still returns 0
    and [imx294_probe] returns 0, that is, the device is registered. *)
Theorem imx294_probe_accepts_wrong_chip_id :
  imx294_read_reg wrong_id_env IMX294_REG_CHIP_ID 1 = (0, Some 0x12)
  /\ 0x12 <> IMX294_CHIP_ID
  /\ imx294_identify_module wrong_id_env IMX294_CHIP_ID = 0
  /\ imx294_probe all_ok_probe_env wrong_id_env = Some 0.
Proof. repeat split; try (vm_compute; reflexivity). discriminate. Qed.

End ProbeFacts.

(** ** Control framework *)
Section FrameworkFacts.
Import Kernel V4L2.

(** With step 1 and ordered bounds, rounding into the range is a clamp. *)
Lemma round_to_range_step1 (c : v4l2_ctrl) (v : Z) :
  step c = 1 -> minimum c <= maximum c ->
  round_to_range c v = Z.max (minimum c) (Z.min v (maximum c)).
Proof.
  intros Hs Hle. unfold round_to_range. rewrite Hs.
  change (1 / 2) with 0.
  rewrite Z.sub_0_r, Z.add_0_r, Z.mul_1_l, Z.div_1_r.
  destruct (Z.leb_spec 0 (maximum c)), (Z.leb_spec (maximum c) v);
    cbn [andb]; rewrite clamp_max_min by assumption; lia.
Qed.

Lemma check_range_true (min max step def : Z) :
  step <> 0 -> min <= def <= max -> check_range min max step def = true.
Proof.
  intros Hs Hd. unfold check_range.
  destruct (Z.eqb_spec step 0); [contradiction |].
  destruct (Z.ltb_spec max min); [lia |].
  destruct (Z.ltb_spec def min); [lia |].
  destruct (Z.ltb_spec max def); [lia | reflexivity].
Qed.

Context {S : Type}.
Variable get : S -> v4l2_ctrl.
Variable set : v4l2_ctrl -> S -> S.
Variable s_ctrl : Z -> S -> option (Z * S).
Hypothesis get_set : forall c w, get (set c w) = c.
Hypothesis set_set : forall c c' w, set c' (set c w) = set c' w.

Lemma set_ctrl_step1 (w : S) :
  let c := get w in
  step c = 1 -> minimum c <= maximum c ->
  set_ctrl get set s_ctrl w
  = apply_new get set s_ctrl c
      (Z.max (minimum c) (Z.min (val c) (maximum c))) w.
Proof.
  intros c Hs Hle. unfold set_ctrl. fold c.
  now rewrite round_to_range_step1 by assumption.
Qed.

Lemma v4l2_ctrl_s_ctrl_step1 (v : Z) (w : S) :
  let c := get w in
  step c = 1 -> minimum c <= maximum c ->
  __v4l2_ctrl_s_ctrl get set s_ctrl v w
  = apply_new get set s_ctrl c
      (Z.max (minimum c) (Z.min v (maximum c))) w.
Proof.
  intros c Hs Hle. unfold __v4l2_ctrl_s_ctrl.
  rewrite set_ctrl_step1; rewrite get_set; try assumption.
  unfold apply_new. ctrl_simpl.
  fold c. now rewrite !set_set.
Qed.

Lemma v4l2_ctrl_modify_range_step1 (min max def : Z) (w : S) :
  min <= def <= max ->
  __v4l2_ctrl_modify_range get set s_ctrl min max 1 def w
  = apply_new get set s_ctrl (with_range min max 1 def (get w))
      (Z.max min (Z.min (cur_val (get w)) max)) w.
Proof.
  intros Hd. unfold __v4l2_ctrl_modify_range.
  rewrite check_range_true by lia.
  cbv zeta. rewrite round_to_range_step1 by (cbn; lia).
  ctrl_simpl.
  set (new := Z.max min (Z.min (cur_val (get w)) max)).
  unfold apply_new. ctrl_simpl.
  destruct (Z.eqb_spec new (cur_val (get w))) as [Heq | Hne];
    [reflexivity |].
  rewrite set_ctrl_step1; rewrite get_set; ctrl_simpl; try lia.
  replace (Z.max min (Z.min new max)) with new by lia.
  unfold apply_new. ctrl_simpl.
  destruct (Z.eqb_spec new (cur_val (get w))); [lia |].
  now rewrite set_set.
Qed.

Lemma v4l2_ctrl_modify_range_rejected (min max step def : Z) (w : S) :
  check_range min max step def = false ->
  __v4l2_ctrl_modify_range get set s_ctrl min max step def w
  = Some (- ERANGE, w).
Proof. intros H. unfold __v4l2_ctrl_modify_range. now rewrite H. Qed.

(** Totality and preservation: if the operation, on values that satisfy
    [P] and states that satisfy [Q], returns, keeps [Q] and leaves the
    control alone, so does the application of such a value. *)
Variable P : Z -> Prop.
Variable Q : S -> Prop.
Hypothesis Q_set : forall c w, Q w -> Q (set c w).
Hypothesis s_ctrl_ok :
  forall v w, P v -> Q w ->
    exists r w', s_ctrl v w = Some (r, w') /\ Q w' /\ get w' = get w.

Lemma apply_new_ok (c : v4l2_ctrl) (v : Z) (w : S) :
  P v -> Q w ->
  exists r w',
    apply_new get set s_ctrl c v w = Some (r, w') /\ Q w'
    /\ minimum (get w') = minimum c /\ maximum (get w') = maximum c
    /\ step (get w') = step c /\ default_value (get w') = default_value c
    /\ val (get w') = v
    /\ (cur_val (get w') = v \/ cur_val (get w') = cur_val c)
    /\ (r = 0 -> cur_val (get w') = v).
Proof.
  intros Hp Hq. unfold apply_new.
  destruct (Z.eqb_spec v (cur_val c)) as [Heq | Hne].
  - eexists _, _. split; [reflexivity |]. rewrite get_set.
    cbn. repeat split; auto.
  - destruct (s_ctrl_ok v (set (with_val v c) w) Hp (Q_set _ _ Hq))
      as (r & w' & Hop & Hq' & Hget).
    rewrite Hop. cbn [obind]. rewrite get_set in Hget.
    destruct (Z.eqb_spec r 0) as [-> | Hr].
    + eexists _, _. split; [reflexivity |]. rewrite get_set, Hget.
      cbn. repeat split; auto.
    + eexists _, _. split; [reflexivity |]. rewrite Hget.
      cbn. repeat split; auto. intros; contradiction.
Qed.

End FrameworkFacts.

(** ** Control handler *)

Section BusFacts.
Import Driver.

Lemma write_reg_2byte_eq (e : env) (reg val : Z) (w : world) :
  imx294_write_reg_2byte e reg val w
  = (if i2c_xfer_ok e (length (i2c_log w)) then 0 else - EIO,
     mk_world (dev w) (i2c_log w ++ [buf_2byte reg val])).
Proof.
  unfold imx294_write_reg_2byte, i2c_master_send.
  destruct (i2c_xfer_ok e _); reflexivity.
Qed.

Lemma write_reg_3byte_eq (e : env) (reg val : Z) (w : world) :
  imx294_write_reg_3byte e reg val w
  = (if i2c_xfer_ok e (length (i2c_log w)) then 0 else - EIO,
     mk_world (dev w) (i2c_log w ++ [buf_3byte reg val])).
Proof.
  unfold imx294_write_reg_3byte, i2c_master_send.
  destruct (i2c_xfer_ok e _); reflexivity.
Qed.

(** The address bytes of a buffer give back the 16-bit register address. *)
Lemma reg_address_buf_2byte (reg val : Z) :
  0 <= reg < 2 ^ 16 -> reg_address (buf_2byte reg val) = reg.
Proof.
  intros H. unfold buf_2byte, put_unaligned_be16, reg_address.
  cbn [app]. rewrite (u16_small reg) by assumption.
  unfold u8. rewrite Z.shiftr_div_pow2 by lia.
  rewrite (Z.mod_small (reg / 2 ^ 8)).
  - pose proof (Z.div_mod reg (2 ^ 8)). lia.
  - split; [apply Z.div_pos; lia |].
    apply Z.div_lt_upper_bound; lia.
Qed.

End BusFacts.

Section CatalogFacts.
Import Kernel Catalog Driver.

Lemma catalog_cases (md : imx294_mode) :
  In md supported_modes_12bit ->
  md = mode_01 \/ md = mode_01A \/ md = mode_01B \/ md = mode_00.
Proof.
  intros [H | [H | [H | [H | []]]]]; subst; auto.
Qed.

Lemma vblank_range_catalog (md : imx294_mode) :
  In md supported_modes_12bit ->
  VMAX_scale md = 2
  /\ vblank_min md = 2 * min_VMAX md - height md
  /\ vblank_max md = 2 * IMX294_VMAX_MAX - height md
  /\ 0 <= vblank_min md
  /\ 2180 <= height md <= 2840
  /\ 1111 <= min_VMAX md <= 1444.
Proof.
  intros Hin.
  destruct (catalog_cases md Hin) as [-> | [-> | [-> | ->]]];
    vm_compute; repeat split; discriminate.
Qed.

(** In every catalog mode a legal vertical blanking gives a vertical
    period between the mode's floor and the 20-bit register maximum, and
    the division that computes it does not trap. *)
Lemma vblank_vmax_range (md : imx294_mode) (x : Z) :
  In md supported_modes_12bit ->
  vblank_min md <= x <= vblank_max md ->
  do_div (u64 (height md + x)) (VMAX_scale md)
  = Some ((height md + x) / VMAX_scale md)
  /\ min_VMAX md <= (height md + x) / VMAX_scale md <= IMX294_VMAX_MAX.
Proof.
  intros Hin Hx.
  destruct (vblank_range_catalog md Hin)
    as (-> & Hmin & Hmax & Hpos & Hh & Hv).
  rewrite Hmin, Hmax in Hx. unfold IMX294_VMAX_MAX in *.
  split.
  - rewrite u64_small by lia. now rewrite do_div_some by lia.
  - split.
    + apply Z.div_le_lower_bound; lia.
    + apply Z.lt_succ_r, Z.div_lt_upper_bound; lia.
Qed.

End CatalogFacts.

Section ExposureLimits.
Import Kernel Timing Catalog V4L2 Driver.

Lemma timing_consts_catalog (md : imx294_mode) :
  In md supported_modes_12bit ->
  min_SHR md = 5 /\ 0 <= integration_offset md <= 551.
Proof.
  intros Hin.
  destruct (catalog_cases md Hin) as [-> | [-> | [-> | ->]]];
    vm_compute; repeat split; discriminate.
Qed.

(** The exposure limits of a catalog mode, for a horizontal period [h] and
    a legal vertical period [vmax], in closed form. *)
Lemma exposure_limits_catalog (md : imx294_mode) (h vmax : Z) :
  In md supported_modes_12bit ->
  0 < h < 2 ^ 16 ->
  min_VMAX md <= vmax <= IMX294_VMAX_MAX ->
  calculate_min_max_v4l2_cid_exposure h vmax (u64 (min_SHR md)) 0
    (integration_offset md)
  = Some (vmax - Z.min 65535 (vmax - 4) + integration_offset md / h,
          vmax - 5 + integration_offset md / h).
Proof.
  intros Hin Hh Hv.
  destruct (timing_consts_catalog md Hin) as (-> & Hoff).
  destruct (vblank_range_catalog md Hin) as (_ & _ & _ & _ & _ & Hmv).
  unfold IMX294_VMAX_MAX in Hv.
  unfold calculate_min_max_v4l2_cid_exposure.
  rewrite min_t_u64 by lia.
  change (u64 (0 + 1)) with 1. change (u64 5) with 5.
  rewrite (u64_small (1 * vmax - 4)), (u64_small (1 * vmax - 4)) by lia.
  rewrite !calculate_v4l2_cid_exposure_eq by lia.
  cbn [obind]. change (0 + 1) with 1.
  rewrite !Z.mul_1_r, Z.mul_1_l.
  pose proof (Z.div_pos (integration_offset md) h ltac:(lia) ltac:(lia)).
  assert (integration_offset md / h <= 551).
  { apply Z.lt_succ_r, Z.div_lt_upper_bound; nia. }
  rewrite !u64_small by nia.
  rewrite !Z.div_add_l by lia.
  rewrite !u32_small by lia.
  reflexivity.
Qed.

End ExposureLimits.

Section ApplyFacts.
Import Kernel Timing Catalog V4L2 Driver.

Lemma calculate_shr_total (exposure hmax vmax svr offset : Z) :
  0 < hmax < 2 ^ 32 ->
  exists shr, calculate_shr exposure hmax vmax svr offset = Some shr.
Proof.
  intros Hh. unfold calculate_shr.
  cbv zeta. rewrite (u32_small hmax) by lia.
  rewrite do_div_some by (auto using u64_range).
  cbn [obind]. eauto.
Qed.

(** The exposure case: nothing while the device is not in use, one write
    to the shutter register otherwise. *)
Lemma apply_exposure_cases (e : env) (v : Z) (w : world) :
  0 < HMAX (dev w) < 2 ^ 32 ->
  (pm_runtime_get_if_in_use e = 0
   /\ imx294_set_ctrl_apply e V4L2_CID_EXPOSURE v w = Some (0, w))
  \/ (pm_runtime_get_if_in_use e <> 0
      /\ exists shr,
          imx294_set_ctrl_apply e V4L2_CID_EXPOSURE v w
          = Some (if i2c_xfer_ok e (length (i2c_log w)) then 0 else - EIO,
                  mk_world (dev w)
                    (i2c_log w ++ [buf_2byte IMX294_REG_SHR shr]))).
Proof.
  intros Hh. unfold imx294_set_ctrl_apply.
  destruct (Z.eqb_spec (pm_runtime_get_if_in_use e) 0) as [H0 | Hn0].
  - left. auto.
  - right. split; [assumption |].
    destruct (calculate_shr_total v (HMAX (dev w)) (VMAX (dev w)) 0
                (integration_offset (mode (dev w))) Hh) as [shr Hshr].
    exists shr. rewrite Hshr. cbn [obind].
    now rewrite write_reg_2byte_eq.
Qed.

(** The vertical-blank case while the device is in use: the vertical
    period is stored and six registers are written. *)
Lemma apply_vblank_powered (e : env) (x : Z) (w : world) :
  let md := mode (dev w) in
  let vmax := (height md + x) / VMAX_scale md in
  pm_runtime_get_if_in_use e <> 0 ->
  In md supported_modes_12bit ->
  vblank_min md <= x <= vblank_max md ->
  imx294_set_ctrl_apply e V4L2_CID_VBLANK x w
  = Some (if i2c_xfer_ok e (length (i2c_log w) + 5) then 0 else - EIO,
          mk_world (dev (set_VMAX vmax w))
            (i2c_log w ++ vblank_writes vmax (min_VMAX md))).
Proof.
  intros md vmax Hpm Hin Hx. unfold imx294_set_ctrl_apply.
  destruct (Z.eqb_spec (pm_runtime_get_if_in_use e) 0); [contradiction |].
  fold md.
  destruct (vblank_vmax_range md x Hin Hx) as [Hdiv Hv].
  rewrite Hdiv. cbn [obind]. fold vmax in Hv |- *.
  unfold IMX294_VMAX_MAX in Hv.
  destruct (vblank_range_catalog md Hin) as (_ & _ & _ & _ & _ & Hmv).
  rewrite (u32_small vmax) by lia.
  rewrite write_reg_3byte_eq.
  cbn [dev i2c_log set_VMAX set_dev VMAX].
  rewrite !write_reg_2byte_eq.
  cbn [dev i2c_log].
  set (vblk := u64 (vmax - min_VMAX md)).
  unfold vblank_writes. fold vblk.
  destruct (vblk <=? 5); cbn [dev i2c_log];
    rewrite write_reg_2byte_eq; cbn [dev i2c_log];
    rewrite <- !app_assoc; cbn [app];
    rewrite !length_app; cbn [length];
    replace (length (i2c_log w) + 5)%nat
      with (length (i2c_log w) + 1 + 1 + 1 + 1 + 1)%nat by lia;
    rewrite <- !Nat.add_assoc; reflexivity.
Qed.

End ApplyFacts.

Section VblankLimits.
Import Kernel Timing Catalog V4L2 Driver.

Lemma exposure_get_set (c : v4l2_ctrl) (w : world) :
  exposure (dev (set_exposure c w)) = c.
Proof. reflexivity. Qed.

Lemma exposure_set_set (c c' : v4l2_ctrl) (w : world) :
  set_exposure c' (set_exposure c w) = set_exposure c' w.
Proof. reflexivity. Qed.

(** The limits are ordered and fit a signed 32-bit value. *)
Lemma exposure_limits_ordered (md : imx294_mode) (h vmax : Z) :
  In md supported_modes_12bit ->
  0 < h < 2 ^ 16 ->
  min_VMAX md <= vmax <= IMX294_VMAX_MAX ->
  let mn := vmax - Z.min 65535 (vmax - 4) + integration_offset md / h in
  let mx := vmax - 5 + integration_offset md / h in
  0 <= mn /\ mn <= mx /\ mx < 2 ^ 31.
Proof.
  intros Hin Hh Hv.
  destruct (timing_consts_catalog md Hin) as (_ & Hoff).
  destruct (vblank_range_catalog md Hin) as (_ & _ & _ & _ & _ & Hmv).
  unfold IMX294_VMAX_MAX in Hv.
  pose proof (Z.div_pos (integration_offset md) h ltac:(lia) ltac:(lia)).
  assert (integration_offset md / h <= 551).
  { apply Z.lt_succ_r, Z.div_lt_upper_bound; nia. }
  cbv zeta. lia.
Qed.

(** The part of [imx294_set_ctrl] before the power check, for a legal
    vertical blanking in a catalog mode: the vertical period is stored, the
    exposure control gets the new limits, its value is clamped into them
    (and committed unless a shutter write fails), its default becomes the
    clamped content of the uninitialised local; at most one shutter
    register write reaches the bus, none while the device is not in use. *)
Lemma vblank_limits_spec (e : env) (x : Z) (w : world) :
  let md := mode (dev w) in
  let h := HMAX (dev w) in
  let vmax := (height md + x) / VMAX_scale md in
  let mn := vmax - Z.min 65535 (vmax - 4) + integration_offset md / h in
  let mx := vmax - 5 + integration_offset md / h in
  let old := cur_val (exposure (dev w)) in
  let new := Z.max mn (Z.min old mx) in
  In md supported_modes_12bit ->
  0 < h < 2 ^ 16 ->
  vblank_min md <= x <= vblank_max md ->
  exists c log',
    imx294_set_ctrl_vblank_limits e x w
    = Some (mk_world (dev (set_exposure c (set_VMAX vmax w))) log')
    /\ minimum c = mn /\ maximum c = mx /\ step c = 1
    /\ default_value c = clamp_t u32 (uninit_current_exposure e) mn mx
    /\ val c = new
    /\ (cur_val c = new \/ cur_val c = old)
    /\ (pm_runtime_get_if_in_use e = 0
        \/ (forall n, i2c_xfer_ok e n = true) -> cur_val c = new)
    /\ (log' = i2c_log w
        \/ (pm_runtime_get_if_in_use e <> 0
            /\ exists shr,
                log' = i2c_log w ++ [buf_2byte IMX294_REG_SHR shr]))
    /\ (pm_runtime_get_if_in_use e = 0 -> log' = i2c_log w).
Proof.
  intros md h vmax mn mx old new Hin Hh Hx.
  destruct (vblank_vmax_range md x Hin Hx) as [Hdiv Hv].
  fold vmax in Hv.
  destruct (exposure_limits_ordered md h vmax Hin Hh Hv)
    as (Hmn & Hle & Hmx).
  fold mn mx in Hmn, Hle, Hmx.
  unfold imx294_set_ctrl_vblank_limits. fold md.
  rewrite Hdiv. cbn [obind]. fold vmax.
  rewrite (u32_small vmax) by (unfold IMX294_VMAX_MAX in Hv;
    destruct (vblank_range_catalog md Hin) as (_ & _ & _ & _ & _ & Hmv);
    lia).
  replace (HMAX (dev (set_VMAX vmax w))) with h by reflexivity.
  replace (VMAX (dev (set_VMAX vmax w))) with vmax by reflexivity.
  rewrite exposure_limits_catalog by assumption.
  cbn [obind]. fold mn mx.
  set (def := clamp_t u32 (uninit_current_exposure e) mn mx).
  assert (Hdef : mn <= def <= mx).
  { unfold def, clamp_t. rewrite (u32_small mn), (u32_small mx) by lia.
    now apply clamp_bounds. }
  rewrite (s64_small mn), (s64_small mx), (s64_small def) by lia.
  rewrite (v4l2_ctrl_modify_range_step1 _ _ _ exposure_get_set
             exposure_set_set) by assumption.
  replace (cur_val (exposure (dev (set_VMAX vmax w)))) with old
    by reflexivity.
  fold new.
  replace (exposure (dev (set_VMAX vmax w))) with (exposure (dev w))
    by reflexivity.
  set (c0 := with_range mn mx 1 def (exposure (dev w))).
  unfold apply_new.
  replace (cur_val c0) with old by reflexivity.
  destruct (Z.eqb_spec new old) as [Heq | Hne].
  - exists (with_val new c0), (i2c_log w). cbn [obind].
    split; [reflexivity |].
    cbn. repeat split; auto.
  - set (w0 := set_exposure (with_val new c0) (set_VMAX vmax w)).
    destruct (apply_exposure_cases e new w0 ltac:(cbn; lia))
      as [[Hpm Hop] | [Hpm [shr Hop]]]; rewrite Hop; cbn [obind].
    + exists (new_to_cur (with_val new c0)), (i2c_log w).
      split; [reflexivity |].
      cbn. repeat split; auto.
    + destruct (i2c_xfer_ok e (length (i2c_log w0))) eqn:Hok.
      * exists (new_to_cur (with_val new c0)),
          (i2c_log w ++ [buf_2byte IMX294_REG_SHR shr]).
        split; [reflexivity |].
        cbn. repeat split; eauto. intros; contradiction.
      * exists (with_val new c0),
          (i2c_log w ++ [buf_2byte IMX294_REG_SHR shr]).
        split; [reflexivity |].
        cbn. repeat split; eauto.
        -- intros [H0 | Hall]; [contradiction |].
           rewrite Hall in Hok. discriminate.
        -- intros; contradiction.
Qed.

End VblankLimits.

Section SetCtrlFacts.
Import Kernel Timing Catalog V4L2 Driver.

(** The whole vertical-blank call for a legal value in a catalog mode. *)
Lemma set_ctrl_vblank_spec (e : env) (x : Z) (w : world) :
  let md := mode (dev w) in
  let h := HMAX (dev w) in
  let vmax := (height md + x) / VMAX_scale md in
  let mn := vmax - Z.min 65535 (vmax - 4) + integration_offset md / h in
  let mx := vmax - 5 + integration_offset md / h in
  let old := cur_val (exposure (dev w)) in
  let new := Z.max mn (Z.min old mx) in
  In md supported_modes_12bit ->
  0 < h < 2 ^ 16 ->
  vblank_min md <= x <= vblank_max md ->
  exists c prefix ret,
    imx294_set_ctrl e V4L2_CID_VBLANK x w
    = Some (ret,
            mk_world (dev (set_exposure c (set_VMAX vmax w)))
              (i2c_log w ++ prefix
               ++ (if pm_runtime_get_if_in_use e =? 0 then []
                   else vblank_writes vmax (min_VMAX md))))
    /\ minimum c = mn /\ maximum c = mx /\ step c = 1
    /\ default_value c = clamp_t u32 (uninit_current_exposure e) mn mx
    /\ val c = new
    /\ (pm_runtime_get_if_in_use e = 0
        \/ (forall n, i2c_xfer_ok e n = true) -> cur_val c = new)
    /\ (prefix = []
        \/ (pm_runtime_get_if_in_use e <> 0
            /\ exists shr, prefix = [buf_2byte IMX294_REG_SHR shr]))
    /\ (pm_runtime_get_if_in_use e = 0 -> prefix = [] /\ ret = 0).
Proof.
  intros md h vmax mn mx old new Hin Hh Hx.
  destruct (vblank_limits_spec e x w Hin Hh Hx)
    as (c & log' & Hhead & Hmin & Hmax & Hstep & Hdef & Hval & _ & Hcur
        & Hlog & Hlog0).
  fold md h vmax mn mx old new in Hhead, Hmin, Hmax, Hdef, Hval, Hcur.
  unfold imx294_set_ctrl. rewrite Hhead. cbn [obind].
  set (w1 := mk_world (dev (set_exposure c (set_VMAX vmax w))) log').
  assert (Hprefix : exists prefix,
             log' = i2c_log w ++ prefix
             /\ (prefix = []
                 \/ (pm_runtime_get_if_in_use e <> 0
                     /\ exists shr,
                         prefix = [buf_2byte IMX294_REG_SHR shr]))
             /\ (pm_runtime_get_if_in_use e = 0 -> prefix = [])).
  { destruct (Z.eq_dec (pm_runtime_get_if_in_use e) 0) as [H0 | Hn0].
    - exists []. rewrite app_nil_r. auto.
    - destruct Hlog as [-> | [_ [shr ->]]].
      + exists []. rewrite app_nil_r. auto.
      + exists [buf_2byte IMX294_REG_SHR shr].
        split; [reflexivity |]. split; [eauto | contradiction]. }
  destruct Hprefix as (prefix & -> & Hp & Hp0).
  destruct (Z.eqb_spec (pm_runtime_get_if_in_use e) 0) as [H0 | Hn0].
  - exists c, prefix, 0.
    split.
    + unfold imx294_set_ctrl_apply.
      destruct (Z.eqb_spec (pm_runtime_get_if_in_use e) 0);
        [| contradiction].
      rewrite !app_nil_r. reflexivity.
    + repeat split; auto.
  - pose proof (apply_vblank_powered e x w1 Hn0 Hin Hx) as Happ.
    rewrite Happ.
    eexists c, prefix, _.
    split.
    + cbn [w1 i2c_log]. rewrite <- app_assoc. reflexivity.
    + repeat split; auto; contradiction.
Qed.

End SetCtrlFacts.

Section VerticalBlankClaims.
Import Kernel Timing Catalog V4L2 Driver.

(** C5: in every catalog mode, for every vertical blanking [x] in the
    control's legal range, [imx294_set_ctrl] returns and the stored
    vertical period is exactly [floor((height + x) / VMAX_scale)]; the
    device may be in use or not.  For height 2184, scale 2 and x = 2816
    that is 2500 (see the witness). *)
Theorem set_vblank_stores_vmax (e : env) (md : imx294_mode) (w : world)
    (x : Z) :
  In md supported_modes_12bit ->
  mode (dev w) = md ->
  0 < HMAX (dev w) < 2 ^ 16 ->
  vblank_min md <= x <= vblank_max md ->
  exists ret w',
    imx294_set_ctrl e V4L2_CID_VBLANK x w = Some (ret, w')
    /\ VMAX (dev w') = (height md + x) / VMAX_scale md.
Proof.
  intros Hin Hmode Hh Hx. subst md.
  destruct (set_ctrl_vblank_spec e x w Hin Hh Hx)
    as (c & prefix & ret & Heq & _).
  rewrite Heq. eexists _, _. split; reflexivity.
Qed.

Lemma set_vblank_stores_vmax_witness :
  height mode_01 = 2184 /\ VMAX_scale mode_01 = 2
  /\ exists ret w',
      imx294_set_ctrl env_powered V4L2_CID_VBLANK 2816 default_world
      = Some (ret, w')
      /\ VMAX (dev w') = 2500.
Proof.
  split; [reflexivity |]. split; [reflexivity |].
  apply (set_vblank_stores_vmax env_powered mode_01 default_world 2816).
  - cbn. auto.
  - vm_compute. reflexivity.
  - vm_compute. split; reflexivity.
  - vm_compute. split; discriminate.
Defined.

(** C6 (as amended): while the device is in use, a legal vertical-blank
    call in a catalog mode writes the 3-byte vertical-period register and
    then exactly five blanking-compensation registers: 0x332C, 0x334A,
    0x35B6 and 0x36BC receive the margin [VMAX - min_VMAX] (its low 16
    bits), 0x35B8 receives 0 when the margin is at most 5 and margin - 5
    otherwise.  The only other transaction the call can cause is one
    shutter-register write, before these, when re-ranging the exposure
    control changes its value. *)
Theorem set_vblank_register_writes (e : env) (md : imx294_mode) (w : world)
    (x : Z) :
  pm_runtime_get_if_in_use e <> 0 ->
  In md supported_modes_12bit ->
  mode (dev w) = md ->
  0 < HMAX (dev w) < 2 ^ 16 ->
  vblank_min md <= x <= vblank_max md ->
  let vmax := (height md + x) / VMAX_scale md in
  let margin := vmax - min_VMAX md in
  exists ret w' prefix,
    imx294_set_ctrl e V4L2_CID_VBLANK x w = Some (ret, w')
    /\ 0 <= margin
    /\ i2c_log w'
       = i2c_log w ++ prefix
         ++ [ buf_3byte IMX294_REG_VMAX vmax;
              buf_2byte IMX294_REG_PSSLVS1 margin;
              buf_2byte IMX294_REG_PSSLVS2 margin;
              buf_2byte IMX294_REG_PSSLVS3 margin;
              buf_2byte IMX294_REG_PSSLVS4
                (if margin <=? 5 then 0 else margin - 5);
              buf_2byte IMX294_REG_PSSLVS0 margin ]
    /\ (prefix = [] \/ exists shr, prefix = [buf_2byte IMX294_REG_SHR shr]).
Proof.
  intros Hpm Hin Hmode Hh Hx vmax margin. subst md.
  destruct (set_ctrl_vblank_spec e x w Hin Hh Hx)
    as (c & prefix & ret & Heq & _ & _ & _ & _ & _ & _ & Hp & _).
  destruct (vblank_vmax_range _ x Hin Hx) as [_ Hv].
  fold vmax in Hv.
  assert (Hm : 0 <= margin) by (unfold margin; lia).
  rewrite Heq. exists ret. eexists. exists prefix.
  split; [reflexivity |]. split; [assumption |].
  split.
  - cbn [i2c_log].
    destruct (Z.eqb_spec (pm_runtime_get_if_in_use e) 0); [contradiction |].
    unfold vblank_writes. fold vmax.
    rewrite (u64_small (vmax - min_VMAX (mode (dev w))))
      by (unfold IMX294_VMAX_MAX in Hv;
          destruct (vblank_range_catalog _ Hin)
            as (_ & _ & _ & _ & _ & Hmv); lia).
    reflexivity.
  - destruct Hp as [Hp | [_ Hp]]; auto.
Qed.

Lemma set_vblank_register_writes_witness :
  exists ret w' prefix,
    imx294_set_ctrl env_powered V4L2_CID_VBLANK 2816 default_world
    = Some (ret, w')
    /\ 0 <= 2500 - 1111
    /\ i2c_log w'
       = i2c_log default_world ++ prefix
         ++ [ buf_3byte IMX294_REG_VMAX 2500;
              buf_2byte IMX294_REG_PSSLVS1 1389;
              buf_2byte IMX294_REG_PSSLVS2 1389;
              buf_2byte IMX294_REG_PSSLVS3 1389;
              buf_2byte IMX294_REG_PSSLVS4 1384;
              buf_2byte IMX294_REG_PSSLVS0 1389 ]
    /\ (prefix = [] \/ exists shr, prefix = [buf_2byte IMX294_REG_SHR shr]).
Proof.
  apply (set_vblank_register_writes env_powered mode_01 default_world 2816).
  - discriminate.
  - cbn. auto.
  - vm_compute. reflexivity.
  - vm_compute. split; reflexivity.
  - vm_compute. split; discriminate.
Defined.

(** C6 (counterexample): in the default mode, a powered vertical-blank
    call with 2816 writes five blanking-compensation registers, not
    four. *)
Lemma set_vblank_writes_five_compensation_registers :
  exists ret w',
    imx294_set_ctrl env_powered V4L2_CID_VBLANK 2816 default_world
    = Some (ret, w')
    /\ map reg_address (i2c_log w')
       = [ IMX294_REG_VMAX; IMX294_REG_PSSLVS1; IMX294_REG_PSSLVS2;
           IMX294_REG_PSSLVS3; IMX294_REG_PSSLVS4; IMX294_REG_PSSLVS0 ]
    /\ length (filter is_blanking_compensation_write (i2c_log w')) = 5%nat
    /\ length (filter is_blanking_compensation_write (i2c_log w')) <> 4%nat.
Proof.
  eexists _, _. split; [vm_compute; reflexivity |].
  repeat split; try (vm_compute; reflexivity).
  vm_compute. discriminate.
Qed.

(** The bounds of the specification for a catalog mode, a horizontal
    period [h] and a legal vertical period [vmax], in closed form. *)
Lemma exposure_bounds_spec_catalog (md : imx294_mode) (h vmax : Z) :
  In md supported_modes_12bit ->
  0 < h < 2 ^ 16 ->
  min_VMAX md <= vmax <= IMX294_VMAX_MAX ->
  exposureBounds_spec h vmax (min_SHR md) 0 (integration_offset md)
  = (vmax - Z.min 65535 (vmax - 4) + integration_offset md / h,
     vmax - 5 + integration_offset md / h).
Proof.
  intros Hin Hh Hv.
  destruct (timing_consts_catalog md Hin) as (-> & Hoff).
  destruct (exposure_limits_ordered md h vmax Hin Hh Hv)
    as (Hmn & Hle & Hmx). cbv zeta in Hmn, Hle, Hmx.
  assert (Hf : forall s,
            exposure_formula h vmax s 0 (integration_offset md)
            = vmax - s + integration_offset md / h).
  { intros s. unfold exposure_formula.
    replace (vmax * (0 + 1) - s) with (vmax - s) by ring.
    apply Z.div_add_l. lia. }
  unfold exposureBounds_spec, exposureFromShutter_spec. cbv zeta.
  rewrite !Hf. replace (vmax * (0 + 1) - 4) with (vmax - 4) by ring.
  rewrite !saturate_u32_id; [reflexivity | |];
    change (2 ^ 32) with 4294967296; change (2 ^ 31) with 2147483648 in Hmx;
    lia.
Qed.

(** When the clamped exposure is committed.  The part of
    [imx294_set_ctrl] before the power check applies the clamped value
    through the handler only if it differs from the current one; the
    handler then writes the shutter register if the device is in use, and
    the framework commits the value unless that write fails. *)
Lemma vblank_limits_commit (e : env) (x : Z) (w : world) :
  let md := mode (dev w) in
  let h := HMAX (dev w) in
  let vmax := (height md + x) / VMAX_scale md in
  let mn := vmax - Z.min 65535 (vmax - 4) + integration_offset md / h in
  let mx := vmax - 5 + integration_offset md / h in
  let old := cur_val (exposure (dev w)) in
  let new := Z.max mn (Z.min old mx) in
  In md supported_modes_12bit ->
  0 < h < 2 ^ 16 ->
  vblank_min md <= x <= vblank_max md ->
  exists c log',
    imx294_set_ctrl_vblank_limits e x w
    = Some (mk_world (dev (set_exposure c (set_VMAX vmax w))) log')
    /\ cur_val c
       = (if (pm_runtime_get_if_in_use e =? 0) || (new =? old)
             || i2c_xfer_ok e (length (i2c_log w))
          then new else old).
Proof.
  intros md h vmax mn mx old new Hin Hh Hx.
  destruct (vblank_vmax_range md x Hin Hx) as [Hdiv Hv].
  fold vmax in Hv.
  destruct (exposure_limits_ordered md h vmax Hin Hh Hv)
    as (Hmn & Hle & Hmx).
  fold mn mx in Hmn, Hle, Hmx.
  unfold imx294_set_ctrl_vblank_limits. fold md.
  rewrite Hdiv. cbn [obind]. fold vmax.
  rewrite (u32_small vmax) by (unfold IMX294_VMAX_MAX in Hv;
    destruct (vblank_range_catalog md Hin) as (_ & _ & _ & _ & _ & Hmv);
    lia).
  replace (HMAX (dev (set_VMAX vmax w))) with h by reflexivity.
  replace (VMAX (dev (set_VMAX vmax w))) with vmax by reflexivity.
  rewrite exposure_limits_catalog by assumption.
  cbn [obind]. fold mn mx.
  set (def := clamp_t u32 (uninit_current_exposure e) mn mx).
  assert (Hdef : mn <= def <= mx).
  { unfold def, clamp_t. rewrite (u32_small mn), (u32_small mx) by lia.
    now apply clamp_bounds. }
  rewrite (s64_small mn), (s64_small mx), (s64_small def) by lia.
  rewrite (v4l2_ctrl_modify_range_step1 _ _ _ exposure_get_set
             exposure_set_set) by assumption.
  replace (cur_val (exposure (dev (set_VMAX vmax w)))) with old
    by reflexivity.
  fold new.
  replace (exposure (dev (set_VMAX vmax w))) with (exposure (dev w))
    by reflexivity.
  set (c0 := with_range mn mx 1 def (exposure (dev w))).
  unfold apply_new.
  replace (cur_val c0) with old by reflexivity.
  destruct (Z.eqb_spec new old) as [Heq | Hne].
  - exists (with_val new c0), (i2c_log w). cbn [obind].
    split; [reflexivity |].
    rewrite orb_true_r. cbn [orb]. exact (eq_sym Heq).
  - set (w0 := set_exposure (with_val new c0) (set_VMAX vmax w)).
    rewrite orb_false_r.
    destruct (apply_exposure_cases e new w0 ltac:(cbn; lia))
      as [[Hpm Hop] | [Hpm [shr Hop]]]; rewrite Hop; cbn [obind].
    + exists (new_to_cur (with_val new c0)), (i2c_log w).
      split; [reflexivity |]. rewrite Hpm. reflexivity.
    + destruct (Z.eqb_spec (pm_runtime_get_if_in_use e) 0);
        [contradiction |]. cbn [orb].
      change (i2c_log w0) with (i2c_log w).
      destruct (i2c_xfer_ok e (length (i2c_log w))).
      * eexists _, _. split; reflexivity.
      * eexists _, _. split; reflexivity.
Qed.

(** The same for the whole call: the part after the power check does not
    touch the exposure control. *)
Lemma set_ctrl_vblank_commit (e : env) (x : Z) (w : world) :
  let md := mode (dev w) in
  let h := HMAX (dev w) in
  let vmax := (height md + x) / VMAX_scale md in
  let mn := vmax - Z.min 65535 (vmax - 4) + integration_offset md / h in
  let mx := vmax - 5 + integration_offset md / h in
  let old := cur_val (exposure (dev w)) in
  let new := Z.max mn (Z.min old mx) in
  In md supported_modes_12bit ->
  0 < h < 2 ^ 16 ->
  vblank_min md <= x <= vblank_max md ->
  exists ret w',
    imx294_set_ctrl e V4L2_CID_VBLANK x w = Some (ret, w')
    /\ cur_val (exposure (dev w'))
       = (if (pm_runtime_get_if_in_use e =? 0) || (new =? old)
             || i2c_xfer_ok e (length (i2c_log w))
          then new else old).
Proof.
  intros md h vmax mn mx old new Hin Hh Hx.
  destruct (vblank_limits_commit e x w Hin Hh Hx)
    as (c & log' & Hhead & Hcur).
  fold md h vmax mn mx old new in Hhead, Hcur.
  unfold imx294_set_ctrl. rewrite Hhead. cbn [obind].
  set (w1 := mk_world (dev (set_exposure c (set_VMAX vmax w))) log').
  destruct (Z.eq_dec (pm_runtime_get_if_in_use e) 0) as [H0 | Hn0].
  - unfold imx294_set_ctrl_apply.
    destruct (Z.eqb_spec (pm_runtime_get_if_in_use e) 0);
      [| contradiction].
    eexists _, _. split; [reflexivity |]. exact Hcur.
  - rewrite (apply_vblank_powered e x w1 Hn0 Hin Hx).
    eexists _, _. split; [reflexivity |]. exact Hcur.
Qed.

(** C7 (as amended): every legal vertical-blank call in a catalog mode,
    with the device in use or not, stores the new vertical period and
    re-ranges the exposure control to the bounds the specification gives for
    it; the control's new value ([ctrl->val]) becomes the previously set
    value clamped into these bounds.  The clamped value is committed as the
    current value ([cur.val]) at once when the device is not in use, when
    the clamp changes nothing, or when the shutter register write that
    applies it succeeds; when the device is in use and that write fails, the
    current value stays the old one.  While the device is not in use the
    call returns 0 and nothing is written to the bus.  The content of the
    uninitialised local [current_exposure] has no influence on any of
    this. *)
Theorem set_vblank_reranges_exposure (e : env) (md : imx294_mode)
    (w : world) (x : Z) :
  In md supported_modes_12bit ->
  mode (dev w) = md ->
  0 < HMAX (dev w) < 2 ^ 16 ->
  vblank_min md <= x <= vblank_max md ->
  let vmax := (height md + x) / VMAX_scale md in
  let min_exposure :=
    fst (exposureBounds_spec (HMAX (dev w)) vmax (min_SHR md) 0
           (integration_offset md)) in
  let max_exposure :=
    snd (exposureBounds_spec (HMAX (dev w)) vmax (min_SHR md) 0
           (integration_offset md)) in
  let old := cur_val (exposure (dev w)) in
  let new := Z.max min_exposure (Z.min old max_exposure) in
  exists ret w',
    imx294_set_ctrl e V4L2_CID_VBLANK x w = Some (ret, w')
    /\ VMAX (dev w') = vmax
    /\ HMAX (dev w') = HMAX (dev w)
    /\ min_exposure <= max_exposure
    /\ minimum (exposure (dev w')) = min_exposure
    /\ maximum (exposure (dev w')) = max_exposure
    /\ val (exposure (dev w')) = new
    /\ cur_val (exposure (dev w'))
       = (if (pm_runtime_get_if_in_use e =? 0) || (new =? old)
             || i2c_xfer_ok e (length (i2c_log w))
          then new else old)
    /\ (pm_runtime_get_if_in_use e = 0 ->
        ret = 0 /\ i2c_log w' = i2c_log w).
Proof.
  intros Hin Hmode Hh Hx. subst md.
  destruct (vblank_vmax_range _ x Hin Hx) as [_ Hv].
  cbv zeta. rewrite (exposure_bounds_spec_catalog _ _ _ Hin Hh Hv).
  cbn [fst snd].
  destruct (set_ctrl_vblank_spec e x w Hin Hh Hx)
    as (c & prefix & ret & Heq & Hmin & Hmax & _ & _ & Hval & _ & _ & H0).
  destruct (set_ctrl_vblank_commit e x w Hin Hh Hx)
    as (ret' & w' & Heq' & Hcur).
  destruct (exposure_limits_ordered _ _ _ Hin Hh Hv) as (_ & Hle & _).
  rewrite Heq in Heq'. injection Heq' as <- <-.
  rewrite Heq. eexists _, _.
  split; [reflexivity |].
  cbn [dev set_exposure set_VMAX set_dev exposure HMAX VMAX i2c_log]
    in Hcur |- *.
  split; [reflexivity |]. split; [reflexivity |].
  split; [exact Hle |].
  split; [exact Hmin |]. split; [exact Hmax |].
  split; [exact Hval |]. split; [exact Hcur |].
  intros Hpm. destruct (H0 Hpm) as [-> ->]. split; [reflexivity |].
  destruct (Z.eqb_spec (pm_runtime_get_if_in_use e) 0); [| contradiction].
  now rewrite !app_nil_r.
Qed.

Lemma set_vblank_reranges_exposure_witness :
  exists ret w',
    imx294_set_ctrl env_unpowered V4L2_CID_VBLANK 38 exposure_2000_world
    = Some (ret, w')
    /\ VMAX (dev w') = 1111
    /\ HMAX (dev w') = HMAX (dev exposure_2000_world)
    /\ 4 <= 1106
    /\ minimum (exposure (dev w')) = 4
    /\ maximum (exposure (dev w')) = 1106
    /\ val (exposure (dev w')) = 1106
    /\ cur_val (exposure (dev w')) = 1106
    /\ (pm_runtime_get_if_in_use env_unpowered = 0 ->
        ret = 0 /\ i2c_log w' = i2c_log exposure_2000_world).
Proof.
  apply (set_vblank_reranges_exposure env_unpowered mode_01
           exposure_2000_world 38).
  - cbn. auto.
  - vm_compute. reflexivity.
  - vm_compute. split; reflexivity.
  - vm_compute. split; discriminate.
Defined.

(** C7 (counterexample): the device is in use and the shutter register
    write fails.  With the exposure at 2000 lines, the smallest legal
    blanking of the default mode re-ranges the control to 4..1106 and sets
    its new value to 1106, but the current value stays 2000, outside the
    new range. *)
Lemma set_vblank_failed_write_keeps_exposure :
  exists ret w',
    imx294_set_ctrl (Scenarios.env_bus_fails_at 0) V4L2_CID_VBLANK 38
      exposure_2000_world
    = Some (ret, w')
    /\ cur_val (exposure (dev exposure_2000_world)) = 2000
    /\ minimum (exposure (dev w')) = 4
    /\ maximum (exposure (dev w')) = 1106
    /\ val (exposure (dev w')) = 1106
    /\ cur_val (exposure (dev w')) = 2000.
Proof. eexists _, _. split; [vm_compute; reflexivity |]. repeat split. Qed.

(** The clamp really happens: with the exposure at 2000 lines, the
    smallest legal blanking of the default mode brings the value down to
    the new maximum 1106, without any bus traffic. *)
Lemma set_vblank_clamps_exposure_example :
  exists w',
    imx294_set_ctrl env_unpowered V4L2_CID_VBLANK 38 exposure_2000_world
    = Some (0, w')
    /\ cur_val (exposure (dev exposure_2000_world)) = 2000
    /\ minimum (exposure (dev w')) = 4
    /\ maximum (exposure (dev w')) = 1106
    /\ cur_val (exposure (dev w')) = 1106
    /\ i2c_log w' = [].
Proof. eexists. split; [vm_compute; reflexivity |]. repeat split. Qed.

(** What the uninitialised local does decide is the default value the
    exposure control is left with: the same call gives default 4 or default
    1106 depending on it, the value being 1106 both times. *)
Lemma set_vblank_default_from_uninitialised :
  exists w1 w2,
    imx294_set_ctrl env_unpowered V4L2_CID_VBLANK 38 exposure_2000_world
    = Some (0, w1)
    /\ imx294_set_ctrl env_unpowered_stale V4L2_CID_VBLANK 38
         exposure_2000_world
       = Some (0, w2)
    /\ default_value (exposure (dev w1)) = 4
    /\ default_value (exposure (dev w2)) = 1106
    /\ cur_val (exposure (dev w1)) = 1106
    /\ cur_val (exposure (dev w2)) = 1106.
Proof.
  eexists _, _. split; [vm_compute; reflexivity |].
  split; [vm_compute; reflexivity |]. repeat split.
Qed.

End VerticalBlankClaims.

Section UnpoweredClaims.
Import Kernel Timing Catalog V4L2 Driver.

(** While the device is not in use, every call other than a vertical-blank
    one leaves the whole state as it is. *)
Lemma set_ctrl_unpowered_other (e : env) (id : ctrl_id) (v : Z) (w : world) :
  pm_runtime_get_if_in_use e = 0 ->
  id <> V4L2_CID_VBLANK ->
  imx294_set_ctrl e id v w = Some (0, w).
Proof.
  intros Hpm Hid. unfold imx294_set_ctrl, imx294_set_ctrl_apply.
  rewrite Hpm. destruct id; try reflexivity. contradiction.
Qed.




End UnpoweredClaims.

Section FramingLimits.
Import Kernel Timing Catalog V4L2 Driver.

Lemma framing_consts_catalog (md : imx294_mode) :
  In md supported_modes_12bit ->
  3792 <= width md <= 4176
  /\ do_div (u64 (width md * 72000000)) (min_HMAX md)
     = Some (hblank_pixel_rate md)
  /\ 229000000 <= hblank_pixel_rate md <= 293625000
  /\ do_div (u64 (u64 (width md * 72000000) * 2)) (min_HMAX md)
     = Some (framing_pixel_rate md)
  /\ 0 <= framing_pixel_rate md < 2 ^ 31
  /\ (exists dh,
        do_div (u64 (default_HMAX md * framing_pixel_rate md)) 72000000
        = Some dh
        /\ 0 <= s64 (u64 (dh - width md)) <= 65535)
  /\ 0 < u16 (default_HMAX md) < 2 ^ 16
  /\ vblank_min md
     <= s64 (u64 (default_VMAX md * VMAX_scale md) - height md)
     <= vblank_max md.
Proof.
  intros Hin.
  destruct (catalog_cases md Hin) as [-> | [-> | [-> | ->]]];
    (split; [vm_compute; split; discriminate |]);
    (split; [vm_compute; reflexivity |]);
    (split; [vm_compute; split; discriminate |]);
    (split; [vm_compute; reflexivity |]);
    (split; [vm_compute; split; [discriminate | reflexivity] |]);
    (split; [eexists; split;
             [vm_compute; reflexivity | vm_compute; split; discriminate] |]);
    (split; [vm_compute; split; reflexivity |]);
    vm_compute; split; discriminate.
Qed.

(** The horizontal-blank operation returns for every value of the
    control's range and keeps the invariant. *)
Lemma set_ctrl_hblank_ok (e : env) (md : imx294_mode) (v : Z) (w : world) :
  In md supported_modes_12bit ->
  0 <= v <= 65535 ->
  handler_invariant md w ->
  exists ret w',
    imx294_set_ctrl e V4L2_CID_HBLANK v w = Some (ret, w')
    /\ handler_invariant md w' /\ hblank (dev w') = hblank (dev w).
Proof.
  intros Hin Hv [Hmode Hh].
  unfold imx294_set_ctrl, imx294_set_ctrl_apply. cbn [obind].
  destruct (Z.eqb_spec (pm_runtime_get_if_in_use e) 0).
  - eexists _, _. split; [reflexivity |]. split; [split |]; auto.
  - rewrite Hmode.
    destruct (framing_consts_catalog md Hin) as (Hw & Hpr & Hprb & _).
    rewrite Hpr. cbn [obind].
    rewrite (u32_small (width md + v)) by lia.
    rewrite (u64_small (_ * 72000000)) by lia.
    rewrite do_div_some by lia.
    cbn [obind]. rewrite !write_reg_2byte_eq.
    eexists _, _. split; [reflexivity |].
    cbn [dev set_HMAX set_dev mode HMAX hblank].
    split; [split; [assumption |] | reflexivity].
    assert (Hhmax :
              1 <= (width md + v) * 72000000 / hblank_pixel_rate md < 65536).
    { split.
      - apply Z.div_le_lower_bound; lia.
      - apply Z.div_lt_upper_bound; lia. }
    cbn [dev HMAX]. rewrite u16_small; change (2 ^ 16) with 65536; lia.
Qed.

(** So does the vertical-blank operation, for every legal value. *)
Lemma set_ctrl_vblank_ok (e : env) (md : imx294_mode) (v : Z) (w : world) :
  In md supported_modes_12bit ->
  vblank_min md <= v <= vblank_max md ->
  handler_invariant md w ->
  exists ret w',
    imx294_set_ctrl e V4L2_CID_VBLANK v w = Some (ret, w')
    /\ handler_invariant md w' /\ vblank (dev w') = vblank (dev w).
Proof.
  intros Hin Hv [Hmode Hh]. subst md.
  destruct (set_ctrl_vblank_spec e v w Hin Hh Hv)
    as (c & prefix & ret & Heq & _).
  rewrite Heq. eexists _, _. split; [reflexivity |].
  split; [split; [reflexivity | exact Hh] | reflexivity].
Qed.

Lemma hblank_get_set (c : v4l2_ctrl) (w : world) :
  hblank (dev (set_hblank c w)) = c.
Proof. reflexivity. Qed.
Lemma hblank_set_set (c c' : v4l2_ctrl) (w : world) :
  set_hblank c' (set_hblank c w) = set_hblank c' w.
Proof. reflexivity. Qed.
Lemma vblank_get_set (c : v4l2_ctrl) (w : world) :
  vblank (dev (set_vblank c w)) = c.
Proof. reflexivity. Qed.
Lemma vblank_set_set (c c' : v4l2_ctrl) (w : world) :
  set_vblank c' (set_vblank c w) = set_vblank c' w.
Proof. reflexivity. Qed.
Lemma pixel_rate_get_set (c : v4l2_ctrl) (w : world) :
  pixel_rate (dev (set_pixel_rate c w)) = c.
Proof. reflexivity. Qed.
Lemma pixel_rate_set_set (c c' : v4l2_ctrl) (w : world) :
  set_pixel_rate c' (set_pixel_rate c w) = set_pixel_rate c' w.
Proof. reflexivity. Qed.

(** Re-ranging and then setting a control whose operation is total on
    the values of the new range: both calls return and the invariant is
    kept. *)
Lemma rerange_then_set_ok
    (get : world -> v4l2_ctrl) (set : v4l2_ctrl -> world -> world)
    (op : Z -> world -> option (Z * world)) (md : imx294_mode)
    (min max def v : Z) (w : world) :
  (forall c w, get (set c w) = c) ->
  (forall c c' w, set c' (set c w) = set c' w) ->
  (forall c w, handler_invariant md w -> handler_invariant md (set c w)) ->
  (forall v w, min <= v <= max -> handler_invariant md w ->
     exists r w', op v w = Some (r, w') /\ handler_invariant md w' /\ get w' = get w) ->
  min <= def <= max ->
  handler_invariant md w ->
  exists r1 w1 r2 w2,
    __v4l2_ctrl_modify_range get set op min max 1 def w = Some (r1, w1)
    /\ __v4l2_ctrl_s_ctrl get set op v w1 = Some (r2, w2)
    /\ handler_invariant md w2.
Proof.
  intros Hgs Hss Hqs Hop Hdef Hinv.
  assert (Hclamp : forall u, min <= Z.max min (Z.min u max) <= max)
    by (intros; lia).
  rewrite (v4l2_ctrl_modify_range_step1 get set op Hgs Hss) by assumption.
  destruct (apply_new_ok get set op Hgs (fun v => min <= v <= max) (handler_invariant md)
              Hqs Hop (with_range min max 1 def (get w))
              (Z.max min (Z.min (cur_val (get w)) max)) w
              (Hclamp _) Hinv)
    as (r1 & w1 & H1 & Hinv1 & Hmin & Hmax & Hstep & _).
  cbn [minimum maximum step with_range] in Hmin, Hmax, Hstep.
  exists r1, w1. rewrite H1.
  rewrite (v4l2_ctrl_s_ctrl_step1 get set op Hgs Hss)
    by (rewrite ?Hstep, ?Hmin, ?Hmax; lia).
  rewrite Hmin, Hmax.
  destruct (apply_new_ok get set op Hgs (fun v => min <= v <= max) (handler_invariant md)
              Hqs Hop (get w1) (Z.max min (Z.min v max)) w1
              (Hclamp _) Hinv1)
    as (r2 & w2 & H2 & Hinv2 & _).
  exists r2, w2. auto.
Qed.

(** C4 (as amended): for every catalog mode, when the mode becomes active
    [imx294_set_framing_limits] re-ranges the read-only pixel-rate control
    to the single value [floor(width * 72000000 * 2 / min_HMAX)]: its
    minimum, maximum, default and new value are that number, and so is
    its current value when the call is made while the device is not in
    use. *)
Theorem framing_limits_publish_pixel_rate (e : env) (md : imx294_mode)
    (w : world) :
  In md supported_modes_12bit ->
  mode (dev w) = md ->
  exists w',
    imx294_set_framing_limits e w = Some w'
    /\ minimum (pixel_rate (dev w')) = width md * 72000000 * 2 / min_HMAX md
    /\ maximum (pixel_rate (dev w')) = width md * 72000000 * 2 / min_HMAX md
    /\ default_value (pixel_rate (dev w'))
       = width md * 72000000 * 2 / min_HMAX md
    /\ val (pixel_rate (dev w')) = width md * 72000000 * 2 / min_HMAX md
    /\ (pm_runtime_get_if_in_use e = 0 ->
        cur_val (pixel_rate (dev w'))
        = width md * 72000000 * 2 / min_HMAX md).
Proof.
  intros Hin Hmode.
  change (width md * 72000000 * 2 / min_HMAX md)
    with (framing_pixel_rate md).
  destruct (framing_consts_catalog md Hin)
    as (_ & _ & _ & Hpr & Hprb & (dh & Hdh & Hdhb) & Hdef & Hvb).
  unfold imx294_set_framing_limits.
  set (wa := set_HMAX _ (set_VMAX _ w)).
  assert (Hinv : handler_invariant md wa).
  { split; [exact Hmode |]. cbn. rewrite Hmode. exact Hdef. }
  rewrite Hmode, Hpr. cbn [obind]. rewrite Hdh. cbn [obind].
  set (pr := framing_pixel_rate md) in *.
  (* horizontal blanking *)
  destruct (rerange_then_set_ok (fun w => hblank (dev w)) set_hblank
              (imx294_set_ctrl e V4L2_CID_HBLANK) md 0 IMX294_HMAX_MAX
              (s64 (u64 (dh - width md))) (s32 (u64 (dh - width md))) wa
              hblank_get_set hblank_set_set
              ltac:(intros c w0 H; exact H)
              ltac:(intros v w0 Hv H;
                    exact (set_ctrl_hblank_ok e md v w0 Hin Hv H))
              Hdhb Hinv)
    as (r1 & w1 & r2 & w2 & H1 & H2 & Hinv2).
  rewrite H1. cbn [obind]. rewrite H2. cbn [obind].
  (* vertical blanking *)
  destruct (rerange_then_set_ok (fun w => vblank (dev w)) set_vblank
              (imx294_set_ctrl e V4L2_CID_VBLANK) md
              (vblank_min md) (vblank_max md)
              (s64 (u64 (default_VMAX md * VMAX_scale md) - height md))
              (s32 (u64 (default_VMAX md * VMAX_scale md) - height md)) w2
              vblank_get_set vblank_set_set
              ltac:(intros c w0 H; exact H)
              ltac:(intros v w0 Hv H;
                    exact (set_ctrl_vblank_ok e md v w0 Hin Hv H))
              Hvb Hinv2)
    as (r3 & w3 & r4 & w4 & H3 & H4 & _).
  unfold vblank_min, vblank_max in H3.
  rewrite H3. cbn [obind]. rewrite H4. cbn [obind].
  (* pixel rate *)
  rewrite (s64_small pr) by lia.
  rewrite (v4l2_ctrl_modify_range_step1 _ _ _ pixel_rate_get_set
             pixel_rate_set_set) by lia.
  replace (Z.max pr (Z.min (cur_val (pixel_rate (dev w4))) pr)) with pr
    by lia.
  unfold apply_new.
  destruct (pr =? cur_val (with_range pr pr 1 pr (pixel_rate (dev w4))))
    eqn:Hcur.
  - cbn [obind]. eexists. split; [reflexivity |].
    apply Z.eqb_eq in Hcur. cbn in Hcur |- *. repeat split; auto.
  - unfold imx294_set_ctrl, imx294_set_ctrl_apply. cbn [obind].
    destruct (Z.eqb_spec (pm_runtime_get_if_in_use e) 0) as [H0 | Hn0];
      cbn [obind Z.eqb Z.opp EINVAL];
      (eexists; split; [reflexivity |]); cbn; repeat split; auto.
    intros; contradiction.
Qed.


Lemma framing_limits_publish_pixel_rate_witness :
  exists w',
    imx294_set_framing_limits env_unpowered fresh_world = Some w'
    /\ minimum (pixel_rate (dev w')) = 4144 * 72000000 * 2 / 1122
    /\ maximum (pixel_rate (dev w')) = 4144 * 72000000 * 2 / 1122
    /\ default_value (pixel_rate (dev w')) = 4144 * 72000000 * 2 / 1122
    /\ val (pixel_rate (dev w')) = 4144 * 72000000 * 2 / 1122
    /\ (pm_runtime_get_if_in_use env_unpowered = 0 ->
        cur_val (pixel_rate (dev w')) = 4144 * 72000000 * 2 / 1122).
Proof.
  apply (framing_limits_publish_pixel_rate env_unpowered mode_01
           fresh_world).
  - cbn. auto.
  - reflexivity.
Defined.

(** C4 (counterexample): for the default mode (width 4144, min_HMAX 1122)
    the published pixel rate is 531850267, twice the claimed
    [4144 * 72000000 / 1122 = 265925133]. *)
Lemma framing_limits_pixel_rate_doubled :
  exists w',
    imx294_set_framing_limits env_unpowered fresh_world = Some w'
    /\ mode (dev w') = mode_01
    /\ cur_val (pixel_rate (dev w')) = 531850267
    /\ minimum (pixel_rate (dev w')) = 531850267
    /\ maximum (pixel_rate (dev w')) = 531850267
    /\ width mode_01 * 72000000 / min_HMAX mode_01 = 265925133
    /\ cur_val (pixel_rate (dev w'))
       <> width mode_01 * 72000000 / min_HMAX mode_01.
Proof.
  eexists. split; [vm_compute; reflexivity |].
  repeat split. vm_compute. discriminate.
Qed.

End FramingLimits.

(** ** Bus encoding *)

Section BusEncodingFacts.
Import Driver Invariants Scenarios.

Lemma u8_range (x : Z) : 0 <= u8 x < 256.
Proof. unfold u8. change (2 ^ 8) with 256. apply Z.mod_pos_bound. lia. Qed.

(** A 16-bit value is its high byte times 256 plus its low byte. *)
Lemma u16_bytes (x : Z) :
  u8 (Z.shiftr (u16 x) 8) * 256 + u8 (u16 x) = u16 x.
Proof.
  pose proof (u16_range x) as H. change (2 ^ 16) with 65536 in H.
  unfold u8. change (2 ^ 8) with 256.
  rewrite Z.shiftr_div_pow2 by lia. change (2 ^ 8) with 256.
  rewrite (Z.mod_small (u16 x / 256))
    by (split; [apply Z.div_pos; lia | apply Z.div_lt_upper_bound; lia]).
  pose proof (Z.div_mod (u16 x) 256). lia.
Qed.

(** X3: the buffer of a 2-byte register write has four bytes: the register
    address big-endian, then the value little-endian; address and value are
    taken modulo 2^16. *)
Theorem buf_2byte_layout (reg v : Z) :
  exists a1 a0 v0 v1,
    buf_2byte reg v = [a1; a0; v0; v1]
    /\ (0 <= a1 < 256 /\ 0 <= a0 < 256 /\ 0 <= v0 < 256 /\ 0 <= v1 < 256)
    /\ a1 * 256 + a0 = u16 reg
    /\ v0 + 256 * v1 = u16 v.
Proof.
  eexists _, _, _, _. split; [reflexivity |].
  split; [repeat split; apply u8_range |].
  split; [apply u16_bytes |].
  pose proof (u16_bytes v). lia.
Qed.

(** X4: the buffer of a 3-byte register write has five bytes: the address
    big-endian, then the low 24 bits of the value little-endian; the top
    byte of the 32-bit value is not sent. *)
Theorem buf_3byte_layout (reg v : Z) :
  exists a1 a0 v0 v1 v2,
    buf_3byte reg v = [a1; a0; v0; v1; v2]
    /\ (0 <= a1 < 256 /\ 0 <= a0 < 256
        /\ 0 <= v0 < 256 /\ 0 <= v1 < 256 /\ 0 <= v2 < 256)
    /\ a1 * 256 + a0 = u16 reg
    /\ v0 + 256 * v1 + 65536 * v2 = v mod 2 ^ 24.
Proof.
  eexists _, _, _, _, _. split; [reflexivity |].
  split; [repeat split; apply u8_range |].
  split; [apply u16_bytes |].
  unfold u8, u32. rewrite !Z.shiftr_div_pow2 by lia.
  change (2 ^ 8) with 256. change (2 ^ 16) with 65536.
  change (2 ^ 32) with 4294967296. change (2 ^ 24) with 16777216.
  set (x := v mod 4294967296).
  assert (Hx : 0 <= x < 4294967296) by (apply Z.mod_pos_bound; lia).
  assert (Hv : v mod 16777216 = x mod 16777216).
  { unfold x. symmetry. apply Z.mod_mod_divide. exists 256. reflexivity. }
  rewrite Hv. clearbody x.
  pose proof (Z.div_mod x 256 ltac:(lia)).
  pose proof (Z.mod_pos_bound x 256 ltac:(lia)).
  pose proof (Z.div_mod (x / 256) 256 ltac:(lia)).
  pose proof (Z.mod_pos_bound (x / 256) 256 ltac:(lia)).
  pose proof (Z.div_mod (x / 65536) 256 ltac:(lia)).
  pose proof (Z.mod_pos_bound (x / 65536) 256 ltac:(lia)).
  pose proof (Z.div_mod x 16777216 ltac:(lia)).
  pose proof (Z.mod_pos_bound x 16777216 ltac:(lia)).
  assert (x / 65536 = x / 256 / 256)
    by (rewrite Z.div_div by lia; reflexivity).
  assert (x / 16777216 = x / 65536 / 256)
    by (rewrite Z.div_div by lia; reflexivity).
  lia.
Qed.

Lemma big_endian_bound (l : list Z) :
  0 <= big_endian l < 256 ^ Z.of_nat (length l).
Proof.
  induction l as [| b l IH]; [cbn; lia |].
  cbn [big_endian length]. pose proof (u8_range b).
  rewrite Nat2Z.inj_succ, Z.pow_succ_r by lia. nia.
Qed.

(** [get_unaligned_be32] folds from the left; started with [acc] it
    computes [acc] shifted past the bytes plus their big-endian value. *)
Lemma be32_fold_big_endian (l : list Z) (acc : Z) :
  fold_left (fun a x => a * 256 + u8 x) l acc
  = acc * 256 ^ Z.of_nat (length l) + big_endian l.
Proof.
  revert acc. induction l as [| b l IH]; intros acc.
  - cbn. lia.
  - cbn [fold_left big_endian length]. rewrite IH.
    rewrite Nat2Z.inj_succ, Z.pow_succ_r by lia. ring.
Qed.

Lemma big_endian_zeros (k : nat) (l : list Z) :
  big_endian (repeat 0 k ++ l) = big_endian l.
Proof.
  induction k as [| k IH]; [reflexivity |].
  cbn [repeat app big_endian]. rewrite IH.
  change (u8 0) with 0. lia.
Qed.

(** X5: [imx294_read_reg] refuses a length above 4 with -EINVAL before any
    transfer; otherwise it reports a failed transfer as -EIO without
    storing a value, and after a successful transfer it returns 0 and stores
    the bytes read, taken big-endian (the first byte read is the most
    significant one); that value is below 256^len, so a 1-byte read, as for
    the chip id, gives the byte itself. *)
Theorem read_reg_result (e : env) (reg len : Z) :
  0 <= len ->
  imx294_read_reg e reg len
  = (if 4 <? len then (- EINVAL, None)
     else match i2c_transfer_read e (u16 reg) len with
          | None => (- EIO, None)
          | Some data =>
              (0, Some (big_endian (firstn (Z.to_nat len) data)))
          end)
  /\ (forall data,
        0 <= big_endian (firstn (Z.to_nat len) data) < 256 ^ len)
  /\ (forall b rest, len = 1 ->
        big_endian (firstn (Z.to_nat len) (b :: rest)) = u8 b).
Proof.
  intros Hlen. split; [| split].
  - unfold imx294_read_reg.
    destruct (4 <? len); [reflexivity |].
    destruct (i2c_transfer_read e (u16 reg) len) as [data |];
      [| reflexivity].
    unfold get_unaligned_be32.
    now rewrite be32_fold_big_endian, big_endian_zeros.
  - intros data.
    pose proof (big_endian_bound (firstn (Z.to_nat len) data)) as Hb.
    split; [apply Hb |].
    eapply Z.lt_le_trans; [apply Hb |].
    apply Z.pow_le_mono_r; [lia |].
    pose proof (length_firstn (Z.to_nat len) data). lia.
  - intros b rest ->. change (Z.to_nat 1) with 1%nat.
    cbn [firstn big_endian length Z.of_nat]. rewrite Z.pow_0_r. lia.
Qed.

Lemma read_reg_result_witness :
  imx294_read_reg env_reads_1234 IMX294_REG_CHIP_ID 2
  = (if 4 <? 2 then (- EINVAL, None)
     else match i2c_transfer_read env_reads_1234
                  (u16 IMX294_REG_CHIP_ID) 2 with
          | None => (- EIO, None)
          | Some data => (0, Some (big_endian (firstn (Z.to_nat 2) data)))
          end)
  /\ (forall data, 0 <= big_endian (firstn (Z.to_nat 2) data) < 256 ^ 2)
  /\ (forall b rest, 2 = 1 ->
        big_endian (firstn (Z.to_nat 2) (b :: rest)) = u8 b).
Proof.
  apply (read_reg_result env_reads_1234 IMX294_REG_CHIP_ID 2). lia.
Defined.

(** Reading two bytes 0x12, 0x34 gives 0x1234; a failed transfer gives
    -EIO and no value. *)
Lemma read_reg_examples :
  imx294_read_reg env_reads_1234 IMX294_REG_CHIP_ID 2 = (0, Some 0x1234)
  /\ imx294_read_reg env_bus_dead IMX294_REG_CHIP_ID 1 = (- EIO, None)
  /\ imx294_read_reg env_reads_1234 IMX294_REG_CHIP_ID 5
     = (- EINVAL, None).
Proof. repeat split; vm_compute; reflexivity. Qed.

End BusEncodingFacts.

(** ** Register lists *)

Section RegisterListFacts.
Import Driver Registers Scenarios.

Lemma write_reg_1byte_eq (e : env) (reg v : Z) (w : world) :
  imx294_write_reg_1byte e reg v w
  = (if i2c_xfer_ok e (length (i2c_log w)) then 0 else - EIO,
     mk_world (dev w) (i2c_log w ++ [buf_1byte reg v])).
Proof.
  unfold imx294_write_reg_1byte, i2c_master_send.
  destruct (i2c_xfer_ok e _); reflexivity.
Qed.

Lemma reg_writes_cons (r : imx294_reg) (rest : list imx294_reg) :
  reg_writes (r :: rest)
  = if address r =? 0xFFFE then reg_writes rest
    else buf_1byte (address r) (val r) :: reg_writes rest.
Proof.
  unfold reg_writes. cbn [filter].
  destruct (address r =? 0xFFFE); reflexivity.
Qed.

(** The run of [imx294_write_regs] when the first [k] transactions go
    through: it ends with 0 after the last write if there are only [k], and
    with -EIO right after the next write if that one fails. *)
Lemma write_regs_run (e : env) (regs : list imx294_reg) (w : world)
    (k : nat) :
  (forall j, (j < k)%nat -> i2c_xfer_ok e (length (i2c_log w) + j) = true) ->
  (k = length (reg_writes regs) ->
   imx294_write_regs e regs w
   = (0, mk_world (dev w) (i2c_log w ++ reg_writes regs)))
  /\ ((k < length (reg_writes regs))%nat ->
      i2c_xfer_ok e (length (i2c_log w) + k) = false ->
      imx294_write_regs e regs w
      = (- EIO,
         mk_world (dev w) (i2c_log w ++ firstn (S k) (reg_writes regs)))).
Proof.
  revert w k. induction regs as [| r rest IH]; intros w k Hok.
  - split.
    + intros _. cbn. rewrite app_nil_r. now destruct w.
    + cbn. lia.
  - cbn [imx294_write_regs]. rewrite reg_writes_cons.
    destruct (address r =? 0xFFFE); [now apply IH |].
    rewrite write_reg_1byte_eq. cbn [length].
    destruct k as [| k].
    + split; [discriminate |].
      intros _ Hfail. rewrite Nat.add_0_r in Hfail. rewrite Hfail.
      reflexivity.
    + pose proof (Hok 0%nat ltac:(lia)) as H0.
      rewrite Nat.add_0_r in H0. rewrite H0. cbn [Z.eqb negb].
      destruct (IH (mk_world (dev w)
                      (i2c_log w ++ [buf_1byte (address r) (val r)])) k)
        as [IHok IHfail].
      { intros j Hj. cbn [i2c_log]. rewrite length_app. cbn [length].
        replace (length (i2c_log w) + 1 + j)%nat
          with (length (i2c_log w) + S j)%nat by lia.
        apply Hok. lia. }
      cbn [dev i2c_log] in IHok, IHfail.
      rewrite length_app in IHfail. cbn [length] in IHfail.
      replace (length (i2c_log w) + 1 + k)%nat
        with (length (i2c_log w) + S k)%nat in IHfail by lia.
      rewrite <- !app_assoc in IHok, IHfail. cbn [app] in IHok, IHfail.
      split.
      * intros Hk. apply IHok. lia.
      * intros Hk Hfail. apply IHfail; [lia | assumption].
Qed.

(** X1: when every transaction of the list goes through,
    [imx294_write_regs] returns 0, leaves the driver state alone and has put
    on the bus exactly one 3-byte write per entry that is not a delay, in
    the order of the list; delay entries cause no transaction. *)
Theorem write_regs_all_written (e : env) (regs : list imx294_reg)
    (w : world) :
  (forall n, (length (i2c_log w) <= n
              < length (i2c_log w) + length (reg_writes regs))%nat ->
             i2c_xfer_ok e n = true) ->
  imx294_write_regs e regs w
  = (0, mk_world (dev w) (i2c_log w ++ reg_writes regs)).
Proof.
  intros Hok.
  apply (write_regs_run e regs w (length (reg_writes regs)));
    [| reflexivity].
  intros j Hj. apply Hok. lia.
Qed.

Lemma write_regs_all_written_witness :
  imx294_write_regs env_powered mode_00_regs default_world
  = (0, mk_world (dev default_world)
          (i2c_log default_world ++ reg_writes mode_00_regs)).
Proof.
  apply (write_regs_all_written env_powered mode_00_regs default_world).
  intros n _. reflexivity.
Defined.

(** X2: [imx294_write_regs] is fail-fast: if the transaction for the
    (k+1)-th writing entry is the first one to fail, the function returns
    -EIO with exactly the first k+1 writes on the bus (the failing one
    included) and none of the later ones. *)
Theorem write_regs_fail_fast (e : env) (regs : list imx294_reg) (w : world)
    (k : nat) :
  (k < length (reg_writes regs))%nat ->
  (forall j, (j < k)%nat -> i2c_xfer_ok e (length (i2c_log w) + j) = true) ->
  i2c_xfer_ok e (length (i2c_log w) + k) = false ->
  imx294_write_regs e regs w
  = (- EIO, mk_world (dev w) (i2c_log w ++ firstn (S k) (reg_writes regs))).
Proof.
  intros Hk Hok Hfail.
  now apply (write_regs_run e regs w k Hok).
Qed.

Lemma write_regs_fail_fast_witness :
  imx294_write_regs (env_bus_fails_at 2) mode_00_regs default_world
  = (- EIO, mk_world (dev default_world)
              (i2c_log default_world ++ firstn 3 (reg_writes mode_00_regs))).
Proof.
  apply (write_regs_fail_fast (env_bus_fails_at 2) mode_00_regs
           default_world 2).
  - vm_compute. lia.
  - intros j Hj.
    assert (Hj' : j = 0%nat \/ j = 1%nat) by lia.
    destruct Hj' as [-> | ->]; reflexivity.
  - reflexivity.
Defined.

End RegisterListFacts.

(** ** Enumeration of codes and frame sizes *)

Section EnumerationFacts.
Import Catalog Driver Pads.

(** The mode table is the catalog exactly for the codes of [codes], and
    empty for every other code. *)
Lemma get_mode_table_cases (c : Z) :
  (In c codes /\ get_mode_table c = supported_modes_12bit)
  \/ (~ In c codes /\ get_mode_table c = []).
Proof.
  unfold get_mode_table, codes.
  destruct (Z.eqb_spec c MEDIA_BUS_FMT_SRGGB12_1X12) as [-> | H1];
    [left; split; [cbn; tauto | reflexivity] |].
  destruct (Z.eqb_spec c MEDIA_BUS_FMT_SGRBG12_1X12) as [-> | H2];
    [left; split; [cbn; tauto | reflexivity] |].
  destruct (Z.eqb_spec c MEDIA_BUS_FMT_SGBRG12_1X12) as [-> | H3];
    [left; split; [cbn; tauto | reflexivity] |].
  destruct (Z.eqb_spec c MEDIA_BUS_FMT_SBGGR12_1X12) as [-> | H4];
    [left; split; [cbn; tauto | reflexivity] |].
  right. split; [| reflexivity].
  cbn. intros [H | [H | [H | [H | []]]]]; congruence.
Qed.

(** X6: [imx294_enum_frame_size] never reads [codes] or the mode table out
    of bounds: for all pad, index and code it returns, either with -EINVAL
    or, on the image pad for a supported code and an index below the number
    of catalog modes, with the size of that catalog entry, or, on the
    metadata pad for the metadata code and index 0, with the embedded-line
    size.  Every supported code and index below 4 does succeed. *)
Theorem enum_frame_size_cases (pad index c : Z) :
  0 <= pad -> 0 <= index ->
  (imx294_enum_frame_size pad index c = Some (- EINVAL, None)
   \/ (exists md,
         pad = IMAGE_PAD /\ In c codes
         /\ nth_error supported_modes_12bit (Z.to_nat index) = Some md
         /\ imx294_enum_frame_size pad index c
            = Some (0, Some (width md, height md)))
   \/ (pad = METADATA_PAD /\ c = MEDIA_BUS_FMT_SENSOR_DATA /\ index = 0
       /\ imx294_enum_frame_size pad index c
          = Some (0, Some (IMX294_EMBEDDED_LINE_WIDTH,
                           IMX294_NUM_EMBEDDED_LINES))))
  /\ (pad = IMAGE_PAD -> In c codes -> index < 4 ->
      exists md,
        nth_error supported_modes_12bit (Z.to_nat index) = Some md
        /\ imx294_enum_frame_size pad index c
           = Some (0, Some (width md, height md))).
Proof.
  intros Hpad Hidx.
  assert (Himg : In c codes -> index < 4 ->
            exists md,
              nth_error supported_modes_12bit (Z.to_nat index) = Some md
              /\ imx294_enum_frame_size IMAGE_PAD index c
                 = Some (0, Some (width md, height md))).
  { intros Hin Hlt.
    assert (Hi : index = 0 \/ index = 1 \/ index = 2 \/ index = 3) by lia.
    destruct Hin as [<- | [<- | [<- | [<- | []]]]];
      destruct Hi as [-> | [-> | [-> | ->]]];
      eexists; split; reflexivity. }
  split.
  - unfold imx294_enum_frame_size.
    destruct (Z.leb_spec NUM_PADS pad) as [Hge | Hlt]; [now left |].
    unfold NUM_PADS in Hlt.
    destruct (Z.eqb_spec pad IMAGE_PAD) as [-> | Hne].
    + destruct (get_mode_table_cases c) as [[Hin Ht] | [Hnin Ht]];
        rewrite Ht.
      * change (Z.of_nat (length supported_modes_12bit)) with 4.
        destruct (Z.leb_spec 4 index) as [Hge | Hlt4]; [now left |].
        destruct (Himg Hin Hlt4) as (md & Hnth & Heq).
        right. left. exists md. repeat split; auto.
        unfold imx294_enum_frame_size in Heq.
        change (NUM_PADS <=? IMAGE_PAD) with false in Heq.
        change (IMAGE_PAD =? IMAGE_PAD) with true in Heq.
        rewrite Ht in Heq.
        change (Z.of_nat (length supported_modes_12bit)) with 4 in Heq.
        destruct (Z.leb_spec 4 index); [lia | exact Heq].
      * cbn [length Z.of_nat].
        destruct (Z.leb_spec 0 index); [now left | lia].
    + unfold IMAGE_PAD in Hne. assert (pad = 1) by lia. subst pad.
      destruct (Z.eqb_spec c MEDIA_BUS_FMT_SENSOR_DATA) as [-> | Hc];
        cbn [negb orb]; [| now left].
      destruct (Z.ltb_spec 0 index); [now left |].
      right. right. repeat split; auto. lia.
  - intros -> Hin Hlt. now apply Himg.
Qed.

Lemma enum_frame_size_cases_witness :
  (imx294_enum_frame_size IMAGE_PAD 2 MEDIA_BUS_FMT_SGBRG12_1X12
   = Some (- EINVAL, None)
   \/ (exists md,
         IMAGE_PAD = IMAGE_PAD /\ In MEDIA_BUS_FMT_SGBRG12_1X12 codes
         /\ nth_error supported_modes_12bit (Z.to_nat 2) = Some md
         /\ imx294_enum_frame_size IMAGE_PAD 2 MEDIA_BUS_FMT_SGBRG12_1X12
            = Some (0, Some (width md, height md)))
   \/ (IMAGE_PAD = METADATA_PAD
       /\ MEDIA_BUS_FMT_SGBRG12_1X12 = MEDIA_BUS_FMT_SENSOR_DATA /\ 2 = 0
       /\ imx294_enum_frame_size IMAGE_PAD 2 MEDIA_BUS_FMT_SGBRG12_1X12
          = Some (0, Some (IMX294_EMBEDDED_LINE_WIDTH,
                           IMX294_NUM_EMBEDDED_LINES))))
  /\ (IMAGE_PAD = IMAGE_PAD -> In MEDIA_BUS_FMT_SGBRG12_1X12 codes -> 2 < 4 ->
      exists md,
        nth_error supported_modes_12bit (Z.to_nat 2) = Some md
        /\ imx294_enum_frame_size IMAGE_PAD 2 MEDIA_BUS_FMT_SGBRG12_1X12
           = Some (0, Some (width md, height md))).
Proof.
  apply (enum_frame_size_cases IMAGE_PAD 2 MEDIA_BUS_FMT_SGBRG12_1X12);
    unfold IMAGE_PAD; lia.
Defined.

(** X7: [imx294_enum_mbus_code] offers exactly one code per pad: index 0 of
    the image pad gives the first entry of [codes] (RGGB), index 0 of the
    metadata pad the metadata code; every other pad or index is refused with
    -EINVAL, and [codes] is never read out of bounds. *)
Theorem enum_mbus_code_cases (pad index : Z) :
  0 <= pad -> 0 <= index ->
  imx294_enum_mbus_code pad index
  = if (pad <? NUM_PADS) && (index =? 0)
    then Some (0, Some (if pad =? IMAGE_PAD
                        then MEDIA_BUS_FMT_SRGGB12_1X12
                        else MEDIA_BUS_FMT_SENSOR_DATA))
    else Some (- EINVAL, None).
Proof.
  intros Hpad Hidx. unfold imx294_enum_mbus_code.
  destruct (Z.leb_spec NUM_PADS pad) as [Hge | Hlt];
    destruct (Z.ltb_spec pad NUM_PADS); try lia; cbn [andb];
    [reflexivity |].
  change (Z.of_nat (length codes) / 4) with 1.
  destruct (Z.eqb_spec index 0) as [-> | Hne].
  - destruct (pad =? IMAGE_PAD); reflexivity.
  - destruct (pad =? IMAGE_PAD).
    + destruct (Z.leb_spec 1 index); [reflexivity | lia].
    + destruct (Z.ltb_spec 0 index); [reflexivity | lia].
Qed.

Lemma enum_mbus_code_cases_witness :
  imx294_enum_mbus_code METADATA_PAD 0
  = if (METADATA_PAD <? NUM_PADS) && (0 =? 0)
    then Some (0, Some (if METADATA_PAD =? IMAGE_PAD
                        then MEDIA_BUS_FMT_SRGGB12_1X12
                        else MEDIA_BUS_FMT_SENSOR_DATA))
    else Some (- EINVAL, None).
Proof.
  apply (enum_mbus_code_cases METADATA_PAD 0); unfold METADATA_PAD; lia.
Defined.

End EnumerationFacts.

(** ** Re-ranging a control and setting it to its default *)

Section FrameworkTracking.
Import Kernel V4L2.
Context {S : Type}.
Variable get : S -> v4l2_ctrl.
Variable set : v4l2_ctrl -> S -> S.
Variable s_ctrl : Z -> S -> option (Z * S).
Hypothesis get_set : forall c w, get (set c w) = c.
Hypothesis set_set : forall c c' w, set c' (set c w) = set c' w.

(** [Q] is an invariant of the state, [T] a quantity the operation stores
    as [f v] when it is applied to a value [v] of the range. *)
Variable Q : S -> Prop.
Variable T : S -> Z.
Variable f : Z -> Z.
Variables min max : Z.
Hypothesis Q_set : forall c w, Q w -> Q (set c w).
Hypothesis T_set : forall c w, T (set c w) = T w.
Hypothesis s_ctrl_ok :
  forall v w, min <= v <= max -> Q w ->
    exists r w',
      s_ctrl v w = Some (r, w') /\ Q w' /\ get w' = get w /\ T w' = f v.

Lemma apply_new_tracked (c : v4l2_ctrl) (v : Z) (w : S) :
  min <= v <= max -> Q w ->
  exists r w',
    apply_new get set s_ctrl c v w = Some (r, w') /\ Q w'
    /\ minimum (get w') = minimum c /\ maximum (get w') = maximum c
    /\ step (get w') = step c /\ default_value (get w') = default_value c
    /\ val (get w') = v
    /\ ((v = cur_val c /\ T w' = T w /\ cur_val (get w') = cur_val c)
        \/ (v <> cur_val c /\ T w' = f v
            /\ (cur_val (get w') = v \/ cur_val (get w') = cur_val c))).
Proof.
  intros Hv Hq. unfold apply_new.
  destruct (Z.eqb_spec v (cur_val c)) as [Heq | Hne].
  - eexists _, _. split; [reflexivity |]. rewrite get_set, T_set.
    cbn. repeat split; auto.
  - destruct (s_ctrl_ok v (set (with_val v c) w) Hv (Q_set _ _ Hq))
      as (r & w' & Hop & Hq' & Hget & Ht).
    rewrite Hop. cbn [obind]. rewrite get_set in Hget.
    destruct (Z.eqb_spec r 0) as [-> | Hr].
    + eexists _, _. split; [reflexivity |].
      rewrite get_set, T_set, Hget. cbn. repeat split; auto.
    + eexists _, _. split; [reflexivity |]. rewrite Hget.
      cbn. repeat split; auto.
Qed.

(** A range change to [min..max] with default [def], followed by a set to
    [def]: both calls return, the invariant is kept, the control has the
    new range and the new value [def], and the tracked quantity is
    [f def], whether or not the operation had to run. *)
Lemma rerange_then_set_default (def v : Z) (w : S) :
  min <= def <= max ->
  Z.max min (Z.min v max) = def ->
  Q w -> T w = f def ->
  exists r1 w1 r2 w2,
    __v4l2_ctrl_modify_range get set s_ctrl min max 1 def w = Some (r1, w1)
    /\ __v4l2_ctrl_s_ctrl get set s_ctrl v w1 = Some (r2, w2)
    /\ Q w2 /\ T w2 = f def
    /\ minimum (get w2) = min /\ maximum (get w2) = max
    /\ step (get w2) = 1 /\ default_value (get w2) = def
    /\ val (get w2) = def.
Proof.
  intros Hdef Hv Hq Ht.
  rewrite (v4l2_ctrl_modify_range_step1 get set s_ctrl get_set set_set)
    by assumption.
  set (new := Z.max min (Z.min (cur_val (get w)) max)).
  destruct (apply_new_tracked (with_range min max 1 def (get w)) new w
              ltac:(unfold new; lia) Hq)
    as (r1 & w1 & H1 & Hq1 & Hmin & Hmax & Hstep & Hd & _ & Hcase1).
  cbn [minimum maximum step default_value cur_val with_range]
    in Hmin, Hmax, Hstep, Hd, Hcase1.
  exists r1, w1. rewrite H1.
  rewrite (v4l2_ctrl_s_ctrl_step1 get set s_ctrl get_set set_set)
    by (rewrite ?Hstep, ?Hmin, ?Hmax; lia).
  rewrite Hmin, Hmax, Hv.
  destruct (apply_new_tracked (get w1) def w1 Hdef Hq1)
    as (r2 & w2 & H2 & Hq2 & Hmin2 & Hmax2 & Hstep2 & Hd2 & Hval2 & Hcase2).
  exists r2, w2. split; [reflexivity |]. split; [exact H2 |].
  split; [exact Hq2 |].
  split; [| repeat split; congruence].
  destruct Hcase2 as [(Hdc & Ht2 & _) | (_ & Ht2 & _)]; [| exact Ht2].
  rewrite Ht2.
  destruct Hcase1 as [(_ & Ht1 & _) | (Hne & Ht1 & [Hc | Hc])].
  - congruence.
  - rewrite Ht1. f_equal. congruence.
  - exfalso. apply Hne. unfold new. rewrite <- Hc, <- Hdc. lia.
Qed.

End FrameworkTracking.

(** ** The control handler and the timing state *)

Section HandlerInvariantFacts.
Import Kernel Timing Catalog V4L2 Driver Invariants Scenarios.

Lemma default_blanking_catalog (md : imx294_mode) :
  In md supported_modes_12bit ->
  1024 <= min_HMAX md <= 1192
  /\ 0 < integration_offset md < min_HMAX md
  /\ u16 (default_HMAX md) = default_HMAX md
  /\ min_HMAX md <= default_HMAX md < 2 ^ 16
  /\ u32 (default_VMAX md) = default_VMAX md
  /\ min_VMAX md <= default_VMAX md <= IMX294_VMAX_MAX
  /\ s64 (u64 (default_VMAX md * VMAX_scale md) - height md)
     = default_VMAX md * VMAX_scale md - height md
  /\ s32 (u64 (default_VMAX md * VMAX_scale md) - height md)
     = default_VMAX md * VMAX_scale md - height md
  /\ (height md + (default_VMAX md * VMAX_scale md - height md))
     / VMAX_scale md = default_VMAX md.
Proof.
  intros Hin.
  destruct (catalog_cases md Hin) as [-> | [-> | [-> | ->]]];
    vm_compute; repeat split; discriminate.
Qed.

Lemma s32_of_small (x : Z) : 0 <= x < 2 ^ 31 -> s32 x = x.
Proof.
  intros H. unfold s32. rewrite u32_small by lia.
  destruct (Z.ltb_spec x (2 ^ 31)); lia.
Qed.

Lemma s64_u64 (x : Z) : s64 (u64 x) = s64 x.
Proof.
  unfold s64, u64. now rewrite Z.mod_mod by lia.
Qed.

Lemma timing_invariant_handler (w : world) :
  timing_invariant w ->
  In (mode (dev w)) supported_modes_12bit /\ 0 < HMAX (dev w) < 2 ^ 16.
Proof.
  intros (Hin & Hh & _). split; [assumption |].
  destruct (default_blanking_catalog _ Hin) as (Hm & _). lia.
Qed.

(** The horizontal period the horizontal-blank case computes, for a
    blanking within the control's range: never below the mode's floor,
    always a 16-bit value. *)
Lemma hblank_hmax_range (md : imx294_mode) (v : Z) :
  In md supported_modes_12bit ->
  0 <= v <= IMX294_HMAX_MAX ->
  do_div (u64 (width md * 72000000)) (min_HMAX md)
  = Some (hblank_pixel_rate md)
  /\ do_div (u64 (u32 (width md + v) * 72000000)) (hblank_pixel_rate md)
     = Some ((width md + v) * 72000000 / hblank_pixel_rate md)
  /\ min_HMAX md <= (width md + v) * 72000000 / hblank_pixel_rate md
     < 2 ^ 16.
Proof.
  intros Hin Hv. unfold IMX294_HMAX_MAX in Hv.
  destruct (framing_consts_catalog md Hin) as (Hw & Hpr & Hprb & _).
  destruct (default_blanking_catalog md Hin) as (Hm & _).
  split; [exact Hpr |].
  rewrite (u32_small (width md + v)) by lia.
  rewrite (u64_small (_ * 72000000)) by lia.
  split; [now rewrite do_div_some by lia |].
  split.
  - apply Z.div_le_lower_bound; [lia |].
    assert (min_HMAX md * hblank_pixel_rate md <= width md * 72000000).
    { unfold hblank_pixel_rate. apply Z.mul_div_le. lia. }
    lia.
  - apply Z.div_lt_upper_bound; change (2 ^ 16) with 65536; lia.
Qed.

Lemma reg_address_buf_3byte (reg val : Z) :
  0 <= reg < 2 ^ 16 -> reg_address (buf_3byte reg val) = reg.
Proof.
  intros H. rewrite <- (reg_address_buf_2byte reg 0 H) at 2. reflexivity.
Qed.

Lemma control_register_range (reg : Z) :
  In reg control_registers -> 0 <= reg < 2 ^ 16.
Proof.
  intros H. cbn in H.
  repeat (destruct H as [<- | H];
          [vm_compute; split; [discriminate | reflexivity] |]).
  contradiction.
Qed.

Lemma to_control_register_2byte (reg val : Z) :
  In reg control_registers -> to_control_register (buf_2byte reg val).
Proof.
  intros H. unfold to_control_register.
  now rewrite reg_address_buf_2byte by now apply control_register_range.
Qed.

Lemma to_control_register_3byte (reg val : Z) :
  In reg control_registers -> to_control_register (buf_3byte reg val).
Proof.
  intros H. unfold to_control_register.
  now rewrite reg_address_buf_3byte by now apply control_register_range.
Qed.

Lemma vblank_writes_control (vmax min_vmax : Z) :
  Forall to_control_register (vblank_writes vmax min_vmax).
Proof.
  unfold vblank_writes.
  repeat (apply Forall_cons;
          [(apply to_control_register_2byte
            || apply to_control_register_3byte); cbn; tauto |]).
  apply Forall_nil.
Qed.

Lemma control_write_single (reg val : Z) :
  In reg control_registers ->
  Forall to_control_register [buf_2byte reg val].
Proof.
  intros H. apply Forall_cons; [| apply Forall_nil].
  now apply to_control_register_2byte.
Qed.

Lemma appends_only_refl (P : list Z -> Prop) (w : world) :
  appends_only P w w.
Proof. exists []. now rewrite app_nil_r. Qed.

Lemma appends_only_trans (P : list Z -> Prop) (a b c : world) :
  appends_only P a b -> appends_only P b c -> appends_only P a c.
Proof.
  intros (l1 & H1 & F1) (l2 & H2 & F2). exists (l1 ++ l2).
  split; [now rewrite H2, H1, app_assoc | now apply Forall_app].
Qed.

(** The horizontal-blank operation in a catalog mode: it returns, touches
    nothing but the stored horizontal period and the bus, and leaves a
    period that is at least the mode's floor (the old one when the device
    is not in use); what it puts on the bus goes to control registers. *)
Lemma set_ctrl_hblank_frame (e : env) (v : Z) (w : world) :
  In (mode (dev w)) supported_modes_12bit ->
  0 <= v <= IMX294_HMAX_MAX ->
  exists r h l,
    imx294_set_ctrl e V4L2_CID_HBLANK v w
    = Some (r, mk_world (dev (set_HMAX h w)) (i2c_log w ++ l))
    /\ Forall to_control_register l
    /\ ((pm_runtime_get_if_in_use e = 0 /\ h = HMAX (dev w))
        \/ (pm_runtime_get_if_in_use e <> 0
            /\ min_HMAX (mode (dev w)) <= h < 2 ^ 16)).
Proof.
  intros Hin Hv.
  destruct (Z.eq_dec (pm_runtime_get_if_in_use e) 0) as [H0 | Hn0].
  - rewrite set_ctrl_unpowered_other by (assumption || discriminate).
    exists 0, (HMAX (dev w)), []. split; [| split; [constructor | now left]].
    rewrite app_nil_r. destruct w as [[] ?]. reflexivity.
  - destruct (hblank_hmax_range _ v Hin Hv) as (Hpr & Hdiv & Hr).
    destruct (default_blanking_catalog _ Hin) as (Hm & _).
    unfold imx294_set_ctrl, imx294_set_ctrl_apply. cbn [obind].
    destruct (Z.eqb_spec (pm_runtime_get_if_in_use e) 0); [contradiction |].
    rewrite Hpr. cbn [obind]. rewrite Hdiv. cbn [obind].
    rewrite !write_reg_2byte_eq. cbn [dev i2c_log].
    rewrite <- !app_assoc. cbn [app].
    eexists _, _, _. split; [reflexivity |]. split.
    + repeat (apply Forall_cons;
              [apply to_control_register_2byte; cbn; tauto |]).
      apply Forall_nil.
    + right. split; [assumption |].
      rewrite u16_small; [assumption | lia].
Qed.

(** X8: a horizontal-blank call made while the device is in use, for a
    blanking within the control's range in a catalog mode, stores
    [hmax = floor((width + hblank) * 72000000 / floor(width * 72000000 /
    min_HMAX))], which is at least the mode's [min_HMAX] and fits 16 bits,
    and writes that same value to the three registers HMAX, HCOUNT1 and
    HCOUNT2, in this order.  Its result is the result of the last write
    alone: a failure of the first or second write is not reported. *)
Theorem set_hblank_powered (e : env) (v : Z) (w : world) :
  pm_runtime_get_if_in_use e <> 0 ->
  In (mode (dev w)) supported_modes_12bit ->
  0 <= v <= IMX294_HMAX_MAX ->
  let md := mode (dev w) in
  let hmax := (width md + v) * 72000000
              / (width md * 72000000 / min_HMAX md) in
  min_HMAX md <= hmax < 2 ^ 16
  /\ imx294_set_ctrl e V4L2_CID_HBLANK v w
     = Some (if i2c_xfer_ok e (length (i2c_log w) + 2) then 0 else - EIO,
             mk_world (dev (set_HMAX hmax w))
               (i2c_log w
                ++ [ buf_2byte IMX294_REG_HMAX hmax;
                     buf_2byte IMX294_REG_HCOUNT1 hmax;
                     buf_2byte IMX294_REG_HCOUNT2 hmax ])).
Proof.
  intros Hpm Hin Hv md hmax.
  destruct (hblank_hmax_range md v Hin Hv) as (Hpr & Hdiv & Hrange).
  fold (hblank_pixel_rate md) in hmax. fold hmax in Hdiv, Hrange.
  split; [exact Hrange |].
  unfold imx294_set_ctrl, imx294_set_ctrl_apply. cbn [obind].
  destruct (Z.eqb_spec (pm_runtime_get_if_in_use e) 0); [contradiction |].
  fold md. rewrite Hpr. cbn [obind]. rewrite Hdiv. cbn [obind].
  rewrite !write_reg_2byte_eq. cbn [dev i2c_log set_HMAX set_dev].
  assert (Hu : u16 hmax = hmax).
  { apply u16_small. change (2 ^ 16) with 65536 in *.
    destruct (default_blanking_catalog md Hin) as (Hm & _). clearbody hmax. lia. }
  rewrite Hu.
  rewrite <- !app_assoc. cbn [app].
  rewrite !length_app. cbn [length].
  replace (length (i2c_log w) + 1 + 1)%nat
    with (length (i2c_log w) + 2)%nat by lia.
  reflexivity.
Qed.

Lemma set_hblank_powered_witness :
  let md := mode (dev default_world) in
  let hmax := (width md + 100) * 72000000
              / (width md * 72000000 / min_HMAX md) in
  min_HMAX md <= hmax < 2 ^ 16
  /\ imx294_set_ctrl (env_bus_fails_at 0) V4L2_CID_HBLANK 100 default_world
     = Some (if i2c_xfer_ok (env_bus_fails_at 0)
                  (length (i2c_log default_world) + 2)
             then 0 else - EIO,
             mk_world (dev (set_HMAX hmax default_world))
               (i2c_log default_world
                ++ [ buf_2byte IMX294_REG_HMAX hmax;
                     buf_2byte IMX294_REG_HCOUNT1 hmax;
                     buf_2byte IMX294_REG_HCOUNT2 hmax ])).
Proof.
  apply (set_hblank_powered (env_bus_fails_at 0) 100 default_world).
  - discriminate.
  - vm_compute. auto.
  - vm_compute. split; discriminate.
Defined.

(** The shutter value of an exposure of [v] lines, where the horizontal
    period exceeds the integration offset: [vmax - v + 1]. *)
Lemma calculate_shr_lines (v h vmax off : Z) :
  0 < off < h -> h < 2 ^ 16 ->
  1 <= v <= vmax + 1 -> vmax + 1 < 2 ^ 32 ->
  calculate_shr v h vmax 0 off = Some (vmax - v + 1).
Proof.
  intros Hoff Hh Hv Hvm. unfold calculate_shr. cbv zeta.
  assert (H16 : 2 ^ 16 = 65536) by reflexivity.
  assert (H32 : 2 ^ 32 = 4294967296) by reflexivity.
  assert (H64 : 2 ^ 64 = 18446744073709551616) by reflexivity.
  rewrite (u32_small v), (u32_small h), (u32_small off), (u64_small vmax)
    by lia.
  change (u32 (u32 0 + 1)) with 1. rewrite Z.mul_1_r.
  rewrite (u64_small vmax) by lia.
  assert (Hq : (v * h - off) / h = v - 1).
  { symmetry. apply (Z.div_unique _ _ _ (h - off)); [lia |]. ring. }
  rewrite (u64_small (v * h - off)) by nia.
  rewrite do_div_some by nia.
  cbn [obind]. rewrite Hq. rewrite u32_small by lia. f_equal. lia.
Qed.

(** X9: an exposure call made while the device is in use, for a value
    within the limits [calculate_min_max_v4l2_cid_exposure] gives for the
    stored periods, puts exactly one transaction on the bus, a 2-byte write
    to SHR.  With [shr = VMAX - exposure + 1], which is above the mode's
    [min_SHR] and at most [min(65535, VMAX - 4) + 1], the two value bytes
    carry [shr] itself, except when [shr] is 65536 (the smallest exposure of
    a vertical period of 65539 or more): then they carry 0.  The stored
    state is not changed and the result is that of the one write. *)
Theorem set_exposure_powered (e : env) (v mn mx : Z) (w : world) :
  timing_invariant w ->
  pm_runtime_get_if_in_use e <> 0 ->
  calculate_min_max_v4l2_cid_exposure (HMAX (dev w)) (VMAX (dev w))
    (u64 (min_SHR (mode (dev w)))) 0 (integration_offset (mode (dev w)))
  = Some (mn, mx) ->
  mn <= v <= mx ->
  let shr := VMAX (dev w) - v + 1 in
  min_SHR (mode (dev w)) < shr <= Z.min 65535 (VMAX (dev w) - 4) + 1
  /\ exists lo hi,
      (0 <= lo < 256 /\ 0 <= hi < 256)
      /\ lo + 256 * hi = (if shr =? 65536 then 0 else shr)
      /\ imx294_set_ctrl e V4L2_CID_EXPOSURE v w
         = Some (if i2c_xfer_ok e (length (i2c_log w)) then 0 else - EIO,
                 mk_world (dev w) (i2c_log w ++ [[0x30; 0x2C; lo; hi]])).
Proof.
  intros (Hin & Hh & Hvm) Hpm Hlim Hv shr.
  destruct (default_blanking_catalog _ Hin) as (Hm & Hoff & _).
  destruct (timing_consts_catalog _ Hin) as (Hshr & _).
  destruct (vblank_range_catalog _ Hin) as (_ & _ & _ & _ & _ & Hmv).
  assert (Hh' : 0 < HMAX (dev w) < 2 ^ 16) by lia.
  rewrite (exposure_limits_catalog _ _ _ Hin Hh' Hvm) in Hlim.
  rewrite Z.div_small in Hlim by lia.
  injection Hlim as <- <-.
  unfold IMX294_VMAX_MAX in Hvm. change (2 ^ 16) with 65536 in *.
  assert (Hrange : min_SHR (mode (dev w)) < shr
                   <= Z.min 65535 (VMAX (dev w) - 4) + 1)
    by (subst shr; lia).
  split; [exact Hrange |].
  exists (u8 (u16 shr)), (u8 (Z.shiftr (u16 shr) 8)).
  split; [split; apply u8_range |]. split.
  - pose proof (u16_bytes shr) as Hb.
    assert (Hu : u16 shr = if shr =? 65536 then 0 else shr).
    { destruct (Z.eqb_spec shr 65536) as [-> | Hne]; [reflexivity |].
      apply u16_small. change (2 ^ 16) with 65536. lia. }
    lia.
  - unfold imx294_set_ctrl, imx294_set_ctrl_apply. cbn [obind].
    destruct (Z.eqb_spec (pm_runtime_get_if_in_use e) 0); [contradiction |].
    rewrite calculate_shr_lines by lia.
    cbn [obind]. rewrite write_reg_2byte_eq. reflexivity.
Qed.

Lemma set_exposure_powered_witness :
  let shr := VMAX (dev default_world) - 2000 + 1 in
  min_SHR (mode (dev default_world)) < shr
    <= Z.min 65535 (VMAX (dev default_world) - 4) + 1
  /\ exists lo hi,
      (0 <= lo < 256 /\ 0 <= hi < 256)
      /\ lo + 256 * hi = (if shr =? 65536 then 0 else shr)
      /\ imx294_set_ctrl env_powered V4L2_CID_EXPOSURE 2000 default_world
         = Some (if i2c_xfer_ok env_powered
                      (length (i2c_log default_world))
                 then 0 else - EIO,
                 mk_world (dev default_world)
                   (i2c_log default_world ++ [[0x30; 0x2C; lo; hi]])).
Proof.
  apply (set_exposure_powered env_powered 2000 4 2495 default_world).
  - vm_compute. repeat split; auto; discriminate.
  - discriminate.
  - vm_compute. reflexivity.
  - lia.
Defined.

(** The exception does occur: with a vertical period of 70000 the
    smallest exposure is 4465 lines, for which [shr] is 65536 and the
    shutter register is written with 0. *)
Lemma set_exposure_shr_wraps :
  VMAX (dev vmax_70000_world) = 70000
  /\ minimum (exposure (dev vmax_70000_world)) = 4465
  /\ imx294_set_ctrl env_powered V4L2_CID_EXPOSURE 4465 vmax_70000_world
     = Some (0, mk_world (dev vmax_70000_world) [[0x30; 0x2C; 0; 0]]).
Proof. repeat split; vm_compute; reflexivity. Qed.

(** Every call of [imx294_set_ctrl] with a value of the control's range
    returns and keeps the timing invariant; it touches neither the mode,
    the format code and the flags nor the horizontal-blank control, and
    what it puts on the bus goes to control registers. *)
Lemma set_ctrl_frame (e : env) (id : ctrl_id) (v : Z) (w : world) :
  timing_invariant w ->
  legal_value (mode (dev w)) id v ->
  exists ret w',
    imx294_set_ctrl e id v w = Some (ret, w')
    /\ timing_invariant w'
    /\ same_config w w'
    /\ hblank (dev w') = hblank (dev w)
    /\ appends_only to_control_register w w'.
Proof.
  intros Hinv Hlegal.
  destruct (timing_invariant_handler w Hinv) as [Hin Hh].
  destruct Hinv as (_ & Hhm & Hvm).
  assert (Hsame : forall l,
            Forall to_control_register l ->
            let w' := mk_world (dev w) (i2c_log w ++ l) in
            timing_invariant w' /\ same_config w w'
            /\ hblank (dev w') = hblank (dev w)
            /\ appends_only to_control_register w w').
  { intros l Hl. split; [split; [| split]; assumption |].
    split; [repeat split |]. split; [reflexivity |]. now exists l. }
  assert (Hid : timing_invariant w /\ same_config w w
                /\ hblank (dev w) = hblank (dev w)
                /\ appends_only to_control_register w w).
  { split; [split; [| split]; assumption |].
    split; [repeat split |]. split; [reflexivity |].
    apply appends_only_refl. }
  destruct id; cbn [legal_value] in Hlegal.
  - (* pixel rate *)
    unfold imx294_set_ctrl, imx294_set_ctrl_apply. cbn [obind].
    destruct (pm_runtime_get_if_in_use e =? 0);
      eexists _, _; (split; [reflexivity | exact Hid]).
  - (* vertical blank *)
    destruct (set_ctrl_vblank_spec e v w Hin Hh Hlegal)
      as (c & prefix & ret & Heq & _ & _ & _ & _ & _ & _ & Hprefix & _).
    destruct (vblank_vmax_range _ v Hin Hlegal) as [_ Hv].
    rewrite Heq. eexists _, _. split; [reflexivity |].
    split; [split; [| split]; cbn; assumption |].
    split; [repeat split |]. split; [reflexivity |].
    eexists. split; [reflexivity |].
    apply Forall_app. split.
    + destruct Hprefix as [-> | (_ & shr & ->)];
        [apply Forall_nil | apply control_write_single; cbn; tauto].
    + destruct (pm_runtime_get_if_in_use e =? 0);
        [constructor | apply vblank_writes_control].
  - (* horizontal blank *)
    destruct (set_ctrl_hblank_frame e v w Hin Hlegal)
      as (r & h & l & Heq & Hl & Hcase).
    rewrite Heq. eexists _, _. split; [reflexivity |].
    split; [split; [| split]; cbn; try assumption |].
    + destruct Hcase as [[_ ->] | [_ Hr]]; assumption.
    + split; [repeat split |]. split; [reflexivity |]. now exists l.
  - (* exposure *)
    unfold imx294_set_ctrl. cbn [obind].
    destruct (apply_exposure_cases e v w ltac:(lia))
      as [[_ ->] | [_ [shr ->]]];
      eexists _, _; (split; [reflexivity |]).
    + exact Hid.
    + apply Hsame. apply control_write_single. cbn. tauto.
  - (* analogue gain *)
    unfold imx294_set_ctrl, imx294_set_ctrl_apply. cbn [obind].
    destruct (pm_runtime_get_if_in_use e =? 0).
    + eexists _, _. split; [reflexivity | exact Hid].
    + rewrite write_reg_2byte_eq.
      eexists _, _. split; [reflexivity |].
      apply Hsame. apply control_write_single. cbn. tauto.
  - unfold imx294_set_ctrl, imx294_set_ctrl_apply. cbn [obind].
    destruct (pm_runtime_get_if_in_use e =? 0);
      eexists _, _; (split; [reflexivity | exact Hid]).
  - unfold imx294_set_ctrl, imx294_set_ctrl_apply. cbn [obind].
    destruct (pm_runtime_get_if_in_use e =? 0);
      eexists _, _; (split; [reflexivity | exact Hid]).
Qed.

(** X10: the timing invariant (active mode in the catalog, both stored
    periods between the mode's floor and their register maximum) is kept by
    every call of [imx294_set_ctrl] with a value of the control's range,
    whatever the power state, the bus results and the control are; the call
    always returns, mode, format code and the streaming flags are left
    untouched, and every transaction it puts on the bus is a write to one
    of the eleven timing and gain registers. *)
Theorem set_ctrl_keeps_timing_invariant (e : env) (id : ctrl_id) (v : Z)
    (w : world) :
  timing_invariant w ->
  legal_value (mode (dev w)) id v ->
  exists ret w',
    imx294_set_ctrl e id v w = Some (ret, w')
    /\ timing_invariant w'
    /\ same_config w w'
    /\ appends_only to_control_register w w'.
Proof.
  intros Hinv Hlegal.
  destruct (set_ctrl_frame e id v w Hinv Hlegal)
    as (ret & w' & Heq & Hinv' & Hsame & _ & Hlog).
  exists ret, w'. split; [exact Heq |]. split; [exact Hinv' |].
  split; assumption.
Qed.

Lemma set_ctrl_keeps_timing_invariant_witness :
  exists ret w',
    imx294_set_ctrl (env_bus_fails_at 1) V4L2_CID_VBLANK 2816 default_world
    = Some (ret, w')
    /\ timing_invariant w'
    /\ same_config default_world w'
    /\ appends_only to_control_register default_world w'.
Proof.
  apply (set_ctrl_keeps_timing_invariant (env_bus_fails_at 1)
           V4L2_CID_VBLANK 2816 default_world).
  - vm_compute. repeat split; auto; discriminate.
  - vm_compute. split; discriminate.
Defined.

(** The run of [imx294_set_framing_limits] in a catalog mode: the two
    periods are reset to the mode's defaults, then the horizontal-blank and
    the vertical-blank controls are re-ranged and set to their defaults
    (which applies them through [imx294_set_ctrl] when their value changes),
    then the pixel-rate control is re-ranged. *)
Lemma framing_limits_run (e : env) (w : world) :
  In (mode (dev w)) supported_modes_12bit ->
  let md := mode (dev w) in
  exists w',
    imx294_set_framing_limits e w = Some w'
    /\ timing_invariant w'
    /\ same_config w w'
    /\ VMAX (dev w') = default_VMAX md
    /\ (pm_runtime_get_if_in_use e = 0 -> HMAX (dev w') = default_HMAX md)
    /\ minimum (vblank (dev w')) = vblank_min md
    /\ maximum (vblank (dev w')) = vblank_max md
    /\ val (vblank (dev w')) = default_VMAX md * VMAX_scale md - height md
    /\ minimum (hblank (dev w')) = 0
    /\ maximum (hblank (dev w')) = IMX294_HMAX_MAX.
Proof.
  intros Hin md.
  destruct (framing_consts_catalog md Hin)
    as (_ & _ & _ & Hpr & Hprb & (dh & Hdh & Hdhb) & _ & Hvb).
  destruct (default_blanking_catalog md Hin)
    as (Hm & Hoff & Hdh16 & Hdhr & Hdv32 & Hdvr & Hdv64 & Hdvs32 & Hdvf).
  destruct (vblank_range_catalog md Hin) as (_ & Hvmin & Hvmax & _).
  unfold imx294_set_framing_limits. fold md.
  rewrite Hdh16, Hdv32.
  set (wa := set_HMAX _ (set_VMAX _ w)).
  rewrite Hpr. cbn [obind]. rewrite Hdh. cbn [obind].
  set (pr := framing_pixel_rate md) in *.
  (* horizontal blanking *)
  set (Qh := fun x : world =>
               mode (dev x) = md /\ same_config w x
               /\ VMAX (dev x) = default_VMAX md
               /\ min_HMAX md <= HMAX (dev x) < 2 ^ 16
               /\ (pm_runtime_get_if_in_use e = 0 ->
                   HMAX (dev x) = default_HMAX md)).
  assert (Hqa : Qh wa).
  { unfold Qh, wa, same_config. cbn. repeat split; auto; lia. }
  destruct (rerange_then_set_default
              (fun x => hblank (dev x)) set_hblank
              (imx294_set_ctrl e V4L2_CID_HBLANK)
              hblank_get_set hblank_set_set
              Qh (fun _ => 0) (fun _ => 0) 0 IMX294_HMAX_MAX)
    with (def := s64 (u64 (dh - width md)))
         (v := s32 (u64 (dh - width md))) (w := wa)
    as (r1 & w1 & r2 & w2 & H1 & H2 & Hq2 & _ & Hhmin & Hhmax & _).
  { intros c x Hx. exact Hx. }
  { reflexivity. }
  { intros v x Hv (Hmode & Hsame & Hvm & Hh & Hh0).
    assert (Hinx : In (mode (dev x)) supported_modes_12bit)
      by (rewrite Hmode; exact Hin).
    destruct (set_ctrl_hblank_frame e v x Hinx Hv)
      as (r & h & l & Heq & _ & Hcase).
    rewrite Heq. eexists _, _. split; [reflexivity |].
    split; [| split; reflexivity].
    unfold Qh, same_config in *. cbn. rewrite Hmode in Hcase.
    repeat split; try tauto.
    - destruct Hcase as [[_ ->] | [_ Hr]]; lia.
    - destruct Hcase as [[_ ->] | [_ Hr]]; lia.
    - intros H0. destruct Hcase as [[_ ->] | [Hn0 _]]; auto.
      contradiction. }
  { exact Hdhb. }
  { rewrite s64_u64 in Hdhb |- *.
    unfold IMX294_HMAX_MAX in *.
    assert (Hs : s32 (u64 (dh - width md)) = s64 (dh - width md)).
    { unfold s64 in *. unfold u64 at 1.
      destruct (Z.ltb_spec (u64 (dh - width md)) (2 ^ 63)).
      - apply s32_of_small. unfold u64 in *. lia.
      - pose proof (u64_range (dh - width md)). lia. }
    rewrite Hs. lia. }
  { exact Hqa. }
  { reflexivity. }
  rewrite H1. cbn [obind]. rewrite H2. cbn [obind].
  (* vertical blanking *)
  destruct Hq2 as (Hmode2 & Hsame2 & Hvm2 & Hh2 & Hh02).
  set (hb := hblank (dev w2)) in *.
  set (Qv := fun x : world =>
               mode (dev x) = md /\ same_config w x
               /\ min_HMAX md <= HMAX (dev x) < 2 ^ 16
               /\ (pm_runtime_get_if_in_use e = 0 ->
                   HMAX (dev x) = default_HMAX md)
               /\ hblank (dev x) = hb).
  assert (Hqv2 : Qv w2) by (unfold Qv; auto).
  fold (vblank_min md) (vblank_max md).
  destruct (rerange_then_set_default
              (fun x => vblank (dev x)) set_vblank
              (imx294_set_ctrl e V4L2_CID_VBLANK)
              vblank_get_set vblank_set_set
              Qv (fun x => VMAX (dev x))
              (fun v => (height md + v) / VMAX_scale md)
              (vblank_min md) (vblank_max md))
    with (def := s64 (u64 (default_VMAX md * VMAX_scale md) - height md))
         (v := s32 (u64 (default_VMAX md * VMAX_scale md) - height md))
         (w := w2)
    as (r3 & w3 & r4 & w4 & H3 & H4 & Hq4 & Ht4 & Hvmn & Hvmx & _ & _
        & Hvval).
  { intros c x Hx. exact Hx. }
  { reflexivity. }
  { intros v x Hv (Hmode & Hsame & Hh & Hh0 & Hhb).
    assert (Hinx : In (mode (dev x)) supported_modes_12bit)
      by (rewrite Hmode; exact Hin).
    rewrite <- Hmode in Hv.
    destruct (set_ctrl_vblank_spec e v x Hinx ltac:(cbv zeta; lia) Hv)
      as (c & prefix & ret & Heq & _).
    rewrite Heq. eexists _, _. split; [reflexivity |].
    unfold Qv, same_config in *. cbn. rewrite Hmode.
    repeat split; tauto. }
  { exact Hvb. }
  { rewrite Hdv64, Hdvs32. rewrite Hdv64 in Hvb. lia. }
  { exact Hqv2. }
  { rewrite Hdv64, Hdvf. exact Hvm2. }
  rewrite H3. cbn [obind]. rewrite H4. cbn [obind].
  rewrite Hdv64, Hdvf in Ht4. rewrite Hdv64 in Hvval.
  destruct Hq4 as (Hmode4 & Hsame4 & Hh4 & Hh04 & Hhb4).
  (* pixel rate *)
  rewrite (s64_small pr) by lia.
  rewrite (v4l2_ctrl_modify_range_step1 _ _ _ pixel_rate_get_set
             pixel_rate_set_set) by lia.
  assert (Hdone : forall c,
            let x := set_pixel_rate c w4 in
            timing_invariant x /\ same_config w x
            /\ VMAX (dev x) = default_VMAX md
            /\ (pm_runtime_get_if_in_use e = 0 ->
                HMAX (dev x) = default_HMAX md)
            /\ minimum (vblank (dev x)) = vblank_min md
            /\ maximum (vblank (dev x)) = vblank_max md
            /\ val (vblank (dev x))
               = default_VMAX md * VMAX_scale md - height md
            /\ minimum (hblank (dev x)) = 0
            /\ maximum (hblank (dev x)) = IMX294_HMAX_MAX).
  { intros c. cbn.
    unfold timing_invariant, same_config in *. cbn.
    rewrite Hmode4, Ht4, Hhb4, Hvmn, Hvmx, Hvval.
    repeat split; try tauto; try lia. }
  unfold apply_new.
  destruct (_ =? cur_val _).
  - eexists. split; [reflexivity |]. apply Hdone.
  - unfold imx294_set_ctrl, imx294_set_ctrl_apply. cbn [obind].
    destruct (pm_runtime_get_if_in_use e =? 0);
      cbn [obind Z.eqb Z.opp EINVAL].
    + eexists. split; [reflexivity |].
      rewrite pixel_rate_set_set. apply Hdone.
    + eexists. split; [reflexivity |]. apply Hdone.
Qed.

(** X11: in every catalog mode and every power and bus situation,
    [imx294_set_framing_limits] returns and leaves the timing state
    consistent: the stored vertical period is the mode's [default_VMAX],
    the stored horizontal period is at least the mode's [min_HMAX] (and is
    [default_HMAX] when the device is not in use), the vertical-blank
    control has the range [vblank_min .. vblank_max] of the mode with the
    value [default_VMAX * VMAX_scale - height], the horizontal-blank control
    has the range [0 .. 65535]; the mode, the format code and the streaming
    flags are untouched. *)
Theorem framing_limits_establish_timing (e : env) (w : world) :
  In (mode (dev w)) supported_modes_12bit ->
  let md := mode (dev w) in
  exists w',
    imx294_set_framing_limits e w = Some w'
    /\ timing_invariant w'
    /\ same_config w w'
    /\ VMAX (dev w') = default_VMAX md
    /\ (pm_runtime_get_if_in_use e = 0 -> HMAX (dev w') = default_HMAX md)
    /\ minimum (vblank (dev w')) = vblank_min md
    /\ maximum (vblank (dev w')) = vblank_max md
    /\ val (vblank (dev w')) = default_VMAX md * VMAX_scale md - height md
    /\ minimum (hblank (dev w')) = 0
    /\ maximum (hblank (dev w')) = IMX294_HMAX_MAX.
Proof.
  intros Hin md.
  destruct (framing_limits_run e w Hin)
    as (w' & Hrun & Hinv & Hsame & Hv & Hh & Hrest).
  exists w'. split; [exact Hrun |]. split; [exact Hinv |].
  split; [exact Hsame |]. split; [exact Hv |]. split; [exact Hh |].
  exact Hrest.
Qed.

Lemma framing_limits_establish_timing_witness :
  exists w',
    imx294_set_framing_limits env_bus_dead fresh_world = Some w'
    /\ timing_invariant w'
    /\ same_config fresh_world w'
    /\ VMAX (dev w') = default_VMAX mode_01
    /\ (pm_runtime_get_if_in_use env_bus_dead = 0 ->
        HMAX (dev w') = default_HMAX mode_01)
    /\ minimum (vblank (dev w')) = vblank_min mode_01
    /\ maximum (vblank (dev w')) = vblank_max mode_01
    /\ val (vblank (dev w'))
       = default_VMAX mode_01 * VMAX_scale mode_01 - height mode_01
    /\ minimum (hblank (dev w')) = 0
    /\ maximum (hblank (dev w')) = IMX294_HMAX_MAX.
Proof.
  apply (framing_limits_establish_timing env_bus_dead fresh_world).
  vm_compute. auto.
Defined.

End HandlerInvariantFacts.

(** ** Streaming *)

Section StreamingFacts.
Import Catalog V4L2 Driver Registers Streaming Invariants Scenarios.

Lemma set_common_regs_written_same (w : world) :
  common_regs_written (dev w) = true ->
  dev (set_common_regs_written true w) = dev w.
Proof. destruct w as [[] ?]. cbn. now intros ->. Qed.

Lemma set_common_regs_written_id (w : world) :
  dev (set_common_regs_written (common_regs_written (dev w)) w) = dev w.
Proof. now destruct w as [[] ?]. Qed.

Lemma write_regs_dev (e : env) (regs : list imx294_reg) (w : world) :
  dev (snd (imx294_write_regs e regs w)) = dev w.
Proof.
  revert w. induction regs as [| r rest IH]; intros w; [reflexivity |].
  cbn [imx294_write_regs].
  destruct (address r =? 0xFFFE); [apply IH |].
  rewrite write_reg_1byte_eq.
  destruct (negb _); [reflexivity |]. now rewrite IH.
Qed.

(** X12: when every transaction of the two blocks goes through,
    [imx294_start_streaming] has written the common block (only if it was
    not marked as written), then the register table of the active mode, in
    this order and with nothing in between, has marked the common block as
    written, and ends with the replay of the controls on that state, whose
    result it returns. *)
Theorem start_streaming_sequence (handler_setup : world -> option (Z * world))
    (e : env) (w : world) :
  (forall n, (length (i2c_log w) <= n
              < length (i2c_log w) + length (common_block w ++ mode_block w))%nat
             -> i2c_xfer_ok e n = true) ->
  imx294_start_streaming handler_setup e w
  = handler_setup
      (mk_world (dev (set_common_regs_written true w))
         (i2c_log w ++ common_block w ++ mode_block w)).
Proof.
  unfold common_block, mode_block, imx294_start_streaming,
    imx294_start_streaming_mode.
  rewrite length_app.
  destruct (common_regs_written (dev w)) eqn:Hcrw; cbn [negb]; intros Hok.
  - cbn [app length] in Hok |- *.
    destruct (write_regs_run e (reg_list (mode (dev w))) w
                (length (reg_writes (reg_list (mode (dev w))))))
      as [Hrun _].
    { intros j Hj. apply Hok. lia. }
    rewrite (Hrun eq_refl). cbn [Z.eqb negb].
    now rewrite set_common_regs_written_same.
  - destruct (write_regs_run e mode_common_regs w
                (length (reg_writes mode_common_regs))) as [Hrun _].
    { intros j Hj. apply Hok. lia. }
    rewrite (Hrun eq_refl). cbn [Z.eqb negb].
    set (w1 := set_common_regs_written true _).
    assert (Hlog1 : i2c_log w1 = i2c_log w ++ reg_writes mode_common_regs)
      by reflexivity.
    assert (Hmode1 : mode (dev w1) = mode (dev w)) by reflexivity.
    assert (Hdev1 : dev w1 = dev (set_common_regs_written true w))
      by reflexivity.
    clearbody w1.
    destruct (write_regs_run e (reg_list (mode (dev w1))) w1
                (length (reg_writes (reg_list (mode (dev w1))))))
      as [Hrun1 _].
    { intros j Hj. apply Hok. rewrite Hmode1 in Hj.
      rewrite Hlog1, length_app. lia. }
    rewrite (Hrun1 eq_refl). cbn [Z.eqb negb].
    now rewrite Hlog1, Hmode1, Hdev1, <- app_assoc.
Qed.

Lemma start_streaming_sequence_witness :
  imx294_start_streaming idle_handler_setup env_powered default_world
  = idle_handler_setup
      (mk_world (dev (set_common_regs_written true default_world))
         (i2c_log default_world
          ++ common_block default_world ++ mode_block default_world)).
Proof.
  apply (start_streaming_sequence idle_handler_setup env_powered
           default_world).
  intros n _. reflexivity.
Defined.

(** X13: [imx294_start_streaming] is fail-fast.  If transaction number [k]
    of the two blocks is the first one to fail, the function returns -EIO
    with exactly the first [k + 1] of those transactions on the bus and
    without replaying the controls; the common block is marked as written
    only if all of it went through. *)
Theorem start_streaming_fail_fast (handler_setup : world -> option (Z * world))
    (e : env) (w : world) (k : nat) :
  (k < length (common_block w ++ mode_block w))%nat ->
  (forall j, (j < k)%nat -> i2c_xfer_ok e (length (i2c_log w) + j) = true) ->
  i2c_xfer_ok e (length (i2c_log w) + k) = false ->
  imx294_start_streaming handler_setup e w
  = Some (- EIO,
          mk_world
            (dev (if (k <? length (common_block w))%nat then w
                  else set_common_regs_written true w))
            (i2c_log w ++ firstn (S k) (common_block w ++ mode_block w))).
Proof.
  unfold common_block, mode_block, imx294_start_streaming,
    imx294_start_streaming_mode.
  rewrite length_app.
  destruct (common_regs_written (dev w)) eqn:Hcrw; cbn [negb];
    intros Hk Hok Hfail.
  - cbn [app length] in Hk |- *.
    destruct (write_regs_run e (reg_list (mode (dev w))) w k Hok)
      as [_ Hrun].
    rewrite (Hrun Hk Hfail).
    change (negb (- EIO =? 0)) with true. cbn [Nat.ltb Nat.leb].
    now rewrite set_common_regs_written_same.
  - destruct (Nat.ltb_spec k (length (reg_writes mode_common_regs)))
      as [Hlt | Hge].
    + destruct (write_regs_run e mode_common_regs w k Hok) as [_ Hrun].
      rewrite (Hrun Hlt Hfail).
      change (negb (- EIO =? 0)) with true.
      rewrite firstn_app.
      replace (S k - length (reg_writes mode_common_regs))%nat with 0%nat
        by lia.
      cbn [firstn]. now rewrite app_nil_r.
    + destruct (write_regs_run e mode_common_regs w
                  (length (reg_writes mode_common_regs))) as [Hrun _].
      { intros j Hj. apply Hok. lia. }
      rewrite (Hrun eq_refl). cbn [Z.eqb negb].
      set (w1 := set_common_regs_written true _).
      assert (Hlog1 : i2c_log w1 = i2c_log w ++ reg_writes mode_common_regs)
        by reflexivity.
      assert (Hmode1 : mode (dev w1) = mode (dev w)) by reflexivity.
      assert (Hdev1 : dev w1 = dev (set_common_regs_written true w))
        by reflexivity.
      clearbody w1.
      destruct (write_regs_run e (reg_list (mode (dev w1))) w1
                  (k - length (reg_writes mode_common_regs)))
        as [_ Hrun1].
      { intros j Hj. rewrite Hlog1, length_app.
        rewrite <- Nat.add_assoc. apply Hok. lia. }
      rewrite Hrun1.
      * change (negb (- EIO =? 0)) with true.
        rewrite Hlog1, Hmode1, Hdev1.
        rewrite firstn_app.
        rewrite (firstn_all2 (reg_writes mode_common_regs)) by lia.
        rewrite <- app_assoc.
        replace (S k - length (reg_writes mode_common_regs))%nat
          with (S (k - length (reg_writes mode_common_regs))) by lia.
        reflexivity.
      * rewrite Hmode1. lia.
      * rewrite Hlog1, length_app.
        replace (length (i2c_log w) + length (reg_writes mode_common_regs)
                 + (k - length (reg_writes mode_common_regs)))%nat
          with (length (i2c_log w) + k)%nat by lia.
        exact Hfail.
Qed.

Lemma start_streaming_fail_fast_witness :
  imx294_start_streaming idle_handler_setup (env_bus_fails_at 2)
    default_world
  = Some (- EIO,
          mk_world
            (dev (if (2 <? length (common_block default_world))%nat
                  then default_world
                  else set_common_regs_written true default_world))
            (i2c_log default_world
             ++ firstn 3 (common_block default_world
                          ++ mode_block default_world))).
Proof.
  apply (start_streaming_fail_fast idle_handler_setup (env_bus_fails_at 2)
           default_world 2).
  - vm_compute. lia.
  - intros j Hj.
    assert (Hj' : j = 0%nat \/ j = 1%nat) by lia.
    destruct Hj' as [-> | ->]; reflexivity.
  - reflexivity.
Defined.

Lemma pm_balance_app (l l' : list pm_call) :
  pm_balance (l ++ l') = pm_balance l + pm_balance l'.
Proof.
  unfold pm_balance. induction l as [| c l IH]; cbn [app fold_right].
  - lia.
  - rewrite IH. destruct c; lia.
Qed.

Lemma set_common_regs_written_dev (b : bool) (w w' : world) :
  dev w' = dev w ->
  dev (set_common_regs_written b w') = dev (set_common_regs_written b w).
Proof. intros H. unfold set_common_regs_written, set_dev. cbn. now rewrite H. Qed.

(** [imx294_start_streaming] returns as soon as the replay of the controls
    returns on the device state at hand (whatever the bus log and the
    common-registers flag are by then); a property [Q] of the resulting
    state that the replay establishes and that depends neither on the log
    nor on that flag holds of the state the function leaves. *)
Lemma start_streaming_post (handler_setup : world -> option (Z * world))
    (e : env) (w : world) (Q : world -> Prop) :
  (forall b l, Q (mk_world (dev (set_common_regs_written b w)) l)) ->
  (forall b l, exists r x',
      handler_setup (mk_world (dev (set_common_regs_written b w)) l)
      = Some (r, x')
      /\ Q x') ->
  exists r w', imx294_start_streaming handler_setup e w = Some (r, w') /\ Q w'.
Proof.
  intros Hq Hhs.
  assert (Heta : forall x : world, x = mk_world (dev x) (i2c_log x))
    by now intros [].
  assert (Hmode : forall b x,
            dev x = dev (set_common_regs_written b w) ->
            exists r x',
              imx294_start_streaming_mode handler_setup e x = Some (r, x')
              /\ Q x').
  { intros b x Hx. unfold imx294_start_streaming_mode.
    pose proof (write_regs_dev e (reg_list (mode (dev x))) x) as Hd.
    destruct (imx294_write_regs e (reg_list (mode (dev x))) x)
      as [ret x1]. cbn [snd] in Hd.
    destruct (negb (ret =? 0)).
    - eexists _, _. split; [reflexivity |].
      rewrite (Heta x1), Hd, Hx. apply Hq.
    - destruct (Hhs b (i2c_log x1)) as (r & x' & Heq & Hs).
      rewrite <- Hx, <- Hd, <- Heta in Heq.
      rewrite Heq. eauto. }
  unfold imx294_start_streaming.
  destruct (common_regs_written (dev w)) eqn:Hcrw; cbn [negb].
  - apply (Hmode true). now rewrite set_common_regs_written_same.
  - pose proof (write_regs_dev e mode_common_regs w) as Hd.
    destruct (imx294_write_regs e mode_common_regs w) as [ret x1].
    cbn [snd] in Hd.
    destruct (negb (ret =? 0)).
    + eexists _, _. split; [reflexivity |].
      rewrite (Heta x1), Hd, <- (set_common_regs_written_id w). apply Hq.
    + apply (Hmode true). now apply set_common_regs_written_dev.
Qed.

Lemma start_streaming_total (handler_setup : world -> option (Z * world))
    (e : env) (w : world) :
  (forall b l, exists r x',
      handler_setup (mk_world (dev (set_common_regs_written b w)) l)
      = Some (r, x')
      /\ streaming (dev x') = streaming (dev w)) ->
  exists r w',
    imx294_start_streaming handler_setup e w = Some (r, w')
    /\ streaming (dev w') = streaming (dev w).
Proof.
  intros Hhs.
  apply (start_streaming_post handler_setup e w
           (fun x => streaming (dev x) = streaming (dev w)));
    [reflexivity | exact Hhs].
Qed.

(** X14: runtime-PM accounting of [imx294_set_stream].  Provided the
    replay of the controls returns on the device state at hand and leaves
    the streaming flag alone, a call with [enable] 0 or 1 returns, whatever
    [pm_runtime_get_sync] answers and whichever bus transactions fail; if
    the usage count the driver holds was 1 while streaming and 0 otherwise,
    this is again so afterwards.  When the call returns 0 the streaming flag
    is [enable]; when it returns an error the flag is unchanged. *)
Theorem set_stream_pm_balanced (handler_setup : world -> option (Z * world))
    (e : env) (get_sync enable : Z)
    (s : system) :
  (forall b l, exists r x',
      handler_setup
        (mk_world (dev (set_common_regs_written b (sys_world s))) l)
      = Some (r, x')
      /\ streaming (dev x') = streaming (dev (sys_world s))) ->
  enable = 0 \/ enable = 1 ->
  pm_balance (pm_calls s)
  = (if streaming (dev (sys_world s)) then 1 else 0) ->
  exists ret s',
    imx294_set_stream handler_setup e get_sync enable s = Some (ret, s')
    /\ pm_balance (pm_calls s')
       = (if streaming (dev (sys_world s')) then 1 else 0)
    /\ (ret = 0 -> streaming (dev (sys_world s')) = (enable =? 1))
    /\ (ret <> 0 ->
        streaming (dev (sys_world s')) = streaming (dev (sys_world s))).
Proof.
  intros Hhs Hen Hbal.
  pose proof (start_streaming_total handler_setup e (sys_world s) Hhs)
    as Hstart.
  clear Hhs. unfold imx294_set_stream.
  destruct (streaming (dev (sys_world s))) eqn:Hstr;
    destruct Hen as [-> | ->]; cbn [Z.eqb negb].
  - (* streaming, disable *)
    eexists _, _. split; [reflexivity |].
    cbn. rewrite pm_balance_app, Hbal. cbn. repeat split; auto; congruence.
  - (* streaming, enable: nothing to do *)
    eexists _, _. split; [reflexivity |]. rewrite Hstr.
    repeat split; auto.
  - (* idle, disable: nothing to do *)
    eexists _, _. split; [reflexivity |]. rewrite Hstr.
    repeat split; auto.
  - (* idle, enable *)
    destruct (Z.ltb_spec get_sync 0) as [Hneg | Hpos].
    + eexists _, _. split; [reflexivity |].
      cbn [sys_world pm_calls]. rewrite !pm_balance_app, Hbal, Hstr.
      cbn. repeat split; auto; lia.
    + destruct Hstart as (r & w' & -> & Hs).
      cbn [obind].
      destruct (Z.eqb_spec r 0) as [-> | Hr]; cbn [negb].
      * eexists _, _. split; [reflexivity |].
        cbn. rewrite pm_balance_app, Hbal. cbn.
        repeat split; auto; congruence.
      * eexists _, _. split; [reflexivity |].
        cbn [sys_world pm_calls]. rewrite !pm_balance_app, Hbal, Hs.
        cbn. repeat split; auto; congruence.
Qed.

Lemma set_stream_pm_balanced_witness :
  exists ret s',
    imx294_set_stream (__v4l2_ctrl_handler_setup env_powered 0)
      env_powered 1 1 idle_system = Some (ret, s')
    /\ pm_balance (pm_calls s')
       = (if streaming (dev (sys_world s')) then 1 else 0)
    /\ (ret = 0 -> streaming (dev (sys_world s')) = (1 =? 1))
    /\ (ret <> 0 ->
        streaming (dev (sys_world s'))
        = streaming (dev (sys_world idle_system))).
Proof.
  apply (set_stream_pm_balanced (__v4l2_ctrl_handler_setup env_powered 0)
           env_powered 1 1 idle_system).
  - intros b l. eexists _, _. split; vm_compute; reflexivity.
  - right. reflexivity.
  - reflexivity.
Defined.

(** X15: stopping cannot fail.  On a streaming device
    [imx294_set_stream] with [enable = 0] returns 0 whatever the bus does:
    it issues exactly one transaction, the standby write to the mode-select
    register, clears the streaming flag, drops its runtime-PM reference, and
    changes nothing else. *)
Theorem set_stream_disable (handler_setup : world -> option (Z * world))
    (e : env) (get_sync : Z) (s : system) :
  streaming (dev (sys_world s)) = true ->
  imx294_set_stream handler_setup e get_sync 0 s
  = Some (0,
          mk_system
            (set_streaming false
               (mk_world (dev (sys_world s))
                  (i2c_log (sys_world s)
                   ++ [buf_1byte IMX294_REG_MODE_SELECT
                         IMX294_MODE_STANDBY])))
            (pm_calls s ++ [PM_RUNTIME_PUT])).
Proof.
  intros Hs. unfold imx294_set_stream, imx294_stop_streaming.
  rewrite Hs. cbn [Z.eqb negb]. now rewrite write_reg_1byte_eq.
Qed.

Lemma set_stream_disable_witness :
  imx294_set_stream idle_handler_setup env_bus_dead 0 0 streaming_system
  = Some (0,
          mk_system
            (set_streaming false
               (mk_world (dev (sys_world streaming_system))
                  (i2c_log (sys_world streaming_system)
                   ++ [buf_1byte IMX294_REG_MODE_SELECT
                         IMX294_MODE_STANDBY])))
            (pm_calls streaming_system ++ [PM_RUNTIME_PUT])).
Proof.
  apply (set_stream_disable idle_handler_setup env_bus_dead 0
           streaming_system).
  reflexivity.
Defined.

(** X16: [imx294_resume] leaves a device that was not streaming alone
    and returns 0.  On a streaming device it restarts the stream with
    [imx294_start_streaming] and returns its result: if that is 0, the
    state is the one the restart left, with the streaming flag still set;
    if it is an error, one more transaction follows those of the restart,
    the standby write to the mode-select register, and the streaming flag
    is cleared.  (The restart returns provided the replay of the controls
    returns on the device state at hand.) *)
Theorem resume_outcome (handler_setup : world -> option (Z * world))
    (e : env) (w : world) :
  (forall b l, exists r x',
      handler_setup (mk_world (dev (set_common_regs_written b w)) l)
      = Some (r, x')
      /\ streaming (dev x') = streaming (dev w)) ->
  (streaming (dev w) = false ->
   imx294_resume handler_setup e w = Some (0, w))
  /\ (streaming (dev w) = true ->
      exists ret w1,
        imx294_start_streaming handler_setup e w = Some (ret, w1)
        /\ streaming (dev w1) = true
        /\ imx294_resume handler_setup e w
           = Some (ret,
                   if ret =? 0 then w1
                   else set_streaming false
                          (mk_world (dev w1)
                             (i2c_log w1
                              ++ [buf_1byte IMX294_REG_MODE_SELECT
                                    IMX294_MODE_STANDBY])))).
Proof.
  intros Hhs.
  pose proof (start_streaming_total handler_setup e w Hhs) as Hstart.
  clear Hhs. unfold imx294_resume. split.
  - intros ->. reflexivity.
  - intros Hstr. rewrite Hstr in *.
    destruct Hstart as (r & w1 & Heq & Hs).
    exists r, w1. split; [exact Heq |]. split; [exact Hs |].
    rewrite Heq. cbn [obind].
    destruct (Z.eqb_spec r 0) as [-> | Hr]; cbn [negb]; [reflexivity |].
    unfold imx294_stop_streaming. now rewrite write_reg_1byte_eq.
Qed.

Lemma resume_outcome_witness :
  (streaming (dev (sys_world streaming_system)) = false ->
   imx294_resume (__v4l2_ctrl_handler_setup env_powered 0) env_powered
     (sys_world streaming_system)
   = Some (0, sys_world streaming_system))
  /\ (streaming (dev (sys_world streaming_system)) = true ->
      exists ret w1,
        imx294_start_streaming (__v4l2_ctrl_handler_setup env_powered 0)
          env_powered (sys_world streaming_system) = Some (ret, w1)
        /\ streaming (dev w1) = true
        /\ imx294_resume (__v4l2_ctrl_handler_setup env_powered 0)
             env_powered (sys_world streaming_system)
           = Some (ret,
                   if ret =? 0 then w1
                   else set_streaming false
                          (mk_world (dev w1)
                             (i2c_log w1
                              ++ [buf_1byte IMX294_REG_MODE_SELECT
                                    IMX294_MODE_STANDBY])))).
Proof.
  apply (resume_outcome (__v4l2_ctrl_handler_setup env_powered 0)
           env_powered (sys_world streaming_system)).
  intros b l. eexists _, _. split; vm_compute; reflexivity.
Defined.

(** A restart that fails: the first transaction of the mode table is
    refused, the resume returns -EIO, the standby write follows and the
    streaming flag is cleared. *)
Lemma resume_failure_example :
  exists w',
    imx294_resume (__v4l2_ctrl_handler_setup (env_bus_fails_at 0) 0)
      (env_bus_fails_at 0) (sys_world streaming_system)
    = Some (- EIO, w')
    /\ streaming (dev w') = false
    /\ length (i2c_log w') = 2%nat
    /\ last (i2c_log w') []
       = buf_1byte IMX294_REG_MODE_SELECT IMX294_MODE_STANDBY.
Proof.
  eexists. split; [vm_compute; reflexivity |].
  repeat split; vm_compute; reflexivity.
Qed.


(** The replay of the controls on a state that satisfies the timing
    invariant and whose blanking controls hold values of their range: each
    of the four calls of [imx294_set_ctrl] returns and keeps the invariant,
    so the replay returns, whichever call ends it; all it puts on the bus
    goes to control registers. *)
Lemma handler_setup_ok (e : env) (analogue_gain : Z) (w : world) :
  timing_invariant w ->
  controls_in_range w ->
  exists r w',
    __v4l2_ctrl_handler_setup e analogue_gain w = Some (r, w')
    /\ timing_invariant w' /\ same_config w w'
    /\ appends_only to_control_register w w'.
Proof.
  intros Hinv [Hv Hh]. unfold __v4l2_ctrl_handler_setup.
  assert (Htrans : forall a b c, same_config a b -> same_config b c ->
                                 same_config a c).
  { unfold same_config. intros a b c (? & ? & ? & ?) (? & ? & ? & ?).
    repeat split; congruence. }
  (* vertical blank *)
  set (w1 := set_vblank _ w).
  assert (Hinv1 : timing_invariant w1) by exact Hinv.
  assert (Hs1 : same_config w w1) by (repeat split).
  destruct (set_ctrl_frame e V4L2_CID_VBLANK (cur_val (vblank (dev w1))) w1
              Hinv1 Hv)
    as (r1 & x1 & -> & Hi1 & Hc1 & Hhb1 & Hl1).
  cbn [obind].
  assert (Hs1' : same_config w x1) by (apply (Htrans _ w1); assumption).
  assert (Hl1' : appends_only to_control_register w x1) by exact Hl1.
  destruct (negb (r1 =? 0)); [eauto 8 |].
  (* horizontal blank *)
  set (w2 := set_hblank _ x1).
  assert (Hinv2 : timing_invariant w2) by exact Hi1.
  assert (Hh2 : legal_value (mode (dev w2)) V4L2_CID_HBLANK
                  (cur_val (hblank (dev w2)))).
  { cbn. rewrite Hhb1. exact Hh. }
  destruct (set_ctrl_frame e V4L2_CID_HBLANK (cur_val (hblank (dev w2))) w2
              Hinv2 Hh2)
    as (r2 & x2 & -> & Hi2 & Hc2 & _ & Hl2).
  cbn [obind].
  assert (Hs2' : same_config w x2).
  { apply (Htrans _ x1); [assumption |].
    apply (Htrans _ w2); [repeat split | assumption]. }
  assert (Hl2' : appends_only to_control_register w x2).
  { apply (appends_only_trans _ _ x1); [assumption | exact Hl2]. }
  destruct (negb (r2 =? 0)); [eauto 8 |].
  (* exposure *)
  set (w3 := set_exposure _ x2).
  assert (Hinv3 : timing_invariant w3) by exact Hi2.
  destruct (set_ctrl_frame e V4L2_CID_EXPOSURE (cur_val (exposure (dev w3)))
              w3 Hinv3 I)
    as (r3 & x3 & -> & Hi3 & Hc3 & _ & Hl3).
  cbn [obind].
  assert (Hs3' : same_config w x3).
  { apply (Htrans _ x2); [assumption |].
    apply (Htrans _ w3); [repeat split | assumption]. }
  assert (Hl3' : appends_only to_control_register w x3).
  { apply (appends_only_trans _ _ x2); [assumption | exact Hl3]. }
  destruct (negb (r3 =? 0)); [eauto 8 |].
  (* analogue gain *)
  destruct (set_ctrl_frame e V4L2_CID_ANALOGUE_GAIN analogue_gain x3 Hi3 I)
    as (r4 & x4 & -> & Hi4 & Hc4 & _ & Hl4).
  exists r4, x4. split; [reflexivity |]. split; [assumption |].
  split; [apply (Htrans _ x3); assumption |].
  apply (appends_only_trans _ _ x3); assumption.
Qed.

(** The log [imx294_write_regs] leaves is the old one followed by a
    prefix of the list's writes. *)
Lemma write_regs_log (e : env) (regs : list imx294_reg) (w : world) :
  exists j,
    i2c_log (snd (imx294_write_regs e regs w))
    = i2c_log w ++ firstn j (reg_writes regs).
Proof.
  revert w. induction regs as [| r rest IH]; intros w.
  - exists 0%nat. cbn. now rewrite app_nil_r.
  - cbn [imx294_write_regs]. rewrite reg_writes_cons.
    destruct (address r =? 0xFFFE); [apply IH |].
    rewrite write_reg_1byte_eq.
    destruct (negb _).
    + exists 1%nat. reflexivity.
    + destruct (IH (mk_world (dev w)
                      (i2c_log w ++ [buf_1byte (address r) (val r)])))
        as [j Hj].
      exists (S j). rewrite Hj. cbn [i2c_log firstn].
      now rewrite <- app_assoc.
Qed.

Lemma Forall_firstn {A : Type} (P : A -> Prop) (n : nat) (l : list A) :
  Forall P l -> Forall P (firstn n l).
Proof.
  revert n. induction l as [| a l IH]; intros [| n] H; cbn;
    try apply Forall_nil.
  inversion H; subst. apply Forall_cons; auto.
Qed.

(** No register table of a catalog mode holds a write to the mode-select
    register; the common table does, and the last one releases standby. *)
Lemma mode_tables_leave_mode_select (md : imx294_mode) :
  In md supported_modes_12bit ->
  Forall (fun b => reg_address b <> IMX294_REG_MODE_SELECT)
    (reg_writes (reg_list md)).
Proof.
  intros Hin.
  destruct (catalog_cases md Hin) as [-> | [-> | [-> | ->]]];
    apply Forall_forall; intros b Hb; vm_compute in Hb;
    repeat (destruct Hb as [<- | Hb]; [vm_compute; discriminate |]);
    contradiction.
Qed.

Lemma common_table_releases_standby :
  last (filter (fun r => address r =? IMX294_REG_MODE_SELECT)
          mode_common_regs) (mk_reg 0 0)
  = mk_reg IMX294_REG_MODE_SELECT IMX294_MODE_STREAMING.
Proof. vm_compute. reflexivity. Qed.

Lemma control_register_not_mode_select (b : list Z) :
  to_control_register b -> reg_address b <> IMX294_REG_MODE_SELECT.
Proof.
  unfold to_control_register. intros H Heq. rewrite Heq in H.
  cbn in H.
  repeat (destruct H as [H | H]; [discriminate H |]).
  contradiction.
Qed.

(** The second half of [imx294_start_streaming], from a consistent state:
    it returns, keeps the state consistent, and writes nothing to the
    mode-select register. *)
Lemma start_streaming_mode_consistent (e : env) (analogue_gain : Z)
    (x : world) :
  timing_invariant x ->
  controls_in_range x ->
  exists r x',
    imx294_start_streaming_mode (__v4l2_ctrl_handler_setup e analogue_gain)
      e x = Some (r, x')
    /\ timing_invariant x'
    /\ same_config x x'
    /\ appends_only (fun b => reg_address b <> IMX294_REG_MODE_SELECT) x x'.
Proof.
  intros Hinv Hrange. unfold imx294_start_streaming_mode.
  pose proof (write_regs_dev e (reg_list (mode (dev x))) x) as Hd.
  destruct (write_regs_log e (reg_list (mode (dev x))) x) as [j Hj].
  destruct (imx294_write_regs e (reg_list (mode (dev x))) x) as [ret x1].
  cbn [snd] in Hd, Hj.
  assert (Htab : appends_only
                   (fun b => reg_address b <> IMX294_REG_MODE_SELECT) x x1).
  { exists (firstn j (reg_writes (reg_list (mode (dev x))))).
    split; [exact Hj |].
    apply Forall_firstn, mode_tables_leave_mode_select, Hinv. }
  assert (Hinv1 : timing_invariant x1).
  { unfold timing_invariant. rewrite Hd. exact Hinv. }
  assert (Hrange1 : controls_in_range x1).
  { unfold controls_in_range. rewrite Hd. exact Hrange. }
  assert (Hs1 : same_config x x1).
  { unfold same_config. rewrite Hd. repeat split. }
  destruct (negb (ret =? 0)); [eauto 6 |].
  destruct (handler_setup_ok e analogue_gain x1 Hinv1 Hrange1)
    as (r & x' & -> & Hi & Hs & (l & Hl & Hf)).
  exists r, x'. split; [reflexivity |]. split; [exact Hi |]. split.
  - unfold same_config in *. rewrite Hd in Hs. exact Hs.
  - apply (appends_only_trans _ _ x1); [exact Htab |].
    exists l. split; [exact Hl |].
    eapply Forall_impl; [| exact Hf].
    apply control_register_not_mode_select.
Qed.

(** [imx294_start_streaming] with the framework's replay of the controls,
    from a consistent state: it returns and keeps the state consistent; if
    the common block is skipped, nothing is written to the mode-select
    register. *)
Lemma start_streaming_consistent (e : env) (analogue_gain : Z) (w : world) :
  timing_invariant w ->
  controls_in_range w ->
  exists r w',
    imx294_start_streaming (__v4l2_ctrl_handler_setup e analogue_gain) e w
    = Some (r, w')
    /\ timing_invariant w'
    /\ mode (dev w') = mode (dev w)
    /\ fmt_code (dev w') = fmt_code (dev w)
    /\ streaming (dev w') = streaming (dev w)
    /\ (common_regs_written (dev w) = true ->
        appends_only (fun b => reg_address b <> IMX294_REG_MODE_SELECT)
          w w').
Proof.
  intros Hinv Hrange. unfold imx294_start_streaming.
  destruct (common_regs_written (dev w)) eqn:Hcrw; cbn [negb].
  - destruct (start_streaming_mode_consistent e analogue_gain w Hinv Hrange)
      as (r & w' & -> & Hi & (Hm & Hf & Hs & _) & Hl).
    exists r, w'. auto 8.
  - pose proof (write_regs_dev e mode_common_regs w) as Hd.
    destruct (imx294_write_regs e mode_common_regs w) as [ret x0].
    cbn [snd] in Hd.
    destruct (negb (ret =? 0)).
    + exists ret, x0. split; [reflexivity |].
      unfold timing_invariant. rewrite Hd.
      repeat split; try apply Hinv. discriminate.
    + set (x1 := set_common_regs_written true x0).
      assert (Hinv1 : timing_invariant x1).
      { unfold timing_invariant, x1. cbn. rewrite Hd. exact Hinv. }
      assert (Hrange1 : controls_in_range x1).
      { unfold controls_in_range, x1. cbn. rewrite Hd. exact Hrange. }
      destruct (start_streaming_mode_consistent e analogue_gain x1
                  Hinv1 Hrange1)
        as (r & w' & -> & Hi & (Hm & Hf & Hs & _) & _).
      exists r, w'. split; [reflexivity |]. split; [exact Hi |].
      unfold x1 in Hm, Hf, Hs. cbn in Hm, Hf, Hs. rewrite Hd in Hm, Hf, Hs.
      repeat split; try assumption. discriminate.
Qed.

(** X21: starting the stream from a consistent state cannot trap and
    keeps the state consistent.  If the timing invariant holds and the
    blanking controls hold values of their range, [imx294_start_streaming]
    with the framework's replay of the controls returns, whichever bus
    transactions fail, and leaves a state that satisfies the timing
    invariant, with the mode, the format code and the streaming flag
    unchanged. *)
Theorem start_streaming_keeps_invariant (e : env) (analogue_gain : Z)
    (w : world) :
  timing_invariant w ->
  controls_in_range w ->
  exists r w',
    imx294_start_streaming (__v4l2_ctrl_handler_setup e analogue_gain) e w
    = Some (r, w')
    /\ timing_invariant w'
    /\ mode (dev w') = mode (dev w)
    /\ fmt_code (dev w') = fmt_code (dev w)
    /\ streaming (dev w') = streaming (dev w).
Proof.
  intros Hinv Hrange.
  destruct (start_streaming_consistent e analogue_gain w Hinv Hrange)
    as (r & w' & Heq & Hi & Hm & Hf & Hs & _).
  exists r, w'. auto.
Qed.

Lemma start_streaming_keeps_invariant_witness :
  exists r w',
    imx294_start_streaming
      (__v4l2_ctrl_handler_setup (env_bus_fails_at 250) 0)
      (env_bus_fails_at 250) default_world
    = Some (r, w')
    /\ timing_invariant w'
    /\ mode (dev w') = mode (dev default_world)
    /\ fmt_code (dev w') = fmt_code (dev default_world)
    /\ streaming (dev w') = streaming (dev default_world).
Proof.
  apply (start_streaming_keeps_invariant (env_bus_fails_at 250) 0
           default_world).
  - vm_compute. repeat split; auto; discriminate.
  - vm_compute. repeat split; discriminate.
Defined.

(** X22: a start that skips the common block never releases standby.  If
    the common block is marked as written (as it still is after
    [imx294_stop_streaming], which writes standby to the mode-select
    register, until [imx294_power_off] runs), then
    [imx294_start_streaming] from a consistent state returns, and none of
    the transactions it puts on the bus, by the mode table or by the replay
    of the controls, is a write to the mode-select register. *)
Theorem restart_never_writes_mode_select (e : env) (analogue_gain : Z)
    (w : world) :
  timing_invariant w ->
  controls_in_range w ->
  common_regs_written (dev w) = true ->
  exists r w',
    imx294_start_streaming (__v4l2_ctrl_handler_setup e analogue_gain) e w
    = Some (r, w')
    /\ appends_only (fun b => reg_address b <> IMX294_REG_MODE_SELECT) w w'.
Proof.
  intros Hinv Hrange Hcrw.
  destruct (start_streaming_consistent e analogue_gain w Hinv Hrange)
    as (r & w' & Heq & _ & _ & _ & _ & Hlog).
  exists r, w'. split; [exact Heq | exact (Hlog Hcrw)].
Qed.

Lemma restart_never_writes_mode_select_witness :
  exists r w',
    imx294_start_streaming (__v4l2_ctrl_handler_setup env_powered 0)
      env_powered (set_common_regs_written true default_world)
    = Some (r, w')
    /\ appends_only (fun b => reg_address b <> IMX294_REG_MODE_SELECT)
         (set_common_regs_written true default_world) w'.
Proof.
  apply (restart_never_writes_mode_select env_powered 0
           (set_common_regs_written true default_world)).
  - vm_compute. repeat split; auto; discriminate.
  - vm_compute. repeat split; discriminate.
  - reflexivity.
Defined.

(** X23: system suspend followed by resume leaves the stream in
    standby.  On a streaming device in a consistent state whose common
    block is marked as written, [imx294_suspend] writes standby to the
    mode-select register and [imx294_resume] then returns; every write to
    the mode-select register made from the suspend on is a standby write,
    also when the resume returns 0 and keeps the streaming flag set. *)
Theorem suspend_resume_stays_in_standby (e : env) (analogue_gain : Z)
    (w : world) :
  timing_invariant w ->
  controls_in_range w ->
  streaming (dev w) = true ->
  common_regs_written (dev w) = true ->
  let standby := buf_1byte IMX294_REG_MODE_SELECT IMX294_MODE_STANDBY in
  exists r w' l,
    imx294_resume (__v4l2_ctrl_handler_setup e analogue_gain) e
      (snd (imx294_suspend e w)) = Some (r, w')
    /\ i2c_log w' = i2c_log w ++ standby :: l
    /\ Forall (fun b => reg_address b = IMX294_REG_MODE_SELECT ->
                        b = standby) l
    /\ (r = 0 -> streaming (dev w') = true).
Proof.
  intros Hinv Hrange Hstr Hcrw standby.
  unfold imx294_suspend. rewrite Hstr. cbn [snd].
  unfold imx294_stop_streaming at 1. rewrite write_reg_1byte_eq. cbn [snd].
  fold standby.
  set (w1 := mk_world (dev w) (i2c_log w ++ [standby])).
  unfold imx294_resume.
  change (streaming (dev w1)) with (streaming (dev w)). rewrite Hstr.
  destruct (start_streaming_consistent e analogue_gain w1 Hinv Hrange)
    as (r & x' & -> & _ & _ & _ & Hs & Hlog).
  destruct (Hlog Hcrw) as (l & Hl & Hf). cbn [i2c_log w1] in Hl.
  cbn [obind].
  assert (Himp : Forall (fun b => reg_address b = IMX294_REG_MODE_SELECT ->
                                  b = standby) l).
  { eapply Forall_impl; [| exact Hf]. intros b Hb Heq. contradiction. }
  destruct (Z.eqb_spec r 0) as [-> | Hr]; cbn [negb].
  - exists 0, x', l. split; [reflexivity |].
    split; [now rewrite Hl, <- app_assoc |].
    split; [exact Himp |]. intros _. now rewrite Hs.
  - unfold imx294_stop_streaming. rewrite write_reg_1byte_eq. cbn [snd].
    fold standby.
    exists r, (set_streaming false
                 (mk_world (dev x') (i2c_log x' ++ [standby]))),
      (l ++ [standby]).
    split; [reflexivity |].
    split; [cbn; now rewrite Hl, <- !app_assoc |].
    split; [| intros; contradiction].
    apply Forall_app. split; [exact Himp |].
    apply Forall_cons; [reflexivity | apply Forall_nil].
Qed.

Lemma suspend_resume_stays_in_standby_witness :
  let standby := buf_1byte IMX294_REG_MODE_SELECT IMX294_MODE_STANDBY in
  exists r w' l,
    imx294_resume (__v4l2_ctrl_handler_setup env_powered 0) env_powered
      (snd (imx294_suspend env_powered (sys_world streaming_system)))
    = Some (r, w')
    /\ i2c_log w' = i2c_log (sys_world streaming_system) ++ standby :: l
    /\ Forall (fun b => reg_address b = IMX294_REG_MODE_SELECT ->
                        b = standby) l
    /\ (r = 0 -> streaming (dev w') = true).
Proof.
  apply (suspend_resume_stays_in_standby env_powered 0
           (sys_world streaming_system)).
  - vm_compute. repeat split; auto; discriminate.
  - vm_compute. repeat split; discriminate.
  - reflexivity.
  - reflexivity.
Defined.

(** On that input the resume does succeed: the driver reports a running
    stream while the last word on the mode-select register is standby. *)
Lemma suspend_resume_reports_streaming :
  exists w',
    imx294_resume (__v4l2_ctrl_handler_setup env_powered 0) env_powered
      (snd (imx294_suspend env_powered (sys_world streaming_system)))
    = Some (0, w')
    /\ streaming (dev w') = true
    /\ last (filter (fun b => reg_address b =? IMX294_REG_MODE_SELECT)
               (i2c_log w')) []
       = buf_1byte IMX294_REG_MODE_SELECT IMX294_MODE_STANDBY.
Proof.
  eexists. split; [vm_compute; reflexivity |].
  split; vm_compute; reflexivity.
Qed.

End StreamingFacts.

(** ** Pad formats *)

Section PadFormatFacts.
Import Catalog V4L2 Driver Registers Pads Invariants Scenarios.

Lemma mode_eqb_eq (a b : imx294_mode) : mode_eqb a b = true <-> a = b.
Proof.
  split.
  - unfold mode_eqb, rect_eqb. rewrite !andb_true_iff, !Z.eqb_eq.
    destruct a as [? ? ? ? ? ? ? ? ? []], b as [? ? ? ? ? ? ? ? ? []].
    cbn. intuition congruence.
  - intros <-. unfold mode_eqb, rect_eqb.
    now rewrite !Z.eqb_refl.
Qed.

(** The image-pad branch of [imx294_set_pad_format] for a supported code
    and a catalog entry found by the size search. *)
Lemma set_pad_format_image (find_nearest_size :
      list imx294_mode -> Z -> Z -> option imx294_mode)
    (e : env) (which : whence) (f : v4l2_mbus_framefmt) (w : world)
    (md : imx294_mode) :
  In (code f) codes ->
  find_nearest_size supported_modes_12bit (fmt_width f) (fmt_height f)
  = Some md ->
  imx294_set_pad_format find_nearest_size e IMAGE_PAD which f w
  = let f' := mk_fmt (width md) (height md) (code f) in
    match which with
    | V4L2_SUBDEV_FORMAT_TRY => Some (mk_set_fmt_result 0 f' (Some f') w)
    | V4L2_SUBDEV_FORMAT_ACTIVE =>
        if negb (mode_eqb (mode (dev w)) md) then
          w <- imx294_set_framing_limits e (set_mode_and_code md (code f) w) ;;
          Some (mk_set_fmt_result 0 f' None w)
        else Some (mk_set_fmt_result 0 f' None w)
    end.
Proof.
  intros Hc Hfind. unfold imx294_set_pad_format.
  change (NUM_PADS <=? IMAGE_PAD) with false.
  change (IMAGE_PAD =? IMAGE_PAD) with true. cbv iota.
  destruct (imx294_get_format_code_cases (code f)) as [Hcode _].
  rewrite (Hcode Hc). cbn [obind code fmt_width fmt_height].
  destruct (get_mode_table_cases (code f)) as [[_ ->] | [Hn _]];
    [| contradiction].
  rewrite Hfind. reflexivity.
Qed.

(** X17: an active format request on the image pad whose nearest catalog
    mode differs from the active one is never refused (the streaming flag
    is not consulted): it returns 0 with the size of that mode and the
    requested code, makes the mode active, stores the code, and leaves the
    timing state as [imx294_set_framing_limits] establishes it for the new
    mode; the streaming and common-registers flags are untouched. *)
Theorem set_pad_format_switches_mode
    (find_nearest_size : list imx294_mode -> Z -> Z -> option imx294_mode)
    (e : env) (f : v4l2_mbus_framefmt) (w : world) (md : imx294_mode) :
  In (code f) codes ->
  find_nearest_size supported_modes_12bit (fmt_width f) (fmt_height f)
  = Some md ->
  In md supported_modes_12bit ->
  mode (dev w) <> md ->
  exists w',
    imx294_set_pad_format find_nearest_size e IMAGE_PAD
      V4L2_SUBDEV_FORMAT_ACTIVE f w
    = Some (mk_set_fmt_result 0
              (mk_fmt (width md) (height md) (code f)) None w')
    /\ mode (dev w') = md
    /\ fmt_code (dev w') = code f
    /\ timing_invariant w'
    /\ VMAX (dev w') = default_VMAX md
    /\ streaming (dev w') = streaming (dev w)
    /\ common_regs_written (dev w') = common_regs_written (dev w).
Proof.
  intros Hc Hfind Hin Hne.
  rewrite (set_pad_format_image _ e _ f w md Hc Hfind). cbv zeta.
  destruct (mode_eqb (mode (dev w)) md) eqn:Heq;
    [apply mode_eqb_eq in Heq; contradiction |].
  cbn [negb].
  destruct (framing_limits_run e (set_mode_and_code md (code f) w) Hin)
    as (w' & Hrun & Hinv & (Hm & Hf & Hs & Hcr) & Hv & _).
  rewrite Hrun. cbn [obind]. exists w'.
  split; [reflexivity |]. cbn in Hm, Hf, Hs, Hcr, Hv. auto 10.
Qed.

Lemma set_pad_format_switches_mode_witness :
  exists w',
    imx294_set_pad_format v4l2_find_nearest_size env_powered IMAGE_PAD
      V4L2_SUBDEV_FORMAT_ACTIVE
      (mk_fmt 3700 2800 MEDIA_BUS_FMT_SRGGB12_1X12) default_world
    = Some (mk_set_fmt_result 0
              (mk_fmt (width mode_00) (height mode_00)
                 (code (mk_fmt 3700 2800 MEDIA_BUS_FMT_SRGGB12_1X12)))
              None w')
    /\ mode (dev w') = mode_00
    /\ fmt_code (dev w')
       = code (mk_fmt 3700 2800 MEDIA_BUS_FMT_SRGGB12_1X12)
    /\ timing_invariant w'
    /\ VMAX (dev w') = default_VMAX mode_00
    /\ streaming (dev w') = streaming (dev default_world)
    /\ common_regs_written (dev w')
       = common_regs_written (dev default_world).
Proof.
  apply (set_pad_format_switches_mode v4l2_find_nearest_size env_powered
           (mk_fmt 3700 2800 MEDIA_BUS_FMT_SRGGB12_1X12) default_world
           mode_00).
  - cbn. auto.
  - vm_compute. reflexivity.
  - cbn. auto.
  - vm_compute. discriminate.
Defined.

(** X18: an active format request on the image pad, for a supported code
    and a catalog mode found by the size search, returns 0 with the size of
    that mode and the requested code.  A following active query returns the
    same size; the code it returns is the requested one only if the request
    changed the mode: if the mode stayed the same the code stored before is
    kept and returned. *)
Theorem set_then_get_pad_format
    (find_nearest_size : list imx294_mode -> Z -> Z -> option imx294_mode)
    (e : env) (f : v4l2_mbus_framefmt) (w : world) (md : imx294_mode) :
  In (code f) codes ->
  In (fmt_code (dev w)) codes ->
  find_nearest_size supported_modes_12bit (fmt_width f) (fmt_height f)
  = Some md ->
  In md supported_modes_12bit ->
  exists r,
    imx294_set_pad_format find_nearest_size e IMAGE_PAD
      V4L2_SUBDEV_FORMAT_ACTIVE f w = Some r
    /\ sf_ret r = 0
    /\ sf_format r = mk_fmt (width md) (height md) (code f)
    /\ forall try_fmt g,
        imx294_get_pad_format IMAGE_PAD V4L2_SUBDEV_FORMAT_ACTIVE try_fmt g
          (sf_world r)
        = Some (0, mk_fmt (width md) (height md)
                     (if mode_eqb (mode (dev w)) md then fmt_code (dev w)
                      else code f)).
Proof.
  intros Hc Hold Hfind Hin.
  rewrite (set_pad_format_image _ e _ f w md Hc Hfind). cbv zeta.
  assert (Hget : forall x c,
            mode (dev x) = md -> fmt_code (dev x) = c -> In c codes ->
            forall try_fmt g,
              imx294_get_pad_format IMAGE_PAD V4L2_SUBDEV_FORMAT_ACTIVE
                try_fmt g x
              = Some (0, mk_fmt (width md) (height md) c)).
  { intros x c Hm Hf Hcin try_fmt g. unfold imx294_get_pad_format.
    change (NUM_PADS <=? IMAGE_PAD) with false.
    change (IMAGE_PAD =? IMAGE_PAD) with true. cbv iota.
    rewrite Hm, Hf.
    destruct (imx294_get_format_code_cases c) as [Hcode _].
    rewrite (Hcode Hcin). reflexivity. }
  destruct (mode_eqb (mode (dev w)) md) eqn:Heq; cbn [negb].
  - apply mode_eqb_eq in Heq.
    eexists. split; [reflexivity |]. cbn [sf_ret sf_format sf_world].
    split; [reflexivity |]. split; [reflexivity |].
    now apply Hget.
  - destruct (framing_limits_run e (set_mode_and_code md (code f) w) Hin)
      as (w' & Hrun & _ & (Hm & Hf & _) & _).
    rewrite Hrun. cbn [obind].
    eexists. split; [reflexivity |]. cbn [sf_ret sf_format sf_world].
    split; [reflexivity |]. split; [reflexivity |].
    cbn in Hm, Hf. now apply Hget.
Qed.

Lemma set_then_get_pad_format_witness :
  exists r,
    imx294_set_pad_format v4l2_find_nearest_size env_unpowered IMAGE_PAD
      V4L2_SUBDEV_FORMAT_ACTIVE
      (mk_fmt 4144 2184 MEDIA_BUS_FMT_SRGGB12_1X12) default_world = Some r
    /\ sf_ret r = 0
    /\ sf_format r
       = mk_fmt (width mode_01) (height mode_01)
           (code (mk_fmt 4144 2184 MEDIA_BUS_FMT_SRGGB12_1X12))
    /\ forall try_fmt g,
        imx294_get_pad_format IMAGE_PAD V4L2_SUBDEV_FORMAT_ACTIVE try_fmt g
          (sf_world r)
        = Some (0, mk_fmt (width mode_01) (height mode_01)
                     (if mode_eqb (mode (dev default_world)) mode_01
                      then fmt_code (dev default_world)
                      else code (mk_fmt 4144 2184
                                   MEDIA_BUS_FMT_SRGGB12_1X12))).
Proof.
  apply (set_then_get_pad_format v4l2_find_nearest_size env_unpowered
           (mk_fmt 4144 2184 MEDIA_BUS_FMT_SRGGB12_1X12) default_world
           mode_01).
  - cbn. auto.
  - vm_compute. auto.
  - vm_compute. reflexivity.
  - cbn. auto.
Defined.

(** The code of a request that keeps the mode is acknowledged but not
    stored: after asking for RGGB in the default state (GBRG stored), the
    request hands back RGGB and the query still answers GBRG. *)
Lemma set_pad_format_code_not_stored :
  exists r,
    imx294_set_pad_format v4l2_find_nearest_size env_unpowered IMAGE_PAD
      V4L2_SUBDEV_FORMAT_ACTIVE
      (mk_fmt 4144 2184 MEDIA_BUS_FMT_SRGGB12_1X12) default_world = Some r
    /\ code (sf_format r) = MEDIA_BUS_FMT_SRGGB12_1X12
    /\ imx294_get_pad_format IMAGE_PAD V4L2_SUBDEV_FORMAT_ACTIVE
         (mk_fmt 0 0 0) (mk_fmt 0 0 0) (sf_world r)
       = Some (0, mk_fmt 4144 2184 MEDIA_BUS_FMT_SGBRG12_1X12).
Proof.
  eexists. split; [vm_compute; reflexivity |].
  split; vm_compute; reflexivity.
Qed.

(** X19: what [imx294_set_pad_format] leaves alone.  On any pad other
    than the image pad it returns (-EINVAL for a pad index of 2 or more, 0
    on the metadata pad) without touching the driver state or the bus; and
    a TRY request, on any pad, never changes the driver state: when it
    succeeds it only stores the format it hands back as the pad's try
    format. *)
Theorem set_pad_format_keeps_state
    (find_nearest_size : list imx294_mode -> Z -> Z -> option imx294_mode)
    (e : env) (pad : Z) (which : whence) (f : v4l2_mbus_framefmt)
    (w : world) :
  (pad <> IMAGE_PAD ->
   exists r,
     imx294_set_pad_format find_nearest_size e pad which f w = Some r
     /\ sf_world r = w
     /\ sf_ret r = (if NUM_PADS <=? pad then - EINVAL else 0))
  /\ (forall r,
        imx294_set_pad_format find_nearest_size e pad
          V4L2_SUBDEV_FORMAT_TRY f w = Some r ->
        sf_world r = w
        /\ (sf_ret r = 0 -> sf_try r = Some (sf_format r))).
Proof.
  split.
  - intros Hne. unfold imx294_set_pad_format.
    destruct (NUM_PADS <=? pad).
    + eexists. repeat split.
    + destruct (Z.eqb_spec pad IMAGE_PAD); [contradiction |].
      destruct which; eexists; repeat split.
  - intros r. unfold imx294_set_pad_format.
    destruct (NUM_PADS <=? pad).
    + intros [= <-]. cbn. split; [reflexivity | discriminate].
    + destruct (pad =? IMAGE_PAD).
      * destruct (imx294_get_format_code (code f)) as [c |];
          [| discriminate].
        cbn [obind].
        destruct (find_nearest_size _ _ _) as [md |]; [| discriminate].
        cbn [obind]. intros [= <-]. cbn. auto.
      * intros [= <-]. cbn. auto.
Qed.

End PadFormatFacts.

(** ** Probe *)

Section ProbeOutcome.
Import Catalog V4L2 Driver Invariants Scenarios.

(** [imx294_init_controls] returns in every situation: the framing limits
    are set for the default mode, which is a catalog entry. *)
Lemma init_controls_total (p : probe_env) (e : env) :
  exists ret w',
    imx294_init_controls p e
      (mk_world (imx294_set_default_format kzalloc_imx294) [])
    = Some (ret, w')
    /\ (ret = 0 <->
        v4l2_ctrl_handler_init p = 0 /\ ctrl_hdlr_error p = 0
        /\ v4l2_fwnode_device_parse p = 0
        /\ v4l2_ctrl_new_fwnode_properties p = 0).
Proof.
  unfold imx294_init_controls.
  destruct (Z.eqb_spec (v4l2_ctrl_handler_init p) 0) as [H1 | H1];
    cbn [negb]; [| eexists _, _; split; [reflexivity | tauto]].
  destruct (Z.eqb_spec (ctrl_hdlr_error p) 0) as [H2 | H2];
    cbn [negb]; [| eexists _, _; split; [reflexivity | tauto]].
  destruct (Z.eqb_spec (v4l2_fwnode_device_parse p) 0) as [H3 | H3];
    cbn [negb]; [| eexists _, _; split; [reflexivity | tauto]].
  destruct (Z.eqb_spec (v4l2_ctrl_new_fwnode_properties p) 0) as [H4 | H4];
    cbn [negb]; [| eexists _, _; split; [reflexivity | tauto]].
  destruct (framing_limits_run e
              (set_dev new_controls
                 (mk_world (imx294_set_default_format kzalloc_imx294) [])))
    as (w' & Hrun & _).
  { cbn. auto. }
  rewrite Hrun. cbn [obind].
  eexists _, _. split; [reflexivity | tauto].
Qed.

(** X20: [imx294_probe] returns in every situation, and it returns 0,
    that is, registers the sub-device, exactly when the allocation and the
    device-tree match succeed, the clock is there and runs at 24 MHz, the
    regulators are found and switched on, the clock is enabled, the one-byte
    read of the identity register goes through (its content plays no role),
    the control handler is set up without error, and the media pads and the
    asynchronous registration succeed. *)
Theorem probe_succeeds_iff (p : probe_env) (e : env) :
  exists ret,
    imx294_probe p e = Some ret
    /\ (ret = 0 <->
        devm_kzalloc_ok p = true
        /\ of_match_device_ok p = true
        /\ 0 <= devm_clk_get p
        /\ u32 (clk_get_rate p) = IMX294_XCLK_FREQ
        /\ imx294_get_regulators p = 0
        /\ regulator_bulk_enable p = 0
        /\ clk_prepare_enable p = 0
        /\ i2c_transfer_read e IMX294_REG_CHIP_ID 1 <> None
        /\ v4l2_ctrl_handler_init p = 0
        /\ ctrl_hdlr_error p = 0
        /\ v4l2_fwnode_device_parse p = 0
        /\ v4l2_ctrl_new_fwnode_properties p = 0
        /\ media_entity_pads_init p = 0
        /\ 0 <= v4l2_async_register_subdev_sensor p).
Proof.
  unfold imx294_probe.
  destruct (devm_kzalloc_ok p); cbn [negb];
    [| eexists; split; [reflexivity |];
       split; [discriminate | intros (? & _); discriminate]].
  destruct (of_match_device_ok p); cbn [negb];
    [| eexists; split; [reflexivity |];
       split; [discriminate | intros (_ & ? & _); discriminate]].
  destruct (Z.ltb_spec (devm_clk_get p) 0) as [H1 | H1];
    [eexists; split; [reflexivity |]; split; [lia | intros (_ & _ & ? & _); lia] |].
  destruct (Z.eqb_spec (u32 (clk_get_rate p)) IMX294_XCLK_FREQ)
    as [H2 | H2]; cbn [negb];
    [| eexists; split; [reflexivity |];
       split; [discriminate | intros (_ & _ & _ & ? & _); contradiction]].
  destruct (Z.eqb_spec (imx294_get_regulators p) 0) as [H3 | H3];
    cbn [negb];
    [| eexists; split; [reflexivity |];
       split; [intros; contradiction
              | intros (_ & _ & _ & _ & ? & _); contradiction]].
  unfold imx294_power_on.
  destruct (Z.eqb_spec (regulator_bulk_enable p) 0) as [H4 | H4];
    cbn [negb].
  2:{ destruct (Z.eqb_spec (regulator_bulk_enable p) 0);
        [contradiction |]. cbn [negb].
      eexists; split; [reflexivity |].
      split; [intros; contradiction | tauto]. }
  destruct (Z.eqb_spec (clk_prepare_enable p) 0) as [H5 | H5];
    cbn [negb].
  2:{ destruct (Z.eqb_spec (clk_prepare_enable p) 0);
        [contradiction |]. cbn [negb].
      eexists; split; [reflexivity |].
      split; [intros; contradiction | tauto]. }
  cbn [Z.eqb negb].
  unfold imx294_identify_module, imx294_read_reg.
  change (u16 IMX294_REG_CHIP_ID) with IMX294_REG_CHIP_ID.
  change (4 <? 1) with false. cbv iota.
  destruct (i2c_transfer_read e IMX294_REG_CHIP_ID 1) as [data |].
  2:{ change (negb (- EIO =? 0)) with true. cbv iota.
      eexists; split; [reflexivity |].
      split; [discriminate | tauto]. }
  cbn [Z.eqb negb].
  destruct (init_controls_total p e) as (ret & w' & -> & Hret).
  cbn [obind].
  destruct (Z.eqb_spec ret 0) as [-> | Hr]; cbn [negb];
    [| eexists; split; [reflexivity |]; split; [intros; contradiction | tauto]].
  destruct (Z.eqb_spec (media_entity_pads_init p) 0) as [H6 | H6];
    cbn [negb];
    [| eexists; split; [reflexivity |];
       split; [intros; contradiction | tauto]].
  destruct (Z.ltb_spec (v4l2_async_register_subdev_sensor p) 0)
    as [H7 | H7];
    [eexists; split; [reflexivity |]; split; [lia | intuition lia] |].
  eexists; split; [reflexivity |].
  split; [intros _ | reflexivity].
  assert (Hsome : Some data <> None) by discriminate.
  tauto.
Qed.

End ProbeOutcome.
